(** * Carbon emission accounting tool (app.py): factor matching, override
      reconciliation, emission calculation, aggregation and formula export.

    Conventions of the embedding.
    - Text cells are [string]s, i.e. UTF-8 byte sequences. Python's
      [needle in hay] on [str] is a code-point substring test; UTF-8 is
      self-synchronising, so the byte-level substring test [str_in] agrees
      with it on well-formed text, and byte-wise lexicographic order agrees
      with code-point order.
    - Text cells are taken after the [str(...)] conversion the script applies
      to them, except the two columns the script also groups by (子类别 and
      温室气体类型): their cells are [TextCell]s, a text or a missing value,
      because [groupby] leaves out the rows whose key is missing while
      [str(...)] and [unique()] do not.
    - Numeric cells (activity data, emission factors, emissions) are exact
      rationals [Q]: binary64 rounding is abstracted away, and a numeric cell
      is never blank.
    - [sort_values] is any algorithm that returns the table rearranged in
      descending order of tonnes ([SortKind]); the order it gives to equal
      values is not fixed.
    - The factor library (a Python dict held in the session state) is a
      [gmap string FactorInfo]. *)

From Stdlib Require Import QArith Qabs Lia Lqa OrdersEx.
From Stdlib Require Import Sorting.Permutation Sorting.Sorted.
From stdpp Require Import gmap strings list fin_maps.

Open Scope string_scope.

(* ===================================================================== *)
(** * Text: Python's substring test                                        *)
(* ===================================================================== *)

Module Text.

(** [starts_with p s]: [s.startswith(p)]. *)
Fixpoint starts_with (p s : string) : bool :=
  match p, s with
  | EmptyString, _ => true
  | String _ _, EmptyString => false
  | String a p', String b s' => Ascii.eqb a b && starts_with p' s'
  end.

(** [str_in needle hay]: the Python expression [needle in hay]. *)
Fixpoint str_in (needle hay : string) : bool :=
  starts_with needle hay ||
  match hay with
  | EmptyString => false
  | String _ hay' => str_in needle hay'
  end.

(** What "contains the token" means in the specification. *)
Definition contains (hay needle : string) : Prop :=
  exists pre post : string, hay = pre +:+ needle +:+ post.

End Text.
Export Text.

(* ===================================================================== *)
(** * Numbers                                                              *)
(* ===================================================================== *)

(** [a < b] and [a > b] on numeric cells. *)
Definition Qlt_bool (a b : Q) : bool := negb (Qle_bool b a).

(** Left-to-right sum of a column. *)
Definition Qsum (l : list Q) : Q := fold_right Qplus 0%Q l.

(* ===================================================================== *)
(** * Factor library                                                       *)
(* ===================================================================== *)

(** One entry of [st.session_state.emission_factors]:
    [{"factor": ..., "unit": ..., "ghg_type": ...}]. *)
Record FactorInfo : Type := mkFactor {
  factor : Q;
  unit : string;
  ghg_type : string
}.

(** The seed library installed at start-up (app.py, lines 43-59). *)
Definition emission_factors : gmap string FactorInfo :=
  list_to_map [
    ("固定燃烧-天然气", mkFactor 2.1622 "kgCO2/m3" "CO2");
    ("固定燃烧-煤炭", mkFactor 2.38 "kgCO2/kg" "CO2");
    ("固定燃烧-柴油", mkFactor 3.0959 "kgCO2/kg" "CO2");
    ("固定燃烧-汽油", mkFactor 2.9251 "kgCO2/kg" "CO2");
    ("移动燃烧-汽油", mkFactor 2.9251 "kgCO2/kg" "CO2");
    ("移动燃烧-柴油", mkFactor 3.0959 "kgCO2/kg" "CO2");
    ("工艺排放-丙烷", mkFactor 2.9761 "kgCO2/kg" "CO2");
    ("工艺排放-二氧化碳", mkFactor 1.0 "kgCO2/kg" "CO2");
    ("无组织排放-R410A", mkFactor 2088 "kgCO2e/kg" "HFCs");
    ("无组织排放-R32", mkFactor 675 "kgCO2e/kg" "HFCs");
    ("无组织排放-甲烷(化粪池)", mkFactor 22.4 "kgCO2e/kgBOD" "CH4");
    ("外购电力-全国平均", mkFactor 0.5703 "kgCO2/kWh" "CO2");
    ("外购电力-华北区域", mkFactor 0.8843 "kgCO2/kWh" "CO2");
    ("外购电力-华东区域", mkFactor 0.7035 "kgCO2/kWh" "CO2");
    ("外购热力-蒸汽", mkFactor 110 "kgCO2/GJ" "CO2")
  ]%Q.

(* ===================================================================== *)
(** * Tables                                                               *)
(* ===================================================================== *)

(** A cell of a text column: a text, or one of the two missing values of
    pandas (a blank cell of the upload reads as NaN, a cell cleared in the
    editor as None). *)
Inductive TextCell : Type :=
| Str (s : string)
| NaN
| PyNone.

(** [str(cell)]. *)
Definition str (c : TextCell) : string :=
  match c with
  | Str s => s
  | NaN => "nan"
  | PyNone => "None"
  end.

(** [pd.notna(cell)]. *)
Definition notna (c : TextCell) : bool :=
  match c with
  | Str _ => true
  | _ => false
  end.

(** Equality of cells as [unique()] sees it: the missing values are
    values of their own. *)
Definition cell_eqb (a b : TextCell) : bool :=
  match a, b with
  | Str s, Str t => String.eqb s t
  | NaN, NaN => true
  | PyNone, PyNone => true
  | _, _ => false
  end.

(** One row of the uploaded table: the six required columns
    类别, 子类别, 排放源, 设施/过程, 活动数据, 计量单位. *)
Record Activity : Type := activity_row {
  category : string;        (* 类别 *)
  subcategory_cell : TextCell;  (* 子类别 *)
  source : string;          (* 排放源 *)
  facility : string;        (* 设施/过程 *)
  activity_data : Q;        (* 活动数据 *)
  measure_unit : string     (* 计量单位 *)
}.

(** [str(row['子类别'])]. *)
Definition subcategory (a : Activity) : string := str (subcategory_cell a).

(** A row whose 子类别 cell holds a text. *)
Definition mkActivity (cat subcat src fac : string) (data : Q) (u : string)
  : Activity :=
  {| category := cat; subcategory_cell := Str subcat; source := src;
     facility := fac; activity_data := data; measure_unit := u |}.

(** One row of [result_df] / [matched_df] / [edited_matched_df]: the
    activity plus the six columns the Matcher adds. *)
Record MatchRow : Type := match_row_of {
  act : Activity;
  suggested_type : string;  (* 建议排放源类型 *)
  emission_factor : Q;      (* 排放因子 *)
  factor_unit : string;     (* 因子单位 *)
  ghg_cell : TextCell;      (* 温室气体类型 *)
  match_status : string;    (* 匹配状态 *)
  data_source : string      (* 数据来源 *)
}.

(** [str(row['温室气体类型'])]. *)
Definition ghg (m : MatchRow) : string := str (ghg_cell m).

(** A row whose 温室气体类型 cell holds a text. *)
Definition mkMatchRow (a : Activity) (suggested : string) (ef : Q)
    (fu gas status src : string) : MatchRow :=
  {| act := a; suggested_type := suggested; emission_factor := ef;
     factor_unit := fu; ghg_cell := Str gas; match_status := status;
     data_source := src |}.

(** The literals the script writes into 匹配状态 and 数据来源. *)
Definition STATUS_MATCHED : string := "✅ 已匹配".
Definition STATUS_UNMATCHED : string := "❌ 未匹配".
Definition STATUS_MANUAL : string := "✏️ 手动".
Definition SOURCE_LIBRARY : string := "因子库".
Definition SOURCE_PENDING : string := "待补充".
Definition SOURCE_MANUAL : string := "手动修改".
Definition UNIDENTIFIED : string := "未识别".

(* ===================================================================== *)
(** * Matcher (app.py, lines 198-241)                                      *)
(* ===================================================================== *)

(** The chain of [if '1.1' in subcat: ... elif ...] that computes [key]. *)
Definition key (subcat source : string) : string :=
  if str_in "1.1" subcat then "固定燃烧-" +:+ source
  else if str_in "1.2" subcat then "移动燃烧-" +:+ source
  else if str_in "1.3" subcat then "工艺排放-" +:+ source
  else if str_in "1.4" subcat then "无组织排放-" +:+ source
  else if str_in "2.1" subcat then
    (if str_in "电" source then "外购电力-全国平均" else "外购电力-" +:+ source)
  else if str_in "2.2" subcat then "外购热力-" +:+ source
  else "".

(** [key and key in st.session_state.emission_factors], returning the entry. *)
Definition lookup_factor (lib : gmap string FactorInfo) (k : string)
  : option FactorInfo :=
  if String.eqb k "" then None else lib !! k.

(** The body of the [for idx, row in result_df.iterrows()] loop. *)
Definition match_row (lib : gmap string FactorInfo) (a : Activity) : MatchRow :=
  let k := key (subcategory a) (source a) in
  match lookup_factor lib k with
  | Some info =>
      {| act := a;
         suggested_type := k;
         emission_factor := factor info;
         factor_unit := unit info;
         ghg_cell := Str (ghg_type info);
         match_status := STATUS_MATCHED;
         data_source := SOURCE_LIBRARY |}
  | None =>
      {| act := a;
         suggested_type := if String.eqb k "" then UNIDENTIFIED else k;
         emission_factor := 0;
         factor_unit := SOURCE_PENDING;
         ghg_cell := Str "CO2";
         match_status := STATUS_UNMATCHED;
         data_source := SOURCE_PENDING |}
  end.

(** The table the Matcher stores in [st.session_state.matched_data]. *)
Definition result_df (lib : gmap string FactorInfo) (rows : list Activity)
  : list MatchRow :=
  map (match_row lib) rows.

(** The fixed rule table of the specification: rule code, pathway name. *)
Definition rule_table : list (string * string) :=
  [ ("1.1", "固定燃烧"); ("1.2", "移动燃烧"); ("1.3", "工艺排放");
    ("1.4", "无组织排放"); ("2.1", "外购电力"); ("2.2", "外购热力") ].

(* ===================================================================== *)
(** * Override Reconciler (app.py, lines 284-292)                          *)
(* ===================================================================== *)

Definition set_manual (e : MatchRow) : MatchRow :=
  {| act := act e; suggested_type := suggested_type e;
     emission_factor := emission_factor e; factor_unit := factor_unit e;
     ghg_cell := ghg_cell e;
     match_status := STATUS_MANUAL;
     data_source := SOURCE_MANUAL |}.

Definition set_status (s : string) (e : MatchRow) : MatchRow :=
  {| act := act e; suggested_type := suggested_type e;
     emission_factor := emission_factor e; factor_unit := factor_unit e;
     ghg_cell := ghg_cell e;
     match_status := s;
     data_source := data_source e |}.

(** The body of [for idx in edited_matched_df.index]: [m] is the row of
    [matched_df] (the Matcher's stored output) and [e] the row of the
    edited copy at the same index. *)
Definition reconcile_row (m e : MatchRow) : MatchRow :=
  if negb (Qeq_bool (emission_factor e) (emission_factor m)) then set_manual e
  else if Qlt_bool 0 (emission_factor e) then
    (if negb (String.eqb (data_source e) SOURCE_MANUAL)
     then set_status STATUS_MATCHED e
     else e)
  else e.

(** The whole loop. [matched_df.at[idx, ...]] raises [KeyError] when the
    baseline has no row at [idx]: [None]. *)
Fixpoint reconcile_from (idx : nat) (matched_df edited : list MatchRow)
  : option (list MatchRow) :=
  match edited with
  | [] => Some []
  | e :: edited' =>
      match matched_df !! idx with
      | None => None
      | Some m =>
          match reconcile_from (S idx) matched_df edited' with
          | None => None
          | Some out => Some (reconcile_row m e :: out)
          end
      end
  end.

Definition reconcile (matched_df edited_matched_df : list MatchRow)
  : option (list MatchRow) :=
  reconcile_from 0 matched_df edited_matched_df.

(** [manual_items]: the rows shown for separate review. *)
Definition manual_items (rows : list MatchRow) : list MatchRow :=
  List.filter (fun r => String.eqb (data_source r) SOURCE_MANUAL) rows.

(* ===================================================================== *)
(** * Calculation Engine (app.py, lines 331-334)                           *)
(* ===================================================================== *)

Definition SCOPE_ONE : string := "范围一".
Definition SCOPE_TWO : string := "范围二".

(** One row of [calc_df]: the confirmed row plus the three derived
    columns 排放量(kgCO2e), 排放量(tCO2e) and 范围. *)
Record CalcRow : Type := mkCalcRow {
  mrow : MatchRow;
  emission_kg : Q;          (* 排放量(kgCO2e) *)
  emission_t : Q;           (* 排放量(tCO2e) *)
  scope : string            (* 范围 *)
}.

Definition calc_row (r : MatchRow) : CalcRow :=
  let kg := (activity_data (act r) * emission_factor r)%Q in
  {| mrow := r;
     emission_kg := kg;
     emission_t := (kg / 1000)%Q;
     scope := if str_in "直接" (category (act r)) then SCOPE_ONE else SCOPE_TWO |}.

Definition calc_df (edited_data : list MatchRow) : list CalcRow :=
  map calc_row edited_data.

(* ===================================================================== *)
(** * Aggregator (app.py, lines 336-339, 384-385, 411-412)                 *)
(* ===================================================================== *)

(** A grouped table: one (key, tonnes) bucket per line. *)
Definition Buckets : Type := list (string * Q).

(** Sorted insertion of a group key, duplicates merged. *)
Fixpoint insert_key (k : string) (ks : list string) : list string :=
  match ks with
  | [] => [k]
  | k' :: ks' =>
      match String_as_OT.compare k k' with
      | Lt => k :: ks
      | Eq => ks
      | Gt => k' :: insert_key k ks'
      end
  end.

(** The distinct group keys in ascending order: [groupby] sorts the group
    keys ([sort=True] is its default). *)
Definition group_keys (keys : list string) : list string :=
  fold_right insert_key [] keys.

(** The rows of one group, in table order. *)
Definition group_rows (col : CalcRow -> string) (k : string) (df : list CalcRow)
  : list CalcRow :=
  List.filter (fun r => String.eqb (col r) k) df.

(** The tonnes per key of a table every row of which has a key. *)
Definition sum_by (key : CalcRow -> string) (df : list CalcRow) : Buckets :=
  map (fun k => (k, Qsum (map emission_t (group_rows key k df))))
      (group_keys (map key df)).

(** The rows [groupby] puts into groups: with its default [dropna=True] a
    row whose key cell is missing belongs to no group. *)
Definition dropna (col : CalcRow -> TextCell) (df : list CalcRow)
  : list CalcRow :=
  List.filter (fun r => notna (col r)) df.

(** [df.groupby(col)['排放量(tCO2e)'].sum()]. *)
Definition groupby_sum (col : CalcRow -> TextCell) (df : list CalcRow)
  : Buckets :=
  sum_by (fun r => str (col r)) (dropna col df).

(** [summary.get(k, default)]. *)
Definition get (summary : Buckets) (k : string) (default : Q) : Q :=
  match List.find (fun b => String.eqb (fst b) k) summary with
  | Some b => snd b
  | None => default
  end.

(** Insertion of one bucket in a table already in descending order of
    tonnes; the bucket goes in front of the first one that is not larger. *)
Fixpoint insert_desc (b : string * Q) (sorted : Buckets) : Buckets :=
  match sorted with
  | [] => [b]
  | b' :: rest =>
      if Qlt_bool (snd b) (snd b') then b' :: insert_desc b rest
      else b :: sorted
  end.

(** Descending order of tonnes. *)
Definition presented_before (b1 b2 : string * Q) : Prop := (snd b2 <= snd b1)%Q.

(** [summary.sort_values('排放量(tCO2e)', ascending=False)]. The script
    leaves [kind] at its default, 'quicksort', which rearranges the table
    into descending order of tonnes and promises nothing about the order
    of equal values. A [SortKind] is any algorithm with that contract. *)
Record SortKind : Type := {
  sort_values : Buckets -> Buckets;
  sort_values_perm : forall summary, Permutation (sort_values summary) summary;
  sort_values_sorted :
    forall summary, StronglySorted presented_before (sort_values summary)
}.

(** One of them: insertion sort, which keeps equal values in the order of
    the grouped table ([kind='stable']). *)
Definition sort_values_desc (summary : Buckets) : Buckets :=
  fold_right insert_desc [] summary.

Definition stable : SortKind.
Proof.
  assert (P : forall b l, Permutation (insert_desc b l) (b :: l)).
  { intros b l. induction l as [|b' l IH]; cbn [insert_desc].
    - apply Permutation_refl.
    - destruct (Qlt_bool (snd b) (snd b')).
      + eapply perm_trans; [apply perm_skip, IH | apply perm_swap].
      + apply Permutation_refl. }
  refine {| sort_values := sort_values_desc |}.
  - intros summary. unfold sort_values_desc.
    induction summary as [|b l IH]; cbn [fold_right].
    + apply Permutation_refl.
    + eapply perm_trans; [apply P | apply perm_skip, IH].
  - intros summary. unfold sort_values_desc.
    induction summary as [|b l IH]; cbn [fold_right]; [constructor |].
    induction IH as [|b' l' Hs IH' Hall]; cbn [insert_desc].
    + repeat constructor.
    + unfold Qlt_bool. destruct (Qle_bool (snd b') (snd b)) eqn:C; cbn [negb].
      * apply Qle_bool_iff in C.
        constructor; [constructor; assumption |].
        constructor; [exact C |].
        eapply List.Forall_impl; [| exact Hall].
        intros x Hx. unfold presented_before in *.
        eapply Qle_trans; [exact Hx | exact C].
      * assert (C' : (snd b <= snd b')%Q).
        { destruct (Qlt_le_dec (snd b) (snd b')) as [H | H].
          - apply Qlt_le_weak. exact H.
          - apply Qle_bool_iff in H. congruence. }
        constructor; [exact IH' |].
        apply List.Forall_forall. intros x Hx.
        apply (Permutation_in _ (P b l')) in Hx.
        destruct Hx as [<- | Hx]; [exact C' |].
        rewrite List.Forall_forall in Hall. apply Hall. exact Hx.
Defined.

Definition total_emission (df : list CalcRow) : Q := Qsum (map emission_t df).

(** The 范围 column is computed by the script: none of its cells is missing. *)
Definition scope_summary (df : list CalcRow) : Buckets :=
  groupby_sum (fun r => Str (scope r)) df.
Definition scope1 (df : list CalcRow) : Q := get (scope_summary df) SCOPE_ONE 0.
Definition scope2 (df : list CalcRow) : Q := get (scope_summary df) SCOPE_TWO 0.

(** The cells of the two columns the script groups by. *)
Definition ghg_of (r : CalcRow) : TextCell := ghg_cell (mrow r).
Definition subcat_of (r : CalcRow) : TextCell := subcategory_cell (act (mrow r)).

Definition ghg_summary (kind : SortKind) (df : list CalcRow) : Buckets :=
  sort_values kind (groupby_sum ghg_of df).

Definition subcat (kind : SortKind) (df : list CalcRow) : Buckets :=
  sort_values kind (groupby_sum subcat_of df).

(** [x/total*100 if total > 0 else 0]. *)
Definition percent (x total : Q) : Q :=
  if Qlt_bool 0 total then (x / total * 100)%Q else 0%Q.

(** The cells of a column in order of first appearance
    ([Series.unique()]); a missing value is kept like any other. *)
Fixpoint unique (keys : list TextCell) : list TextCell :=
  match keys with
  | [] => []
  | k :: rest => k :: List.filter (fun k' => negb (cell_eqb k' k)) (unique rest)
  end.

(** The sum of the buckets of a grouped table. *)
Definition bucket_total (summary : Buckets) : Q := Qsum (map snd summary).

(** Two buckets with the same key and the same tonnes. *)
Definition same_bucket (b b' : string * Q) : Prop :=
  fst b = fst b' /\ (snd b == snd b')%Q.

(** [summary] partitions the rows of [df] by [col]: its keys are distinct,
    every row's key is one of them (so the row is counted in exactly one
    bucket), and each bucket holds the tonnes of the rows with its key. *)
Definition partitions (col : CalcRow -> string) (summary : Buckets)
    (df : list CalcRow) : Prop :=
  List.NoDup (map fst summary) /\
  (forall r, In r df -> In (col r) (map fst summary)) /\
  (forall b, In b summary ->
     (snd b == Qsum (map emission_t (group_rows col (fst b) df)))%Q).

(** "Ties broken by first-seen order": of two buckets with equal tonnes,
    the one presented first is the one whose key appears first in the
    [keys] column of the input. *)
Definition ties_first_seen (keys : list TextCell) (summary : Buckets) : Prop :=
  forall (i j : nat) (bi bj : string * Q) (pi pj : nat),
    summary !! i = Some bi -> summary !! j = Some bj -> (i < j)%nat ->
    (snd bi == snd bj)%Q ->
    unique keys !! pi = Some (Str (fst bi)) ->
    unique keys !! pj = Some (Str (fst bj)) ->
    (pi < pj)%nat.

(* ===================================================================== *)
(** * Formula Exporter (app.py, lines 428-566)                             *)
(* ===================================================================== *)

(** The three sheets that carry data: 详细计算, 排放汇总, 温室气体分析.
    (The fourth sheet, 使用说明, is static text.) *)
Inductive Sheet : Type := WS1 | WS2 | WS3.

(** The criterion of a [SUMIF]: ["*token*"] (the cell text contains the
    token) or a plain text (the cell text is that text). *)
Inductive Criterion : Type :=
| CritContains (token : string)
| CritEquals (text : string).

(** The formulas the exporter writes. [Ref s r c] is the cell in row [r],
    column [c] (A = 1) of sheet [s]; [IfPos c t e] is [IF(c>0,t,e)];
    [SumIf cc crit sc first last] is
    [SUMIF(详细计算!$cc$first:$cc$last, crit, 详细计算!$sc$first:$sc$last)]. *)
Inductive Expr : Type :=
| Num (q : Q)
| Ref (s : Sheet) (row col : nat)
| Mul (a b : Expr)
| Div (a b : Expr)
| Add (a b : Expr)
| IfPos (c t e : Expr)
| SumIf (crit_col : nat) (crit : Criterion) (sum_col : nat) (first last : nat).

Inductive Cell : Type :=
| Text (s : string)
| Number (q : Q)
| Formula (e : Expr).

Record Workbook : Type := mkWorkbook {
  ws1 : gmap (nat * nat) Cell;
  ws2 : gmap (nat * nat) Cell;
  ws3 : gmap (nat * nat) Cell
}.

Definition sheet (wb : Workbook) (s : Sheet) : gmap (nat * nat) Cell :=
  match s with WS1 => ws1 wb | WS2 => ws2 wb | WS3 => ws3 wb end.

(** [ws.cell(row, col, value)]. *)
Definition cell (row col : nat) (v : Cell) (ws : gmap (nat * nat) Cell)
  : gmap (nat * nat) Cell :=
  <[(row, col) := v]> ws.

(** Writes the cells of one sheet row, left to right. *)
Definition write_cells (row : nat) (cells : list (nat * Cell))
    (ws : gmap (nat * nat) Cell) : gmap (nat * nat) Cell :=
  fold_left (fun ws cv => cell row (fst cv) (snd cv) ws) cells ws.

Definition headers : list string :=
  [ "类别"; "子类别"; "排放源"; "设施/过程"; "活动数据"; "计量单位";
    "建议排放源类型"; "排放因子"; "因子单位"; "温室气体类型"; "数据来源";
    "排放量(kgCO2e)"; "排放量(tCO2e)" ].

(** [for col_idx, header in enumerate(headers, 1)]. *)
Definition enumerate {A : Type} (l : list A) (start : nat) : list (nat * A) :=
  combine (seq start (length l)) l.

(** The cells of detail row [row_idx] (lines 455-473). *)
Definition detail_cells (row_idx : nat) (r : CalcRow) : list (nat * Cell) :=
  let m := mrow r in
  let a := act m in
  [ (1, Text (category a));
    (2, Text (subcategory a));
    (3, Text (source a));
    (4, Text (facility a));
    (5, Number (activity_data a));
    (6, Text (measure_unit a));
    (7, Text (suggested_type m));
    (8, Number (emission_factor m));
    (9, Text (factor_unit m));
    (10, Text (ghg m));
    (11, Text (data_source m));
    (12, Formula (Mul (Ref WS1 row_idx 5) (Ref WS1 row_idx 8)));
    (13, Formula (Div (Ref WS1 row_idx 12) (Num 1000))) ].

(** [for row_idx, (_, row) in enumerate(calc_df.iterrows(), 2)]. *)
Fixpoint write_rows (row_idx : nat) (df : list CalcRow)
    (ws : gmap (nat * nat) Cell) : gmap (nat * nat) Cell :=
  match df with
  | [] => ws
  | r :: df' =>
      write_rows (S row_idx) df' (write_cells row_idx (detail_cells row_idx r) ws)
  end.

Definition sheet1 (df : list CalcRow) : gmap (nat * nat) Cell :=
  write_rows 2 df
    (write_cells 1 (map (fun ih => (fst ih, Text (snd ih))) (enumerate headers 1)) ∅).

(** [=IF(den>0, num/den*100, 0)]. *)
Definition share (num den : Expr) : Expr :=
  IfPos den (Mul (Div num den) (Num 100)) (Num 0).

(** The scope summary sheet (lines 495-533). *)
Definition sheet2 (last_row : nat) : gmap (nat * nat) Cell :=
  let B4 := Ref WS2 4 2 in
  let B5 := Ref WS2 5 2 in
  let B6 := Ref WS2 6 2 in
  write_cells 6
    [ (1, Text "总排放量"); (2, Formula (Add B4 B5)); (3, Text "100.00");
      (4, Text "企业温室气体排放总量") ]
  (write_cells 5
    [ (1, Text "范围二：间接排放");
      (2, Formula (SumIf 1 (CritContains "间接") 13 2 last_row));
      (3, Formula (share B5 B6));
      (4, Text "外购电力+外购热力") ]
  (write_cells 4
    [ (1, Text "范围一：直接排放");
      (2, Formula (SumIf 1 (CritContains "直接") 13 2 last_row));
      (3, Formula (share B4 B6));
      (4, Text "固定燃烧+移动燃烧+工艺排放+无组织排放") ]
  (write_cells 3
    [ (1, Text "范围"); (2, Text "排放量(tCO₂e)"); (3, Text "占比(%)");
      (4, Text "备注") ]
  (write_cells 1 [ (1, Text "排放汇总表") ] ∅)))).

(** [for idx, ghg in enumerate(ghg_types, 4)] (lines 555-561); both
    [str(ghg)] and the criterion ["{ghg}"] are the text of the cell. *)
Fixpoint write_ghg (idx : nat) (ghg_types : list string) (last_row : nat)
    (ws : gmap (nat * nat) Cell) : gmap (nat * nat) Cell :=
  match ghg_types with
  | [] => ws
  | g :: rest =>
      write_ghg (S idx) rest last_row
        (write_cells idx
           [ (1, Text g);
             (2, Formula (SumIf 10 (CritEquals g) 13 2 last_row));
             (3, Formula (share (Ref WS3 idx 2) (Ref WS2 6 2))) ] ws)
  end.

Definition sheet3 (df : list CalcRow) (last_row : nat) : gmap (nat * nat) Cell :=
  write_ghg 4 (map str (unique (map ghg_of df))) last_row
    (write_cells 3
       [ (1, Text "温室气体类型"); (2, Text "排放量(tCO₂e)"); (3, Text "占比(%)") ]
    (write_cells 1 [ (1, Text "温室气体排放分析") ] ∅)).

Definition export_excel_with_formulas (df : list CalcRow) : Workbook :=
  let last_row := (length df + 1)%nat in
  {| ws1 := sheet1 df; ws2 := sheet2 last_row; ws3 := sheet3 df last_row |}.

(** ** A spreadsheet engine for these formulas *)

Definition criterion_holds (crit : Criterion) (c : option Cell) : bool :=
  match c with
  | Some (Text s) =>
      match crit with
      | CritContains token => str_in token s
      | CritEquals text => String.eqb s text
      end
  | _ => false
  end.

(** The sum of a [SUMIF]: [rows] are the row numbers of the range,
    [test] the criterion on the criterion column, [value] the value of
    the cell of the sum column. *)
Fixpoint sumif_rows (test : nat -> bool) (value : nat -> option Q)
    (rows : list nat) : option Q :=
  match rows with
  | [] => Some 0%Q
  | r :: rest =>
      if test r then
        match value r, sumif_rows test value rest with
        | Some v, Some acc => Some (v + acc)%Q
        | _, _ => None
        end
      else sumif_rows test value rest
  end.

(** Evaluation of a formula. [None] is an error value (#VALUE!, #DIV/0!)
    or exhausted recursion depth [fuel]. An empty cell counts as 0, a
    text cell inside an arithmetic formula is an error and inside the sum
    range of a [SUMIF] is skipped. *)
Fixpoint eval (fuel : nat) (wb : Workbook) (e : Expr) : option Q :=
  match fuel with
  | O => None
  | S fuel' =>
      let value (in_sum : bool) (s : Sheet) (r c : nat) : option Q :=
        match sheet wb s !! (r, c) with
        | None => Some 0%Q
        | Some (Number q) => Some q
        | Some (Text _) => if in_sum then Some 0%Q else None
        | Some (Formula e') => eval fuel' wb e'
        end in
      match e with
      | Num q => Some q
      | Ref s r c => value false s r c
      | Mul a b =>
          match eval fuel' wb a, eval fuel' wb b with
          | Some x, Some y => Some (x * y)%Q
          | _, _ => None
          end
      | Div a b =>
          match eval fuel' wb a, eval fuel' wb b with
          | Some x, Some y => if Qeq_bool y 0 then None else Some (x / y)%Q
          | _, _ => None
          end
      | Add a b =>
          match eval fuel' wb a, eval fuel' wb b with
          | Some x, Some y => Some (x + y)%Q
          | _, _ => None
          end
      | IfPos c t e =>
          match eval fuel' wb c with
          | Some v => if Qlt_bool 0 v then eval fuel' wb t else eval fuel' wb e
          | None => None
          end
      | SumIf cc crit sc first last =>
          sumif_rows (fun r => criterion_holds crit (ws1 wb !! (r, cc)))
                     (fun r => value true WS1 r sc)
                     (seq first (S last - first))
      end
  end.

(** Recursion depth that suffices for every formula of the export. *)
Definition DEPTH : nat := 16.

(** The value a spreadsheet engine shows in cell ([row], [col]) of [s]. *)
Definition cell_value (wb : Workbook) (s : Sheet) (row col : nat) : option Q :=
  eval DEPTH wb (Ref s row col).

(** The tests the two scope formulas make on a row's category cell. *)
Definition direct (c : CalcRow) : bool := str_in "直接" (category (act (mrow c))).
Definition indirect (c : CalcRow) : bool := str_in "间接" (category (act (mrow c))).

(** The engine shows the number [q] for a cell. *)
Definition shows (v : option Q) (q : Q) : Prop :=
  match v with
  | Some x => (x == q)%Q
  | None => False
  end.

(** The value last written to column [col] by a list of cell writes. *)
Definition last_write (col : nat) (cells : list (nat * Cell)) : option Cell :=
  fold_left (fun acc cv => if Nat.eqb (fst cv) col then Some (snd cv) else acc)
            cells None.

(* ===================================================================== *)
(** * The page script around the Matcher (app.py, lines 151-324)           *)
(* ===================================================================== *)

(** An uploaded table as [pd.read_excel] returns it: its column labels and
    its rows. The cells of a row are only read after the six required
    columns have been found among the labels. *)
Record DataFrame : Type := mkDataFrame {
  columns : list string;
  records : list Activity
}.

Definition required_cols : list string :=
  [ "类别"; "子类别"; "排放源"; "设施/过程"; "活动数据"; "计量单位" ].

(** [st.session_state]. *)
Record Session : Type := mkSession {
  factors : gmap string FactorInfo;         (* emission_factors *)
  uploaded_data : option DataFrame;
  matched_data : option (list MatchRow);
  edited_data : option (list MatchRow);
  calculation_done : bool
}.

(** What one run of the script puts on the page. *)
Inductive Widget : Type :=
| st_error (msg : string)
| st_success (msg : string)
| st_info (msg : string)
| upload_editor (df : DataFrame)            (* st.data_editor(df, num_rows="dynamic") *)
| match_button                              (* 🚀 开始匹配排放因子 *)
| metric (label : string) (value : Z) (delta : option Q)
| matched_editor (rows : list MatchRow)     (* st.data_editor(matched_df, ...) *)
| manual_expander (rows : list MatchRow)    (* ✏️ 手动修改项 *)
| confirm_button.                           (* ✅ 确认数据，开始计算 *)

(** The exceptions the block can raise, and the rerun request of
    [st.rerun()], which [except Exception] does not catch. *)
Inductive Raised : Type :=
| ZeroDivisionError
| KeyError
| ReadError (msg : string)
| Rerun.

(** [str(e)]. *)
Definition str_exn (e : Raised) : string :=
  match e with
  | ZeroDivisionError => "division by zero"
  | KeyError => "KeyError"
  | ReadError msg => msg
  | Rerun => ""
  end.

(** What the user does in one run: the file in the uploader (with what
    [pd.read_excel] makes of it), the edits in the two data editors, and
    the buttons pressed. *)
Record Inputs : Type := mkInputs {
  uploaded_file : option (string + DataFrame);
  edit_upload : list Activity -> list Activity;
  click_match : bool;
  edit_matched : list MatchRow -> list MatchRow;
  click_confirm : bool
}.

(** The state a run threads: the session and the page built so far. *)
Record Page : Type := mkPage {
  session : Session;
  widgets : list Widget
}.

(** Script fragments: state passing with exceptions. A raised exception
    keeps the state reached when it was raised. *)
Definition Script (A : Type) : Type := Page -> (Raised + A) * Page.

Definition ret {A : Type} (a : A) : Script A := fun p => (inr a, p).

Definition bind {A B : Type} (m : Script A) (k : A -> Script B) : Script B :=
  fun p =>
    match m p with
    | (inl e, p') => (inl e, p')
    | (inr a, p') => k a p'
    end.

Definition raise {A : Type} (e : Raised) : Script A := fun p => (inl e, p).

Notation "x <- m ;; k" := (bind m (fun x => k))
  (at level 100, m at next level, right associativity).
Notation "m ;; k" := (bind m (fun _ => k))
  (at level 100, right associativity).

Definition show (w : Widget) : Script Datatypes.unit :=
  fun p => (inr tt, {| session := session p; widgets := widgets p ++ [w] |}).

Definition read_session : Script Session := fun p => (inr (session p), p).

Definition update (f : Session -> Session) : Script Datatypes.unit :=
  fun p => (inr tt, {| session := f (session p); widgets := widgets p |}).

Definition set_uploaded_data (v : option DataFrame) (s : Session) : Session :=
  {| factors := factors s; uploaded_data := v; matched_data := matched_data s;
     edited_data := edited_data s; calculation_done := calculation_done s |}.

Definition set_matched_data (v : option (list MatchRow)) (s : Session) : Session :=
  {| factors := factors s; uploaded_data := uploaded_data s; matched_data := v;
     edited_data := edited_data s; calculation_done := calculation_done s |}.

Definition set_edited_data (v : option (list MatchRow)) (s : Session) : Session :=
  {| factors := factors s; uploaded_data := uploaded_data s;
     matched_data := matched_data s; edited_data := v;
     calculation_done := calculation_done s |}.

Definition set_calculation_done (v : bool) (s : Session) : Session :=
  {| factors := factors s; uploaded_data := uploaded_data s;
     matched_data := matched_data s; edited_data := edited_data s;
     calculation_done := v |}.

(** [try: body except Exception as e: handler(e)]; a rerun request passes
    through. *)
Definition try_except (body : Script Datatypes.unit)
    (handler : Raised -> Script Datatypes.unit) : Script Datatypes.unit :=
  fun p =>
    match body p with
    | (inl Rerun, p') => (inl Rerun, p')
    | (inl e, p') => handler e p'
    | (inr a, p') => (inr a, p')
    end.

(** [pd.read_excel(uploaded_file)]. *)
Definition read_excel (file : string + DataFrame) : Script DataFrame :=
  match file with
  | inl msg => raise (ReadError msg)
  | inr df => ret df
  end.

(** Python's [a / b] on integers. *)
Definition py_div (a b : Z) : Script Q :=
  if Z.eqb b 0 then raise ZeroDivisionError else ret (inject_Z a / inject_Z b)%Q.

(** [all(col in df.columns for col in required_cols)]. *)
Definition has_required_cols (df : DataFrame) : bool :=
  forallb (fun col => existsb (String.eqb col) (columns df)) required_cols.

(** [len(matched_df[matched_df['匹配状态'] == '✅ 已匹配'])]. *)
Definition matched (matched_df : list MatchRow) : Z :=
  Z.of_nat (length (List.filter
    (fun r => String.eqb (match_status r) STATUS_MATCHED) matched_df)).

(** [total = len(matched_df)]. *)
Definition total (matched_df : list MatchRow) : Z := Z.of_nat (length matched_df).

(** The three metrics (lines 249-254). The delta of the second one is
    [matched/total*100]. *)
Definition match_metrics (matched_df : list MatchRow) : Script Datatypes.unit :=
  show (metric "总活动数" (total matched_df) None) ;;
  rate <- py_div (matched matched_df) (total matched_df) ;;
  show (metric "已匹配" (matched matched_df) (Some (rate * 100)%Q)) ;;
  show (metric "未匹配" (total matched_df - matched matched_df) None).

(** The results block (lines 244-320). *)
Definition results_block (inp : Inputs) (matched_df : list MatchRow)
  : Script Datatypes.unit :=
  match_metrics matched_df ;;
  show (st_info "💡 提示：您可以直接修改排放因子、温室气体类型等任何字段，即使因子库中不存在该因子") ;;
  show (matched_editor matched_df) ;;
  edited_matched_df <-
    match reconcile matched_df (edit_matched inp matched_df) with
    | Some rows => ret rows
    | None => raise KeyError
    end ;;
  update (set_edited_data (Some edited_matched_df)) ;;
  (if negb (Nat.eqb (length (manual_items edited_matched_df)) 0)
   then show (manual_expander (manual_items edited_matched_df))
   else ret tt) ;;
  show confirm_button ;;
  if click_confirm inp
  then update (set_calculation_done true) ;; raise Rerun
  else ret tt.

(** The block under [if uploaded_file:] (lines 153-324). *)
Definition upload_block (inp : Inputs) (file : string + DataFrame)
  : Script Datatypes.unit :=
  try_except
    (df <- read_excel file ;;
     if negb (has_required_cols df)
     then show (st_error "❌ 文件格式不正确！必需列：类别, 子类别, 排放源, 设施/过程, 活动数据, 计量单位")
     else
       show (st_success "✅ 文件上传成功！") ;;
       update (set_uploaded_data (Some df)) ;;
       show (upload_editor df) ;;
       let edited_upload_df :=
         {| columns := columns df; records := edit_upload inp (records df) |} in
       update (set_uploaded_data (Some edited_upload_df)) ;;
       show match_button ;;
       (if click_match inp
        then
          s <- read_session ;;
          update (set_matched_data
                    (Some (result_df (factors s) (records edited_upload_df)))) ;;
          show (st_success "✅ 匹配完成！请在下方检查并手动调整")
        else ret tt) ;;
       s <- read_session ;;
       match matched_data s with
       | Some matched_df => results_block inp matched_df
       | None => ret tt
       end)
    (fun e =>
       show (st_error ("❌ 文件读取失败: " +:+ str_exn e)) ;;
       show (st_info "请确保文件格式正确")).

(** One run of lines 151-324. *)
Definition run_upload (inp : Inputs) (s : Session) : (Raised + Datatypes.unit) * Page :=
  match uploaded_file inp with
  | Some file => upload_block inp file {| session := s; widgets := [] |}
  | None => (inr tt, {| session := s; widgets := [] |})
  end.

(** The session a fresh process starts with (lines 42-68). *)
Definition initial_session : Session :=
  {| factors := emission_factors; uploaded_data := None; matched_data := None;
     edited_data := None; calculation_done := false |}.

(* ===================================================================== *)
(** * Sidebar: factor management (app.py, lines 71-106)                    *)
(* ===================================================================== *)

(** The widgets of the "add factor" form and its button. *)
Record FactorForm : Type := mkFactorForm {
  new_name : string;        (* 排放源名称 *)
  new_factor : Q;           (* 排放因子 *)
  new_unit : string;        (* 单位 *)
  new_ghg : string;         (* 温室气体 *)
  click_add : bool          (* ✅ 添加到因子库 *)
}.

(** [new_name and new_factor > 0 and new_unit]. *)
Definition form_complete (f : FactorForm) : bool :=
  negb (String.eqb (new_name f) "") && Qlt_bool 0 (new_factor f)
  && negb (String.eqb (new_unit f) "").

(** [st.session_state.emission_factors[new_name] = {...}]. *)
Definition add_factor (f : FactorForm) (lib : gmap string FactorInfo)
  : gmap string FactorInfo :=
  <[new_name f := mkFactor (new_factor f) (new_unit f) (new_ghg f)]> lib.

Definition set_factors (v : gmap string FactorInfo) (s : Session) : Session :=
  {| factors := v; uploaded_data := uploaded_data s;
     matched_data := matched_data s; edited_data := edited_data s;
     calculation_done := calculation_done s |}.

(** [total_factors = len(st.session_state.emission_factors)]. *)
Definition total_factors (lib : gmap string FactorInfo) : Z :=
  Z.of_nat (size lib).

(** The sidebar block: the counter, then the form (the table of the
    library inside the expander is display only). *)
Definition sidebar_block (f : FactorForm) : Script Datatypes.unit :=
  s <- read_session ;;
  show (metric "因子总数" (total_factors (factors s)) None) ;;
  if click_add f then
    if form_complete f then
      update (set_factors (add_factor f (factors s))) ;;
      show (st_success ("✅ 已添加: " +:+ new_name f)) ;;
      raise Rerun
    else show (st_error "⚠️ 请填写完整信息且排放因子必须大于0")
  else ret tt.

Definition run_sidebar (f : FactorForm) (s : Session)
  : (Raised + Datatypes.unit) * Page :=
  sidebar_block f {| session := s; widgets := [] |}.

(** Every entry of the library has a factor above zero. *)
Definition positive_factors (lib : gmap string FactorInfo) : Prop :=
  forall (k : string) (info : FactorInfo),
    lib !! k = Some info -> (0 < factor info)%Q.

(** One run of the script down to step 4: the sidebar, then the block
    under the uploader. *)
Definition page (f : FactorForm) (inp : Inputs) : Script Datatypes.unit :=
  sidebar_block f ;;
  match uploaded_file inp with
  | Some file => upload_block inp file
  | None => ret tt
  end.

Definition run_page (f : FactorForm) (inp : Inputs) (s : Session)
  : (Raised + Datatypes.unit) * Page :=
  page f inp {| session := s; widgets := [] |}.

(** The session state after a sequence of runs (it survives reruns). *)
Definition session_after (runs : list (FactorForm * Inputs)) (s : Session)
  : Session :=
  fold_left (fun s r => session (snd (run_page (fst r) (snd r) s))) runs s.

(** The editor of the matched table has a fixed number of rows. *)
Definition keeps_rows (inp : Inputs) : Prop :=
  forall rows : list MatchRow, length (edit_matched inp rows) = length rows.

(** The effect of one block on the session: the library, the stored
    tables and the flag before ([s]) and after ([s']) it. *)
Definition block_effect (inp : Inputs) (s s' : Session) : Prop :=
  factors s' = factors s /\
  (edited_data s' = edited_data s \/
   exists md out : list MatchRow,
     md <> [] /\ reconcile md (edit_matched inp md) = Some out /\
     edited_data s' = Some out) /\
  (calculation_done s' = calculation_done s \/
   (click_confirm inp = true /\ calculation_done s' = true)).

(* ===================================================================== *)
(** * Template (app.py, lines 113-134)                                     *)
(* ===================================================================== *)

(** The table [create_template] writes into the downloadable workbook
    (column widths and header styling apart). *)
Definition create_template : DataFrame :=
  {| columns := [ "类别"; "子类别"; "排放源"; "设施/过程"; "活动数据"; "计量单位" ];
     records :=
       [ mkActivity "范围一：直接温室气体排放" "1.1 固定燃烧" "天然气" "燃气锅炉" 1239138 "m³";
         mkActivity "范围一：直接温室气体排放" "1.2 移动燃烧" "汽油" "公务车" 11010 "kg";
         mkActivity "范围一：直接温室气体排放" "1.3 工艺排放" "丙烷" "焊接" 792 "kg";
         mkActivity "范围一：直接温室气体排放" "1.4 无组织排放" "R410A" "空调" 3.15 "kg";
         mkActivity "范围二：间接温室气体排放" "2.1 外购电力" "外购市政电" "用电" 1500000 "kWh";
         mkActivity "范围二：间接温室气体排放" "2.2 外购热力" "蒸汽" "供暖设备" 500 "GJ" ] |}.

(* ===================================================================== *)
(** * Step 4 and the slide deck figures (app.py, lines 327-339, 708-844)   *)
(* ===================================================================== *)

(** [if st.session_state.calculation_done and
        st.session_state.edited_data is not None]: the table step 4
    computes on, when it runs. *)
Definition step4 (s : Session) : option (list CalcRow) :=
  if calculation_done s then
    match edited_data s with
    | Some rows => Some (calc_df rows)
    | None => None
    end
  else None.

(** [frame.head(n)]. *)
Definition head {A : Type} (n : nat) (l : list A) : list A := firstn n l.

(** An unguarded [x/total_emission*100] on numpy floats: with a zero total
    the result is not a number ([None]); no exception is raised. *)
Definition ratio (x total : Q) : option Q :=
  if Qeq_bool total 0 then None else Some (x / total * 100)%Q.

(** Python's [max(a, b)]. *)
Definition py_max (a b : Q) : Q := if Qlt_bool a b then b else a.

(** ["范围一" if scope1 > scope2 else "范围二"] (line 760). *)
Definition main_scope (df : list CalcRow) : string :=
  if Qlt_bool (scope2 df) (scope1 df) then SCOPE_ONE else SCOPE_TWO.

(** [max(scope1, scope2)/total_emission*100] (line 761). *)
Definition dominant_share (df : list CalcRow) : option Q :=
  ratio (py_max (scope1 df) (scope2 df)) (total_emission df).

(** [subcat_data]: the six largest subcategories (lines 786-787). *)
Definition subcat_data (kind : SortKind) (df : list CalcRow) : Buckets :=
  head 6 (subcat kind df).

(** [subcat_data.iloc[0]]; [None] is the IndexError of an empty frame. *)
Definition top_source (kind : SortKind) (df : list CalcRow)
  : option (string * Q) :=
  subcat_data kind df !! 0%nat.

(** [subcat_data.head(3)['排放量(tCO2e)'].sum()/total_emission*100]. *)
Definition top3_share (kind : SortKind) (df : list CalcRow) : option Q :=
  ratio (bucket_total (head 3 (subcat_data kind df))) (total_emission df).

(* ===================================================================== *)
(** * The exported workbook in a reader's hands                            *)
(* ===================================================================== *)

(** A number typed over cell ([row], [col]) of the detail sheet 详细计算. *)
Definition type_number (row col : nat) (q : Q) (wb : Workbook) : Workbook :=
  {| ws1 := cell row col (Number q) (ws1 wb); ws2 := ws2 wb; ws3 := ws3 wb |}.

(** The same change made to a row of the confirmed table: column E of the
    detail sheet holds 活动数据, column H holds 排放因子. *)
Definition set_activity_data (q : Q) (m : MatchRow) : MatchRow :=
  {| act := {| category := category (act m);
               subcategory_cell := subcategory_cell (act m);
               source := source (act m);
               facility := facility (act m);
               activity_data := q;
               measure_unit := measure_unit (act m) |};
     suggested_type := suggested_type m;
     emission_factor := emission_factor m;
     factor_unit := factor_unit m;
     ghg_cell := ghg_cell m;
     match_status := match_status m;
     data_source := data_source m |}.

Definition set_emission_factor (q : Q) (m : MatchRow) : MatchRow :=
  {| act := act m;
     suggested_type := suggested_type m;
     emission_factor := q;
     factor_unit := factor_unit m;
     ghg_cell := ghg_cell m;
     match_status := match_status m;
     data_source := data_source m |}.

(* ===================================================================== *)
(** * Scenarios                                                            *)
(* ===================================================================== *)

(** The first row of the template (lines 115-120): natural gas burnt in a
    boiler. *)
Definition scenario_row : Activity :=
  mkActivity "范围一：直接温室气体排放" "1.1 固定燃烧" "天然气" "燃气锅炉"
             1239138 "m³".

(** The specification's scenario: the user edits the factor of the matched
    natural gas row from 2.1622 to 2.5. *)
Definition scenario_matched : MatchRow :=
  match_row emission_factors scenario_row.

Definition scenario_edited : MatchRow :=
  mkMatchRow scenario_row "固定燃烧-天然气" 2.5 "kgCO2/m3" "CO2"
             STATUS_MATCHED SOURCE_LIBRARY.

(** Two confirmed rows with equal emissions (1 t each): nitrous oxide
    first, methane second; the subcategories are in descending key order
    as well. *)
Definition tie_rows : list MatchRow :=
  [ mkMatchRow
      (mkActivity "范围一：直接温室气体排放" "1.4 无组织排放" "笑气" "实验室" 1000 "kg")
      "无组织排放-笑气" 1 "kgCO2e/kg" "N2O" STATUS_MANUAL SOURCE_MANUAL;
    mkMatchRow
      (mkActivity "范围一：直接温室气体排放" "1.1 固定燃烧" "沼气" "锅炉" 1000 "kg")
      "固定燃烧-沼气" 1 "kgCO2e/kg" "CH4" STATUS_MANUAL SOURCE_MANUAL ].

Definition tie_df : list CalcRow := calc_df tie_rows.

(** Two confirmed rows: 1000 m³ of natural gas (2.1622 t), and a row
    uploaded with a blank 子类别 cell, which the Matcher leaves unmatched
    and to which the user gives the factor 1 (1 t). *)
Definition blank_subcategory_rows : list MatchRow :=
  [ mkMatchRow
      (mkActivity "范围一：直接温室气体排放" "1.1 固定燃烧" "天然气" "燃气锅炉" 1000 "m³")
      "固定燃烧-天然气" 2.1622 "kgCO2/m3" "CO2" STATUS_MATCHED SOURCE_LIBRARY;
    mkMatchRow
      {| category := "范围一：直接温室气体排放"; subcategory_cell := NaN;
         source := "沼气"; facility := "锅炉"; activity_data := 1000;
         measure_unit := "kg" |}
      UNIDENTIFIED 1 SOURCE_PENDING "CO2" STATUS_MANUAL SOURCE_MANUAL ].

Definition blank_subcategory_df : list CalcRow :=
  calc_df blank_subcategory_rows.

(** An upload that lacks four of the six columns, and the user's input of
    a run in which nothing is edited and the match button is pressed. *)
Definition two_column_df : DataFrame :=
  {| columns := ["类别"; "子类别"]; records := [] |}.

Definition press_match (df : DataFrame) : Inputs :=
  {| uploaded_file := Some (inr df);
     edit_upload := fun rows => rows;
     click_match := true;
     edit_matched := fun rows => rows;
     click_confirm := false |}.

(** An upload with the six columns and no rows. *)
Definition empty_df : DataFrame :=
  {| columns := required_cols; records := [] |}.

(** An upload whose category names the scope without the word 间接, and
    the table the engine computes for it (0.5703 t of purchased power). *)
Definition unlabelled_upload : list Activity :=
  [ mkActivity "范围二" "2.1 外购电力" "外购市政电" "用电" 1000 "kWh" ].

Definition unlabelled_df : list CalcRow :=
  calc_df (result_df emission_factors unlabelled_upload).

(** A factor for biomass burnt in a boiler, typed into the sidebar form,
    and the scenario row with biomass as its source. *)
Definition biomass_form : FactorForm :=
  {| new_name := "固定燃烧-生物质"; new_factor := 1.5; new_unit := "kgCO2/kg";
     new_ghg := "CO2"; click_add := true |}.

Definition biomass_row : Activity :=
  mkActivity "范围一：直接温室气体排放" "1.1 固定燃烧" "生物质" "锅炉" 1239138 "kg".

(** A run in which the sidebar form is left alone, and a run on the
    template in which the match button and then the confirm button are
    pressed with nothing edited. *)
Definition idle_form : FactorForm :=
  {| new_name := ""; new_factor := 0; new_unit := ""; new_ghg := "CO2";
     click_add := false |}.

Definition confirm_template : Inputs :=
  {| uploaded_file := Some (inr create_template);
     edit_upload := fun rows => rows;
     click_match := true;
     edit_matched := fun rows => rows;
     click_confirm := true |}.

(* ********************************************************************* *)
(** * Properties                                                           *)
(* ********************************************************************* *)

(* ===================================================================== *)
(** ** Substring test                                                      *)
(* ===================================================================== *)

Lemma starts_with_app (p s : string) :
  starts_with p s = true <-> exists post, s = p +:+ post.
Proof.
  revert s. induction p as [|a p IH]; intros s; simpl.
  - split; [intros _; exists s; reflexivity | reflexivity].
  - destruct s as [|b s].
    + split; [discriminate | intros [post H]; discriminate].
    + rewrite andb_true_iff, Ascii.eqb_eq, IH. split.
      * intros [-> [post ->]]. exists post. reflexivity.
      * intros [post H]. injection H as -> ->. split; [reflexivity | eauto].
Qed.

Lemma str_in_contains (needle hay : string) :
  str_in needle hay = true <-> contains hay needle.
Proof.
  unfold contains. induction hay as [|c hay IH].
  - simpl. rewrite orb_false_r, starts_with_app. split.
    + intros [post H]. exists "", post. exact H.
    + intros [pre [post H]]. destruct pre; simpl in H.
      * exists post. exact H.
      * discriminate.
  - cbn [str_in]. rewrite orb_true_iff, IH, starts_with_app. split.
    + intros [[post H] | [pre [post H]]].
      * exists "", post. exact H.
      * exists (String c pre), post. simpl. rewrite H. reflexivity.
    + intros [pre [post H]]. destruct pre as [|d pre]; simpl in H.
      * left. exists post. exact H.
      * right. injection H as _ H. exists pre, post. exact H.
Qed.

Lemma str_in_false (needle hay : string) :
  str_in needle hay = false <-> ~ contains hay needle.
Proof.
  rewrite <- str_in_contains. destruct (str_in needle hay); split; intros H;
    try reflexivity; try discriminate; try (intros; discriminate).
  exfalso. apply H. reflexivity.
Qed.

Lemma str_in_reflect (needle hay : string) :
  reflect (contains hay needle) (str_in needle hay).
Proof.
  destruct (str_in needle hay) eqn:E; constructor.
  - apply str_in_contains. exact E.
  - apply str_in_false. exact E.
Qed.

(* ===================================================================== *)
(** ** Calculation Engine                                                  *)
(* ===================================================================== *)

Lemma scope_one_iff (r : MatchRow) :
  scope (calc_row r) = SCOPE_ONE <-> contains (category (act r)) "直接".
Proof.
  unfold calc_row; cbn [scope].
  destruct (str_in_reflect "直接" (category (act r))) as [H | H].
  - split; [intros _; exact H | reflexivity].
  - split; [discriminate | intros H'; contradiction].
Qed.

Lemma scope_two_iff (r : MatchRow) :
  scope (calc_row r) = SCOPE_TWO <-> ~ contains (category (act r)) "直接".
Proof.
  unfold calc_row; cbn [scope].
  destruct (str_in_reflect "直接" (category (act r))) as [H | H].
  - split; [discriminate | intros H'; contradiction].
  - split; [intros _; exact H | reflexivity].
Qed.

(** C2. Every row of [calc_df] carries its confirmed row unchanged; its
    emission in kg is the activity quantity times the row's factor, its
    emission in tonnes is the kg figure divided by 1000 (the unit columns
    play no part), and its scope is 范围一 exactly when the category
    contains 直接 and 范围二 otherwise. *)
Theorem C2_calc_df_rows (edited_data : list MatchRow) :
  map mrow (calc_df edited_data) = edited_data /\
  Forall (fun c : CalcRow =>
    emission_kg c = (activity_data (act (mrow c)) * emission_factor (mrow c))%Q /\
    emission_t c = (emission_kg c / 1000)%Q /\
    (forall u fu : string,
        let m := mrow c in
        let a := act m in
        let c' := calc_row
          (mkMatchRow
             (mkActivity (category a) (subcategory a) (source a) (facility a)
                         (activity_data a) u)
             (suggested_type m) (emission_factor m) fu (ghg m)
             (match_status m) (data_source m)) in
        emission_kg c' = emission_kg c /\ emission_t c' = emission_t c) /\
    (scope c = SCOPE_ONE <-> contains (category (act (mrow c))) "直接") /\
    (scope c = SCOPE_TWO <-> ~ contains (category (act (mrow c))) "直接"))
    (calc_df edited_data).
Proof.
  unfold calc_df. split.
  - rewrite map_map. cbn [mrow calc_row]. apply map_id.
  - apply Forall_map, Forall_forall. intros r _.
    split; [reflexivity |].
    split; [reflexivity |].
    split; [intros u fu; split; reflexivity |].
    split; [apply scope_one_iff | apply scope_two_iff].
Qed.

(* ===================================================================== *)
(** ** Matcher                                                             *)
(* ===================================================================== *)

Lemma status_literals_distinct : STATUS_MATCHED <> STATUS_UNMATCHED.
Proof. unfold STATUS_MATCHED, STATUS_UNMATCHED. discriminate. Qed.

(** No rule code in the subcategory: the key is empty. *)
Lemma key_no_code (sc src : string) :
  (forall code pathway, In (code, pathway) rule_table -> ~ contains sc code) ->
  key sc src = "".
Proof.
  intros H. unfold key.
  assert (F : forall code pathway,
             In (code, pathway) rule_table -> str_in code sc = false).
  { intros code pathway Hin. apply str_in_false. eapply H. exact Hin. }
  rewrite (F "1.1" "固定燃烧"), (F "1.2" "移动燃烧"), (F "1.3" "工艺排放"),
          (F "1.4" "无组织排放"), (F "2.1" "外购电力"), (F "2.2" "外购热力");
    (reflexivity || (cbn; tauto)).
Qed.

(** The key built for the first rule code found. *)
Lemma key_first_code (sc src : string) (i : nat) (code pathway : string) :
  rule_table !! i = Some (code, pathway) ->
  contains sc code ->
  (forall j code' pathway', (j < i)%nat ->
      rule_table !! j = Some (code', pathway') -> ~ contains sc code') ->
  key sc src =
    if String.eqb code "2.1" && str_in "电" src
    then "外购电力-全国平均"
    else pathway +:+ "-" +:+ src.
Proof.
  intros Hi Hc Hfirst.
  assert (F : forall j code' pathway', (j < i)%nat ->
             rule_table !! j = Some (code', pathway') -> str_in code' sc = false).
  { intros j c' p' Hj Hl. apply str_in_false. eapply Hfirst; eassumption. }
  apply str_in_contains in Hc.
  unfold key.
  do 6 (destruct i as [|i];
        [ cbn in Hi; injection Hi as <- <-; rewrite Hc; cbn;
          try destruct (str_in "电" src); reflexivity
        | match goal with
          | |- context [str_in ?c sc] =>
              rewrite (F 0%nat c _ ltac:(lia) eq_refl) ||
              rewrite (F 1%nat c _ ltac:(lia) eq_refl) ||
              rewrite (F 2%nat c _ ltac:(lia) eq_refl) ||
              rewrite (F 3%nat c _ ltac:(lia) eq_refl) ||
              rewrite (F 4%nat c _ ltac:(lia) eq_refl) ||
              rewrite (F 5%nat c _ ltac:(lia) eq_refl)
          end ]).
  cbn in Hi. discriminate.
Qed.

Lemma key_nonempty_suggested (lib : gmap string FactorInfo) (a : Activity) :
  key (subcategory a) (source a) <> "" ->
  suggested_type (match_row lib a) = key (subcategory a) (source a).
Proof.
  intros Hk. unfold match_row, lookup_factor.
  destruct (String.eqb_spec (key (subcategory a) (source a)) "") as [E | E].
  - contradiction.
  - destruct (lib !! key (subcategory a) (source a)); reflexivity.
Qed.

(** C3. The Matcher derives the candidate key from the first of the rule
    codes 1.1, 1.2, 1.3, 1.4, 2.1, 2.2 (in that order) that occurs in the
    subcategory: the key is "<pathway>-<source>", except that under 2.1 a
    source containing 电 gives the national grid average entry
    外购电力-全国平均; the suggested key column holds that key. When no rule
    code occurs, the suggested key is 未识别 and the row is unmatched. *)
Theorem C3_candidate_key (lib : gmap string FactorInfo) (a : Activity) :
  ((forall code pathway, In (code, pathway) rule_table ->
       ~ contains (subcategory a) code) ->
     suggested_type (match_row lib a) = UNIDENTIFIED /\
     match_status (match_row lib a) = STATUS_UNMATCHED) /\
  (forall (i : nat) (code pathway : string),
     rule_table !! i = Some (code, pathway) ->
     contains (subcategory a) code ->
     (forall j code' pathway', (j < i)%nat ->
         rule_table !! j = Some (code', pathway') ->
         ~ contains (subcategory a) code') ->
     suggested_type (match_row lib a) = key (subcategory a) (source a) /\
     (code <> "2.1" ->
        key (subcategory a) (source a) = pathway +:+ "-" +:+ source a) /\
     (code = "2.1" -> contains (source a) "电" ->
        key (subcategory a) (source a) = "外购电力-全国平均") /\
     (code = "2.1" -> ~ contains (source a) "电" ->
        key (subcategory a) (source a) = "外购电力-" +:+ source a)).
Proof.
  split.
  - intros Hnone. pose proof (key_no_code _ (source a) Hnone) as Hk.
    unfold match_row, lookup_factor. rewrite Hk. cbn. split; reflexivity.
  - intros i code pathway Hi Hc Hfirst.
    pose proof (key_first_code _ (source a) i code pathway Hi Hc Hfirst) as Hk.
    assert (Hne : key (subcategory a) (source a) <> "").
    { rewrite Hk.
      destruct (String.eqb code "2.1" && str_in "电" (source a)); [discriminate |].
      do 6 (destruct i as [|i]; [cbn in Hi; injection Hi as <- <-; discriminate |]).
      cbn in Hi. discriminate. }
    split; [apply key_nonempty_suggested; exact Hne |].
    split; [| split].
    + intros Hcode. rewrite Hk.
      destruct (String.eqb_spec code "2.1") as [E | E]; [contradiction | reflexivity].
    + intros -> Hs. rewrite Hk. apply str_in_contains in Hs. rewrite Hs. reflexivity.
    + intros -> Hs. rewrite Hk. apply str_in_false in Hs. rewrite Hs.
      do 6 (destruct i as [|i]; [cbn in Hi; simplify_eq; reflexivity |]).
      cbn in Hi. discriminate.
Qed.

(** The template's electricity row: code 2.1 is the first one found and
    the source 外购市政电 contains 电. *)
Lemma C3_candidate_key_witness :
  key "2.1 外购电力" "外购市政电" = "外购电力-全国平均" /\
  key "1.2 移动燃烧" "汽油" = "移动燃烧-汽油" /\
  suggested_type
    (match_row emission_factors
       (mkActivity "范围三" "其他" "木材" "锅炉" 10 "kg")) = UNIDENTIFIED.
Proof.
  pose (a := mkActivity "范围二：间接温室气体排放" "2.1 外购电力" "外购市政电"
                        "用电" 1500000 "kWh").
  pose (b := mkActivity "范围一：直接温室气体排放" "1.2 移动燃烧" "汽油"
                        "公务车" 11010 "kg").
  pose (c := mkActivity "范围三" "其他" "木材" "锅炉" 10 "kg").
  split; [| split].
  - apply (proj2 (C3_candidate_key emission_factors a) 4%nat "2.1" "外购电力").
    + reflexivity.
    + apply str_in_contains. vm_compute. reflexivity.
    + intros j c' p' Hj Hl. apply str_in_false.
      do 4 (destruct j as [|j]; [cbn in Hl; injection Hl as <- <-; vm_compute; reflexivity |]).
      lia.
    + reflexivity.
    + apply str_in_contains. vm_compute. reflexivity.
  - apply (proj2 (C3_candidate_key emission_factors b) 1%nat "1.2" "移动燃烧").
    + reflexivity.
    + apply str_in_contains. vm_compute. reflexivity.
    + intros j c' p' Hj Hl. apply str_in_false.
      destruct j as [|j]; [cbn in Hl; injection Hl as <- <-; vm_compute; reflexivity | lia].
    + discriminate.
  - apply (proj1 (C3_candidate_key emission_factors c)).
    intros code pathway Hin. apply str_in_false.
    cbn in Hin.
    repeat (destruct Hin as [Hin | Hin]; [injection Hin as <- <-; vm_compute; reflexivity |]).
    contradiction.
Defined.

(** C4. After a Matcher run the table has one row per activity, in order.
    A library hit (the candidate key is in the library) gives status
    已匹配, provenance 因子库 and the library's factor, unit and gas type; a
    miss gives status 未匹配, provenance 待补充, factor 0, unit 待补充 and gas
    type CO2. Every row has exactly one of the two statuses. *)
Theorem C4_match_result_invariant
    (lib : gmap string FactorInfo) (rows : list Activity) :
  Forall2 (fun (a : Activity) (r : MatchRow) =>
    act r = a /\
    (forall info : FactorInfo,
        key (subcategory a) (source a) <> "" ->
        lib !! key (subcategory a) (source a) = Some info ->
        match_status r = STATUS_MATCHED /\
        data_source r = SOURCE_LIBRARY /\
        emission_factor r = factor info /\
        factor_unit r = unit info /\
        ghg r = ghg_type info) /\
    (key (subcategory a) (source a) = "" \/
     lib !! key (subcategory a) (source a) = None ->
        match_status r = STATUS_UNMATCHED /\
        data_source r = SOURCE_PENDING /\
        emission_factor r = 0%Q /\
        factor_unit r = "待补充" /\
        ghg r = "CO2") /\
    (match_status r = STATUS_MATCHED \/ match_status r = STATUS_UNMATCHED) /\
    ~ (match_status r = STATUS_MATCHED /\ match_status r = STATUS_UNMATCHED))
    rows (result_df lib rows).
Proof.
  unfold result_df. induction rows as [|a rows IH]; cbn [map].
  - constructor.
  - constructor; [| exact IH].
    unfold match_row, lookup_factor.
    destruct (String.eqb_spec (key (subcategory a) (source a)) "") as [E | E].
    + cbn. split; [reflexivity |]. split; [| split; [| split]].
      * intros info Hk. contradiction.
      * intros _. repeat (split; [reflexivity |]). reflexivity.
      * right. reflexivity.
      * intros [H1 H2]. discriminate H1.
    + destruct (lib !! key (subcategory a) (source a)) as [info' |] eqn:L; cbn.
      * split; [reflexivity |]. split; [| split; [| split]].
        -- intros info _ Hinfo. injection Hinfo as <-.
           repeat (split; [reflexivity |]). reflexivity.
        -- intros [Hk | Hk]; [contradiction | discriminate].
        -- left. reflexivity.
        -- intros [H1 H2]. discriminate H2.
      * split; [reflexivity |]. split; [| split; [| split]].
        -- intros info _ Hinfo. discriminate.
        -- intros _. repeat (split; [reflexivity |]). reflexivity.
        -- right. reflexivity.
        -- intros [H1 H2]. discriminate H1.
Qed.

Lemma natural_gas_entry :
  lookup_factor emission_factors "固定燃烧-天然气"
  = Some (mkFactor 2.1622 "kgCO2/m3" "CO2").
Proof. vm_compute. reflexivity. Qed.

(** C7, as stated, fails on the code: for the scenario row the Matcher
    does resolve 固定燃烧-天然气 with factor 2.1622 and the scope is 范围一,
    but the emission is 2679264.1836 kg, which does not start with
    2679009, and 2679.2641836 t, which is not 2679.01 to two decimals. *)
Lemma C7_stated_figures_refuted :
  let m := match_row emission_factors scenario_row in
  let c := calc_row m in
  suggested_type m = "固定燃烧-天然气" /\
  emission_factor m = 2.1622%Q /\
  scope c = SCOPE_ONE /\
  (emission_kg c == 2679264.1836)%Q /\
  ~ (2679009 <= emission_kg c /\ emission_kg c < 2679010)%Q /\
  ~ (Qabs (emission_t c - 2679.01) <= 0.005)%Q.
Proof.
  cbv zeta. split; [vm_compute; reflexivity |].
  split; [vm_compute; reflexivity |].
  split; [vm_compute; reflexivity |].
  split; [vm_compute; reflexivity |].
  split.
  - intros [_ H]. vm_compute in H. discriminate H.
  - intros H. apply Qle_bool_iff in H. vm_compute in H. discriminate H.
Qed.

(** C7 (amended). For a row whose category contains 直接, whose
    subcategory contains 1.1, whose source is 天然气 and whose quantity is
    1239138, matched against the seed library: the key is 固定燃烧-天然气,
    the factor 2.1622, the emission 2679264.1836 kg, i.e. 2679.2641836 t
    (2679.26 to two decimals), and the scope 范围一. *)
Theorem C7_natural_gas_scenario (a : Activity) :
  contains (category a) "直接" ->
  contains (subcategory a) "1.1" ->
  source a = "天然气" ->
  (activity_data a == 1239138)%Q ->
  let m := match_row emission_factors a in
  let c := calc_row m in
  suggested_type m = "固定燃烧-天然气" /\
  match_status m = STATUS_MATCHED /\
  emission_factor m = 2.1622%Q /\
  (emission_kg c == 2679264.1836)%Q /\
  (emission_t c == 2679.2641836)%Q /\
  (Qabs (emission_t c - 2679.26) <= 0.005)%Q /\
  scope c = SCOPE_ONE.
Proof.
  intros Hcat Hsub Hsrc Hqty. cbv zeta.
  assert (Hm : match_row emission_factors a =
               mkMatchRow a "固定燃烧-天然气" 2.1622 "kgCO2/m3" "CO2"
                          STATUS_MATCHED SOURCE_LIBRARY).
  { unfold match_row, key. apply str_in_contains in Hsub. rewrite Hsub, Hsrc.
    change ("固定燃烧-" +:+ "天然气") with "固定燃烧-天然气".
    rewrite natural_gas_entry. reflexivity. }
  rewrite Hm. unfold calc_row, mkMatchRow. cbn [mrow emission_kg emission_t
    scope act suggested_type match_status emission_factor activity_data].
  apply str_in_contains in Hcat. rewrite Hcat.
  split; [reflexivity |]. split; [reflexivity |]. split; [reflexivity |].
  assert (Hkg : (activity_data a * 2.1622 == 2679264.1836)%Q).
  { rewrite Hqty. vm_compute. reflexivity. }
  assert (Ht : (activity_data a * 2.1622 / 1000 == 2679.2641836)%Q).
  { rewrite Hqty. vm_compute. reflexivity. }
  split; [exact Hkg |]. split; [exact Ht |].
  split; [| reflexivity].
  rewrite Ht. apply Qle_bool_iff. vm_compute. reflexivity.
Qed.

(** The scenario row itself. *)
Lemma C7_natural_gas_scenario_witness :
  let m := match_row emission_factors scenario_row in
  let c := calc_row m in
  suggested_type m = "固定燃烧-天然气" /\
  match_status m = STATUS_MATCHED /\
  emission_factor m = 2.1622%Q /\
  (emission_kg c == 2679264.1836)%Q /\
  (emission_t c == 2679.2641836)%Q /\
  (Qabs (emission_t c - 2679.26) <= 0.005)%Q /\
  scope c = SCOPE_ONE.
Proof.
  apply (C7_natural_gas_scenario scenario_row).
  - apply str_in_contains. vm_compute. reflexivity.
  - apply str_in_contains. vm_compute. reflexivity.
  - reflexivity.
  - reflexivity.
Defined.

(* ===================================================================== *)
(** ** Override Reconciler                                                 *)
(* ===================================================================== *)

Lemma Qlt_bool_iff (a b : Q) : Qlt_bool a b = true <-> (a < b)%Q.
Proof.
  unfold Qlt_bool. rewrite negb_true_iff. split.
  - intros H. apply Qnot_le_lt. intros Hle.
    apply Qle_bool_iff in Hle. congruence.
  - intros H. destruct (Qle_bool b a) eqn:E; [| reflexivity].
    apply Qle_bool_iff in E. exfalso. exact (Qlt_not_le _ _ H E).
Qed.

Lemma Qlt_bool_false_iff (a b : Q) : Qlt_bool a b = false <-> (b <= a)%Q.
Proof.
  unfold Qlt_bool. rewrite negb_false_iff. apply Qle_bool_iff.
Qed.

(** A drifted factor marks the row as a manual override. *)
Lemma reconcile_row_drift (m e : MatchRow) :
  ~ (emission_factor e == emission_factor m)%Q ->
  reconcile_row m e = set_manual e.
Proof.
  intros H. unfold reconcile_row.
  destruct (Qeq_bool (emission_factor e) (emission_factor m)) eqn:E.
  - apply Qeq_bool_iff in E. contradiction.
  - reflexivity.
Qed.

(** An unchanged positive factor that is not yet a manual override is
    normalised to matched. *)
Lemma reconcile_row_keep (m e : MatchRow) :
  (emission_factor e == emission_factor m)%Q ->
  (0 < emission_factor e)%Q ->
  data_source e <> SOURCE_MANUAL ->
  reconcile_row m e = set_status STATUS_MATCHED e.
Proof.
  intros Heq Hpos Hsrc. unfold reconcile_row.
  apply Qeq_bool_iff in Heq. rewrite Heq. cbn [negb].
  apply Qlt_bool_iff in Hpos. rewrite Hpos.
  destruct (String.eqb_spec (data_source e) SOURCE_MANUAL) as [E | E].
  - contradiction.
  - reflexivity.
Qed.

(** The loop visits every edited row, pairing it with the baseline row at
    the same index. *)
Lemma reconcile_from_rows (matched_df edited : list MatchRow) (idx : nat) :
  (idx + length edited <= length matched_df)%nat ->
  exists out : list MatchRow,
    reconcile_from idx matched_df edited = Some out /\
    length out = length edited /\
    forall (i : nat) (e : MatchRow),
      edited !! i = Some e ->
      exists m : MatchRow,
        matched_df !! (idx + i)%nat = Some m /\
        out !! i = Some (reconcile_row m e).
Proof.
  revert idx. induction edited as [|e edited IH]; intros idx Hlen.
  - exists []. split; [reflexivity |]. split; [reflexivity |].
    intros i e' H. discriminate H.
  - cbn [length] in Hlen. cbn [reconcile_from].
    destruct (lookup_lt_is_Some_2 matched_df idx ltac:(lia)) as [m Hm].
    rewrite Hm.
    destruct (IH (S idx) ltac:(lia)) as (out & Hout & Hl & Hrows).
    rewrite Hout. exists (reconcile_row m e :: out).
    split; [reflexivity |]. split; [cbn; lia |].
    intros [|i] e' He'.
    + cbn in He'. injection He' as <-. exists m.
      rewrite Nat.add_0_r. split; [exact Hm | reflexivity].
    + cbn in He'. destruct (Hrows i e' He') as (m' & Hm' & Ho).
      exists m'. split; [| exact Ho].
      replace (idx + S i)%nat with (S idx + i)%nat by lia. exact Hm'.
Qed.

(** C5. A reconciliation pass over an edited copy with the rows of the
    Matcher's stored table returns a table with the same rows, where a row
    whose edited factor differs from the stored one has provenance 手动修改
    and status ✏️ 手动 (no library is consulted), and a row whose factor is
    unchanged, greater than 0 and whose provenance is not 手动修改 has status
    ✅ 已匹配; the other columns are those of the edited row. *)
Theorem C5_override_reconciler (matched_df edited_matched_df : list MatchRow) :
  length edited_matched_df = length matched_df ->
  exists out : list MatchRow,
    reconcile matched_df edited_matched_df = Some out /\
    length out = length edited_matched_df /\
    forall (idx : nat) (m e : MatchRow),
      matched_df !! idx = Some m ->
      edited_matched_df !! idx = Some e ->
      exists r : MatchRow,
        out !! idx = Some r /\
        act r = act e /\ suggested_type r = suggested_type e /\
        emission_factor r = emission_factor e /\
        factor_unit r = factor_unit e /\ ghg r = ghg e /\
        (~ (emission_factor e == emission_factor m)%Q ->
           data_source r = SOURCE_MANUAL /\ match_status r = STATUS_MANUAL) /\
        ((emission_factor e == emission_factor m)%Q ->
         (0 < emission_factor e)%Q ->
         data_source e <> SOURCE_MANUAL ->
           match_status r = STATUS_MATCHED /\ data_source r = data_source e).
Proof.
  intros Hlen. unfold reconcile.
  destruct (reconcile_from_rows matched_df edited_matched_df 0 ltac:(lia))
    as (out & Hout & Hl & Hrows).
  exists out. split; [exact Hout |]. split; [exact Hl |].
  intros idx m e Hm He.
  destruct (Hrows idx e He) as (m' & Hm' & Ho).
  cbn in Hm'. rewrite Hm in Hm'. injection Hm' as <-.
  exists (reconcile_row m e). split; [exact Ho |].
  assert (Hcols : act (reconcile_row m e) = act e /\
                  suggested_type (reconcile_row m e) = suggested_type e /\
                  emission_factor (reconcile_row m e) = emission_factor e /\
                  factor_unit (reconcile_row m e) = factor_unit e /\
                  ghg (reconcile_row m e) = ghg e).
  { unfold reconcile_row.
    destruct (negb _); [repeat split |].
    destruct (Qlt_bool _ _); [| repeat split].
    destruct (negb _); repeat split. }
  destruct Hcols as (H1 & H2 & H3 & H4 & H5).
  repeat (split; [assumption |]). split.
  - intros Hd. rewrite (reconcile_row_drift m e Hd). split; reflexivity.
  - intros Heq Hpos Hsrc. rewrite (reconcile_row_keep m e Heq Hpos Hsrc).
    split; reflexivity.
Qed.

(** The edit of the specification's scenario (2.1622 changed to 2.5),
    reconciled against the Matcher's row. *)
Lemma C5_override_reconciler_witness :
  exists out : list MatchRow,
    reconcile [scenario_matched] [scenario_edited] = Some out /\
    length out = length [scenario_edited] /\
    forall (idx : nat) (m e : MatchRow),
      [scenario_matched] !! idx = Some m ->
      [scenario_edited] !! idx = Some e ->
      exists r : MatchRow,
        out !! idx = Some r /\
        act r = act e /\ suggested_type r = suggested_type e /\
        emission_factor r = emission_factor e /\
        factor_unit r = factor_unit e /\ ghg r = ghg e /\
        (~ (emission_factor e == emission_factor m)%Q ->
           data_source r = SOURCE_MANUAL /\ match_status r = STATUS_MANUAL) /\
        ((emission_factor e == emission_factor m)%Q ->
         (0 < emission_factor e)%Q ->
         data_source e <> SOURCE_MANUAL ->
           match_status r = STATUS_MATCHED /\ data_source r = data_source e).
Proof.
  apply (C5_override_reconciler [scenario_matched] [scenario_edited]).
  reflexivity.
Defined.

Example scenario_edit_is_flagged :
  reconcile [scenario_matched] [scenario_edited]
  = Some [set_manual scenario_edited].
Proof. vm_compute. reflexivity. Qed.

(* ===================================================================== *)
(** ** Aggregator                                                          *)
(* ===================================================================== *)

Section GroupKeys.

Local Abbreviation lt := String_as_OT.lt.

Lemma compare_Eq_eq (a b : string) : String_as_OT.compare a b = Eq -> a = b.
Proof.
  intros H. destruct (String_as_OT.compare_spec a b) as [E | E | E];
    [exact E | discriminate | discriminate].
Qed.

Lemma compare_Lt_lt (a b : string) : String_as_OT.compare a b = Lt -> lt a b.
Proof. intros H. exact H. Qed.

Lemma compare_Gt_lt (a b : string) : String_as_OT.compare a b = Gt -> lt b a.
Proof.
  intros H. destruct (String_as_OT.compare_spec a b) as [E | E | E];
    [discriminate | discriminate | exact E].
Qed.

Lemma lt_irrefl (a : string) : ~ lt a a.
Proof. apply (StrictOrder_Irreflexive (R := lt)). Qed.

Lemma lt_trans (a b c : string) : lt a b -> lt b c -> lt a c.
Proof. apply (StrictOrder_Transitive (R := lt)). Qed.

Lemma insert_key_In (x k : string) (ks : list string) :
  In x (insert_key k ks) <-> x = k \/ In x ks.
Proof.
  induction ks as [|k' ks IH]; cbn [insert_key].
  - cbn. intuition.
  - destruct (String_as_OT.compare k k') eqn:C.
    + apply compare_Eq_eq in C. subst k'. cbn. intuition.
    + cbn. intuition.
    + cbn [In]. rewrite IH. intuition.
Qed.

Lemma insert_key_sorted (k : string) (ks : list string) :
  StronglySorted lt ks -> StronglySorted lt (insert_key k ks).
Proof.
  induction ks as [|k' ks IH]; intros Hs; cbn [insert_key].
  - repeat constructor.
  - apply StronglySorted_inv in Hs. destruct Hs as [Hs Hall].
    destruct (String_as_OT.compare k k') eqn:C.
    + constructor; assumption.
    + constructor.
      * constructor; assumption.
      * constructor; [exact C |].
        eapply Forall_impl; [exact Hall |].
        intros x Hx. cbn beta in Hx. exact (lt_trans _ _ _ C Hx).
    + constructor; [apply IH; exact Hs |].
      apply List.Forall_forall. intros x Hx. apply insert_key_In in Hx.
      destruct Hx as [-> | Hx].
      * apply compare_Gt_lt. exact C.
      * rewrite List.Forall_forall in Hall. apply Hall. exact Hx.
Qed.

Lemma group_keys_In (x : string) (keys : list string) :
  In x (group_keys keys) <-> In x keys.
Proof.
  unfold group_keys. induction keys as [|k keys IH]; cbn [fold_right].
  - reflexivity.
  - rewrite insert_key_In, IH. cbn. intuition.
Qed.

Lemma group_keys_sorted (keys : list string) :
  StronglySorted lt (group_keys keys).
Proof.
  unfold group_keys. induction keys as [|k keys IH]; cbn [fold_right].
  - constructor.
  - apply insert_key_sorted. exact IH.
Qed.

Lemma sorted_NoDup (ks : list string) : StronglySorted lt ks -> List.NoDup ks.
Proof.
  induction 1 as [|k ks Hs IH Hall]; constructor.
  - intros Hin. rewrite List.Forall_forall in Hall.
    exact (lt_irrefl k (Hall k Hin)).
  - exact IH.
Qed.

Lemma group_keys_NoDup (keys : list string) : List.NoDup (group_keys keys).
Proof. apply sorted_NoDup, group_keys_sorted. Qed.

End GroupKeys.

Section Sums.

Open Scope Q_scope.

Lemma Qsum_cons (x : Q) (l : list Q) : Qsum (x :: l) = x + Qsum l.
Proof. reflexivity. Qed.

Lemma Qsum_map_ext {A : Type} (f g : A -> Q) (l : list A) :
  (forall a, In a l -> f a == g a) -> Qsum (map f l) == Qsum (map g l).
Proof.
  induction l as [|a l IH]; intros H; cbn [map].
  - reflexivity.
  - rewrite !Qsum_cons, (H a (or_introl eq_refl)), IH; [reflexivity |].
    intros b Hb. apply H. right. exact Hb.
Qed.

Lemma Qsum_map_plus {A : Type} (f g : A -> Q) (l : list A) :
  Qsum (map (fun a => f a + g a) l) == Qsum (map f l) + Qsum (map g l).
Proof.
  induction l as [|a l IH]; cbn [map].
  - reflexivity.
  - rewrite !Qsum_cons, IH. ring.
Qed.

Lemma Qsum_map_zero {A : Type} (l : list A) :
  Qsum (map (fun _ : A => 0) l) == 0.
Proof.
  induction l as [|a l IH]; cbn [map].
  - reflexivity.
  - rewrite Qsum_cons, IH. ring.
Qed.

Lemma Qsum_perm (l l' : list Q) : Permutation l l' -> Qsum l == Qsum l'.
Proof.
  induction 1 as [| x l l' _ IH | x y l | l l' l'' _ IH1 _ IH2].
  - reflexivity.
  - rewrite !Qsum_cons, IH. reflexivity.
  - rewrite !Qsum_cons. ring.
  - rewrite IH1. exact IH2.
Qed.

(** The indicator of one key, summed over a duplicate-free key list. *)
Lemma Qsum_indicator (x : string) (v : Q) (ks : list string) :
  List.NoDup ks -> In x ks ->
  Qsum (map (fun k => if String.eqb x k then v else 0) ks) == v.
Proof.
  induction 1 as [|k ks Hk Hnd IH]; intros Hin.
  - destruct Hin.
  - cbn [map]. rewrite Qsum_cons.
    destruct (String.eqb_spec x k) as [E | E].
    + subst k.
      rewrite (Qsum_map_ext _ (fun _ => 0)).
      * rewrite Qsum_map_zero. ring.
      * intros a Ha. destruct (String.eqb_spec x a) as [E | E];
          [subst a; contradiction | reflexivity].
    + destruct Hin as [Hin | Hin]; [congruence |].
      rewrite (IH Hin). ring.
Qed.

Lemma group_rows_cons (col : CalcRow -> string) (k : string)
    (r : CalcRow) (df : list CalcRow) :
  group_rows col k (r :: df) =
  if String.eqb (col r) k then r :: group_rows col k df
  else group_rows col k df.
Proof. reflexivity. Qed.

Lemma group_rows_absent (col : CalcRow -> string) (k : string)
    (df : list CalcRow) :
  ~ In k (map col df) -> group_rows col k df = [].
Proof.
  induction df as [|r df IH]; intros H; [reflexivity |].
  rewrite group_rows_cons.
  destruct (String.eqb_spec (col r) k) as [E | E].
  - exfalso. apply H. left. exact E.
  - apply IH. intros Hin. apply H. right. exact Hin.
Qed.

(** Every row falls into exactly one group, so the group sums add up to
    the column sum. *)
Lemma partition_sum (col : CalcRow -> string) (df : list CalcRow)
    (ks : list string) :
  List.NoDup ks ->
  (forall r, In r df -> In (col r) ks) ->
  Qsum (map (fun k => Qsum (map emission_t (group_rows col k df))) ks)
  == Qsum (map emission_t df).
Proof.
  intros Hnd. induction df as [|r df IH]; intros Hcov.
  - cbn [group_rows List.filter map]. apply Qsum_map_zero.
  - cbn [map]. rewrite Qsum_cons.
    rewrite (Qsum_map_ext _
      (fun k => (if String.eqb (col r) k then emission_t r else 0)
                + Qsum (map emission_t (group_rows col k df)))).
    + rewrite Qsum_map_plus, Qsum_indicator, IH.
      * reflexivity.
      * intros r' Hr'. apply Hcov. right. exact Hr'.
      * exact Hnd.
      * apply Hcov. left. reflexivity.
    + intros k _. rewrite group_rows_cons.
      destruct (String.eqb (col r) k); cbn [map]; [rewrite Qsum_cons |]; ring.
Qed.

Lemma bucket_total_sum_by (col : CalcRow -> string) (df : list CalcRow) :
  bucket_total (sum_by col df) == total_emission df.
Proof.
  unfold bucket_total, sum_by, total_emission.
  rewrite map_map. cbn [snd].
  apply partition_sum.
  - apply group_keys_NoDup.
  - intros r Hr. apply group_keys_In, in_map. exact Hr.
Qed.

(** The buckets of a [groupby] add up to the tonnes of the rows that have
    a key. *)
Lemma bucket_total_groupby (col : CalcRow -> TextCell) (df : list CalcRow) :
  bucket_total (groupby_sum col df) == total_emission (dropna col df).
Proof. unfold groupby_sum. apply bucket_total_sum_by. Qed.

Lemma dropna_all (col : CalcRow -> TextCell) (df : list CalcRow) :
  (forall r, In r df -> notna (col r) = true) -> dropna col df = df.
Proof.
  unfold dropna. induction df as [|r df IH]; intros H; [reflexivity |].
  cbn [List.filter]. rewrite (H r (or_introl eq_refl)). f_equal.
  apply IH. intros r' Hr'. apply H. right. exact Hr'.
Qed.

Lemma scope_summary_sum_by (df : list CalcRow) :
  scope_summary df = sum_by scope df.
Proof.
  unfold scope_summary, groupby_sum.
  rewrite dropna_all by reflexivity. reflexivity.
Qed.

Lemma bucket_total_sorted (kind : SortKind) (l : Buckets) :
  bucket_total (sort_values kind l) == bucket_total l.
Proof.
  unfold bucket_total. apply Qsum_perm, Permutation_map, sort_values_perm.
Qed.

Lemma get_sum_by (col : CalcRow -> string) (df : list CalcRow) (k : string) :
  get (sum_by col df) k 0 == Qsum (map emission_t (group_rows col k df)).
Proof.
  unfold get, sum_by.
  destruct (in_dec String.string_dec k (group_keys (map col df))) as [Hin | Hin].
  - induction (group_keys (map col df)) as [|k' ks IH]; [destruct Hin |].
    cbn [map List.find fst]. destruct (String.eqb_spec k' k) as [E | E].
    + subst k'. reflexivity.
    + apply IH. destruct Hin as [Hin | Hin]; [contradiction | exact Hin].
  - rewrite group_rows_absent.
    + assert (F : List.find (fun b : string * Q => String.eqb (fst b) k)
                    (map (fun k0 => (k0, Qsum (map emission_t (group_rows col k0 df))))
                         (group_keys (map col df))) = None).
      { induction (group_keys (map col df)) as [|k' ks IH]; [reflexivity |].
        cbn [map List.find fst]. destruct (String.eqb_spec k' k) as [E | E].
        - exfalso. apply Hin. left. exact E.
        - apply IH. intros H. apply Hin. right. exact H. }
      rewrite F. reflexivity.
    + intros H. apply Hin, group_keys_In. exact H.
Qed.

(** [scope_summary.get(k, 0)] is the tonnes of the rows in scope [k]. *)
Lemma get_groupby (df : list CalcRow) (k : string) :
  get (scope_summary df) k 0 == Qsum (map emission_t (group_rows scope k df)).
Proof. rewrite scope_summary_sum_by. apply get_sum_by. Qed.

Lemma filter_split_sum (p : CalcRow -> bool) (df : list CalcRow) :
  Qsum (map emission_t (List.filter p df))
  + Qsum (map emission_t (List.filter (fun r => negb (p r)) df))
  == Qsum (map emission_t df).
Proof.
  induction df as [|r df IH]; cbn [List.filter map].
  - reflexivity.
  - rewrite Qsum_cons, <- IH.
    destruct (p r); cbn [negb map]; rewrite Qsum_cons; ring.
Qed.

Lemma scope_two_is_not_one (r : MatchRow) :
  String.eqb (scope (calc_row r)) SCOPE_TWO
  = negb (String.eqb (scope (calc_row r)) SCOPE_ONE).
Proof.
  unfold calc_row. cbn [scope].
  destruct (str_in "直接" (category (act r))); vm_compute; reflexivity.
Qed.

(** Rows in 范围一 and rows in 范围二 together are all rows. *)
Lemma scope_split (edited_data : list MatchRow) :
  Qsum (map emission_t (group_rows scope SCOPE_ONE (calc_df edited_data)))
  + Qsum (map emission_t (group_rows scope SCOPE_TWO (calc_df edited_data)))
  == total_emission (calc_df edited_data).
Proof.
  unfold total_emission, group_rows.
  rewrite <- (filter_split_sum
                (fun r => String.eqb (scope r) SCOPE_ONE) (calc_df edited_data)).
  rewrite (List.filter_ext_in
             (fun r => String.eqb (scope r) SCOPE_TWO)
             (fun r => negb (String.eqb (scope r) SCOPE_ONE))).
  - reflexivity.
  - intros c Hc. unfold calc_df in Hc. apply List.in_map_iff in Hc.
    destruct Hc as (r & <- & _). apply scope_two_is_not_one.
Qed.

End Sums.

Lemma sum_by_partitions (col : CalcRow -> string) (df : list CalcRow) :
  partitions col (sum_by col df) df.
Proof.
  unfold partitions, sum_by. rewrite map_map. cbn [fst]. rewrite map_id.
  split; [apply group_keys_NoDup |]. split.
  - intros r Hr. apply group_keys_In, in_map. exact Hr.
  - intros b Hb. apply List.in_map_iff in Hb. destruct Hb as (k & <- & _).
    cbn [fst snd]. reflexivity.
Qed.

(** A [groupby] partitions the rows that have a key. *)
Lemma groupby_partitions (col : CalcRow -> TextCell) (df : list CalcRow) :
  partitions (fun r => str (col r)) (groupby_sum col df) (dropna col df).
Proof. unfold groupby_sum. apply sum_by_partitions. Qed.

Lemma sorted_partitions (kind : SortKind) (col : CalcRow -> string)
    (summary : Buckets) (df : list CalcRow) :
  partitions col summary df -> partitions col (sort_values kind summary) df.
Proof.
  intros (Hnd & Hcov & Hval).
  pose proof (sort_values_perm kind summary) as P.
  split; [| split].
  - eapply Permutation_NoDup; [| exact Hnd].
    apply Permutation_map. symmetry. exact P.
  - intros r Hr. eapply Permutation_in; [| apply Hcov; exact Hr].
    apply Permutation_map. symmetry. exact P.
  - intros b Hb. apply Hval. eapply Permutation_in; [exact P | exact Hb].
Qed.

(** *** The grouped table does not depend on the order of the rows *)

Lemma sorted_same_elements (l l' : list string) :
  StronglySorted String_as_OT.lt l -> StronglySorted String_as_OT.lt l' ->
  (forall x, In x l <-> In x l') -> l = l'.
Proof.
  intros Hl. revert l'.
  induction Hl as [|a l Hs IH Ha]; intros l' Hl' Hiff.
  - destruct l' as [|b l']; [reflexivity |].
    destruct (proj2 (Hiff b) (or_introl eq_refl)).
  - destruct Hl' as [|b l' Hs' Hb].
    + destruct (proj1 (Hiff a) (or_introl eq_refl)).
    + rewrite List.Forall_forall in Ha, Hb.
      assert (E : a = b).
      { destruct (proj1 (Hiff a) (or_introl eq_refl)) as [E | Hin];
          [symmetry; exact E |].
        destruct (proj2 (Hiff b) (or_introl eq_refl)) as [E | Hin'];
          [exact E |].
        exfalso. apply (lt_irrefl a).
        exact (lt_trans _ _ _ (Ha b Hin') (Hb a Hin)). }
      subst b. f_equal. apply IH; [exact Hs' |].
      intros x. split; intros Hx.
      * destruct (proj1 (Hiff x) (or_intror Hx)) as [E | Hin]; [| exact Hin].
        subst x. exfalso. exact (lt_irrefl a (Ha a Hx)).
      * destruct (proj2 (Hiff x) (or_intror Hx)) as [E | Hin]; [| exact Hin].
        subst x. exfalso. exact (lt_irrefl a (Hb a Hx)).
Qed.

Lemma group_keys_perm (keys keys' : list string) :
  Permutation keys keys' -> group_keys keys = group_keys keys'.
Proof.
  intros P. apply sorted_same_elements; try apply group_keys_sorted.
  intros x. rewrite !group_keys_In. split; apply Permutation_in.
  - exact P.
  - symmetry. exact P.
Qed.

Lemma filter_perm {A : Type} (p : A -> bool) (l l' : list A) :
  Permutation l l' -> Permutation (List.filter p l) (List.filter p l').
Proof.
  induction 1 as [| x l l' _ IH | x y l | l l' l'' _ IH1 _ IH2];
    cbn [List.filter].
  - constructor.
  - destruct (p x); [apply perm_skip |]; exact IH.
  - destruct (p x), (p y); try apply Permutation_refl. apply perm_swap.
  - eapply perm_trans; eassumption.
Qed.

Lemma sum_by_row_order (col : CalcRow -> string) (df df' : list CalcRow) :
  Permutation df df' -> Forall2 same_bucket (sum_by col df) (sum_by col df').
Proof.
  intros P. unfold sum_by.
  rewrite (group_keys_perm (map col df) (map col df'))
    by (apply Permutation_map; exact P).
  induction (group_keys (map col df')) as [|k ks IH]; cbn [map];
    constructor; [| exact IH].
  split; [reflexivity |]. cbn [snd].
  apply Qsum_perm, Permutation_map. unfold group_rows.
  apply filter_perm. exact P.
Qed.

Lemma groupby_sum_row_order (col : CalcRow -> TextCell) (df df' : list CalcRow) :
  Permutation df df' ->
  Forall2 same_bucket (groupby_sum col df) (groupby_sum col df').
Proof.
  intros P. unfold groupby_sum. apply sum_by_row_order.
  unfold dropna. apply filter_perm. exact P.
Qed.

(** C6 (amended). For every confirmed table: the scope buckets add up to
    the total tonnes and each row lies in exactly one of them; the gas type
    buckets and the subcategory buckets partition the rows whose key cell
    is not missing and add up to the tonnes of those rows; hence they add
    up to the total tonnes when no cell of the column is missing. The sums
    are those of exact arithmetic. *)
Theorem C6_partition_law (kind : SortKind) (edited_data : list MatchRow) :
  let df := calc_df edited_data in
  ((bucket_total (scope_summary df) == total_emission df)%Q /\
   (scope1 df + scope2 df == total_emission df)%Q /\
   partitions scope (scope_summary df) df) /\
  ((bucket_total (ghg_summary kind df) == total_emission (dropna ghg_of df))%Q /\
   partitions (fun r => str (ghg_of r)) (ghg_summary kind df)
              (dropna ghg_of df)) /\
  ((bucket_total (subcat kind df) == total_emission (dropna subcat_of df))%Q /\
   partitions (fun r => str (subcat_of r)) (subcat kind df)
              (dropna subcat_of df)) /\
  ((forall m, In m edited_data -> notna (ghg_cell m) = true) ->
   (bucket_total (ghg_summary kind df) == total_emission df)%Q /\
   (bucket_total (ghg_summary kind df) == bucket_total (scope_summary df))%Q) /\
  ((forall m, In m edited_data -> notna (subcategory_cell (act m)) = true) ->
   (bucket_total (subcat kind df) == total_emission df)%Q /\
   (bucket_total (subcat kind df) == bucket_total (scope_summary df))%Q).
Proof.
  cbv zeta.
  assert (Hs : (bucket_total (scope_summary (calc_df edited_data))
                == total_emission (calc_df edited_data))%Q).
  { rewrite scope_summary_sum_by. apply bucket_total_sum_by. }
  assert (Hg : (bucket_total (ghg_summary kind (calc_df edited_data))
                == total_emission (dropna ghg_of (calc_df edited_data)))%Q).
  { unfold ghg_summary. rewrite bucket_total_sorted.
    apply bucket_total_groupby. }
  assert (Hc : (bucket_total (subcat kind (calc_df edited_data))
                == total_emission (dropna subcat_of (calc_df edited_data)))%Q).
  { unfold subcat. rewrite bucket_total_sorted. apply bucket_total_groupby. }
  split; [| split; [| split; [| split]]].
  - split; [exact Hs |]. split.
    + unfold scope1, scope2. rewrite !get_groupby. apply scope_split.
    + rewrite scope_summary_sum_by. apply sum_by_partitions.
  - split; [exact Hg |]. apply sorted_partitions, groupby_partitions.
  - split; [exact Hc |]. apply sorted_partitions, groupby_partitions.
  - intros Hall.
    assert (E : dropna ghg_of (calc_df edited_data) = calc_df edited_data).
    { apply dropna_all. intros r Hr. unfold calc_df in Hr.
      apply List.in_map_iff in Hr. destruct Hr as (m & <- & Hm).
      exact (Hall m Hm). }
    rewrite E in Hg. split; [exact Hg |]. rewrite Hg, Hs. reflexivity.
  - intros Hall.
    assert (E : dropna subcat_of (calc_df edited_data) = calc_df edited_data).
    { apply dropna_all. intros r Hr. unfold calc_df in Hr.
      apply List.in_map_iff in Hr. destruct Hr as (m & <- & Hm).
      exact (Hall m Hm). }
    rewrite E in Hc. split; [exact Hc |]. rewrite Hc, Hs. reflexivity.
Qed.

(** C6, as stated, fails on the code: of two confirmed rows, 2.1622 t of
    natural gas and 1 t on a row whose 子类别 cell is blank, the
    subcategory buckets hold the first only. They add up to 2.1622 t
    against a total of 3.1622 t, whatever the sorting algorithm. *)
Lemma C6_missing_key_leaves_rows_out :
  (total_emission blank_subcategory_df == 3.1622)%Q /\
  (bucket_total (scope_summary blank_subcategory_df) == 3.1622)%Q /\
  groupby_sum subcat_of blank_subcategory_df
    = [("1.1 固定燃烧", (1000 * 2.1622 / 1000 + 0)%Q)] /\
  ~ (exists kind : SortKind,
       (Qabs (bucket_total (subcat kind blank_subcategory_df)
              - total_emission blank_subcategory_df) <= 1e-9)%Q).
Proof.
  split; [vm_compute; reflexivity |].
  split; [vm_compute; reflexivity |].
  split; [vm_compute; reflexivity |].
  intros (kind & H).
  assert (E : (bucket_total (subcat kind blank_subcategory_df)
               - total_emission blank_subcategory_df == -1)%Q).
  { unfold subcat. rewrite bucket_total_sorted, bucket_total_groupby.
    vm_compute. reflexivity. }
  rewrite E in H. apply Qle_bool_iff in H. vm_compute in H. discriminate H.
Qed.

Lemma lookup_sorted (summary : Buckets) (i j : nat) (bi bj : string * Q) :
  StronglySorted presented_before summary ->
  summary !! i = Some bi -> summary !! j = Some bj -> (i < j)%nat ->
  (snd bj <= snd bi)%Q.
Proof.
  intros Hs. revert i j.
  induction Hs as [|b l Hs IH Hall]; intros i j Hi Hj Hij.
  - discriminate Hi.
  - destruct j as [|j]; [lia |]. cbn in Hj.
    destruct i as [|i].
    + cbn in Hi. injection Hi as <-.
      rewrite List.Forall_forall in Hall. apply Hall.
      apply list_elem_of_In. eapply list_elem_of_lookup_2. exact Hj.
    + cbn in Hi. apply (IH i j Hi Hj). lia.
Qed.

(** C9 (amended). Each of the two presented partitions (gas type and
    subcategory) holds the buckets of the grouped table in descending
    order of tonnes. The order of buckets with equal tonnes is not fixed
    by the input: the grouped table is the same for every order of the
    rows, and the sorting algorithm may put equal values either way. *)
Theorem C9_presentation_order (kind : SortKind) (df : list CalcRow) :
  (Permutation (ghg_summary kind df) (groupby_sum ghg_of df) /\
   StronglySorted presented_before (ghg_summary kind df)) /\
  (Permutation (subcat kind df) (groupby_sum subcat_of df) /\
   StronglySorted presented_before (subcat kind df)) /\
  (forall (summary : Buckets) (i j : nat) (bi bj : string * Q),
     summary = ghg_summary kind df \/ summary = subcat kind df ->
     summary !! i = Some bi -> summary !! j = Some bj -> (i < j)%nat ->
     (snd bj <= snd bi)%Q) /\
  (forall df' : list CalcRow,
     Permutation df df' ->
     Forall2 same_bucket (groupby_sum ghg_of df) (groupby_sum ghg_of df') /\
     Forall2 same_bucket (groupby_sum subcat_of df)
             (groupby_sum subcat_of df')).
Proof.
  split; [split; [apply sort_values_perm | apply sort_values_sorted] |].
  split; [split; [apply sort_values_perm | apply sort_values_sorted] |].
  split.
  - intros summary i j bi bj Hsum Hi Hj Hij.
    apply (lookup_sorted summary i j bi bj); try assumption.
    destruct Hsum as [-> | ->]; apply sort_values_sorted.
  - intros df' P. split; apply groupby_sum_row_order; exact P.
Qed.

(** C9, as stated, fails on the code. The two gas types of [tie_rows] tie
    at 1 t; N2O is seen first in the table and CH4 first in the reversed
    table. Both tables have the same grouped table, so they are presented
    alike, and whatever the sorting algorithm does with equal values, one
    of the two is not presented in first-seen order. *)
Lemma C9_ties_not_first_seen :
  unique (map ghg_of tie_df) = [Str "N2O"; Str "CH4"] /\
  unique (map ghg_of (rev tie_df)) = [Str "CH4"; Str "N2O"] /\
  groupby_sum ghg_of (rev tie_df) = groupby_sum ghg_of tie_df /\
  Forall (fun b => Qeq_bool (snd b) 1 = true) (groupby_sum ghg_of tie_df) /\
  ~ (exists kind : SortKind,
       ties_first_seen (map ghg_of tie_df) (ghg_summary kind tie_df) /\
       ties_first_seen (map ghg_of (rev tie_df))
                       (ghg_summary kind (rev tie_df))).
Proof.
  split; [vm_compute; reflexivity |].
  split; [vm_compute; reflexivity |].
  split; [vm_compute; reflexivity |].
  split; [repeat constructor |].
  intros (kind & H1 & H2). unfold ghg_summary in H1, H2.
  assert (E : groupby_sum ghg_of (rev tie_df) = groupby_sum ghg_of tie_df).
  { vm_compute. reflexivity. }
  rewrite E in H2.
  set (q := (1000 * 1 / 1000 + 0)%Q) in *.
  assert (G : groupby_sum ghg_of tie_df = [("CH4", q); ("N2O", q)]).
  { reflexivity. }
  rewrite G in H1, H2.
  pose proof (sort_values_perm kind [("CH4", q); ("N2O", q)]) as P.
  assert (L : length (sort_values kind [("CH4", q); ("N2O", q)]) = 2%nat).
  { rewrite (Permutation_length P). reflexivity. }
  destruct (sort_values kind [("CH4", q); ("N2O", q)]) as [|x [|y [|z l]]] eqn:S;
    try discriminate L.
  assert (Hx : In x [("CH4", q); ("N2O", q)]).
  { eapply Permutation_in; [exact P | left; reflexivity]. }
  assert (Hy : In y [("CH4", q); ("N2O", q)]).
  { eapply Permutation_in; [exact P | right; left; reflexivity]. }
  assert (Hnd : x <> y).
  { intros ->. apply Permutation_sym in P.
    assert (N : List.NoDup [("CH4", q); ("N2O", q)]).
    { constructor; [intros [F | []]; discriminate F |].
      constructor; [intros [] | constructor]. }
    pose proof (Permutation_NoDup P N) as N'.
    inversion N' as [| ? ? Hnot _]. apply Hnot. left. reflexivity. }
  cbn in Hx, Hy.
  destruct Hx as [<- | [<- | []]]; destruct Hy as [<- | [<- | []]];
    try (exfalso; apply Hnd; reflexivity).
  - pose proof (H1 0%nat 1%nat _ _ 1%nat 0%nat eq_refl eq_refl ltac:(lia)
                   ltac:(reflexivity) eq_refl eq_refl). lia.
  - pose proof (H2 0%nat 1%nat _ _ 1%nat 0%nat eq_refl eq_refl ltac:(lia)
                   ltac:(reflexivity) eq_refl eq_refl). lia.
Qed.

(* ===================================================================== *)
(** ** The page script: upload gate and match rate                         *)
(* ===================================================================== *)

Lemma has_required_cols_iff (df : DataFrame) :
  has_required_cols df = true <->
  forall col, In col required_cols -> In col (columns df).
Proof.
  unfold has_required_cols. rewrite List.forallb_forall.
  split; intros H col Hcol.
  - specialize (H col Hcol). apply List.existsb_exists in H.
    destruct H as (c & Hc & E). apply String.eqb_eq in E. subst c. exact Hc.
  - apply List.existsb_exists. exists col. split; [apply H; exact Hcol |].
    apply String.eqb_refl.
Qed.

Lemma has_required_cols_false (df : DataFrame) :
  (exists col, In col required_cols /\ ~ In col (columns df)) ->
  has_required_cols df = false.
Proof.
  intros (col & Hreq & Hmiss).
  destruct (has_required_cols df) eqn:E; [| reflexivity].
  exfalso. apply Hmiss. exact (proj1 (has_required_cols_iff df) E col Hreq).
Qed.

(** Case analysis on the tests a run of the script makes. *)
Ltac script_cases :=
  repeat match goal with
         | |- context [if ?c then _ else _] => destruct c eqn:?
         | |- context [match ?c with Some _ => _ | None => _ end] =>
             destruct c eqn:?
         end.

(** C8. When a required column is missing from the uploaded table, the
    run shows the format error and nothing else, and leaves the session
    as it was: the table is not stored, the Matcher has not run and no
    match button is offered. When all six columns are present the table
    is stored and the match button is offered after the success note. *)
Theorem C8_required_columns_gate (inp : Inputs) (s : Session) (df : DataFrame) :
  uploaded_file inp = Some (inr df) ->
  ((exists col, In col required_cols /\ ~ In col (columns df)) ->
     run_upload inp s =
       (inr tt,
        {| session := s;
           widgets := [ st_error "❌ 文件格式不正确！必需列：类别, 子类别, 排放源, 设施/过程, 活动数据, 计量单位" ] |})) /\
  ((forall col, In col required_cols -> In col (columns df)) ->
     exists rest : list Widget,
       widgets (snd (run_upload inp s)) =
         st_success "✅ 文件上传成功！" :: upload_editor df :: match_button :: rest /\
       uploaded_data (session (snd (run_upload inp s))) =
         Some {| columns := columns df;
                 records := edit_upload inp (records df) |}).
Proof.
  intros Hfile. unfold run_upload. rewrite Hfile. split.
  - intros Hmiss. apply has_required_cols_false in Hmiss.
    unfold upload_block, try_except, bind, read_excel, ret.
    rewrite Hmiss. destruct s; reflexivity.
  - intros Hall. apply has_required_cols_iff in Hall.
    unfold upload_block, try_except, bind, read_excel, ret, results_block,
      match_metrics, py_div, bind, show, update, read_session, raise, ret.
    rewrite Hall. cbn.
    script_cases; cbn; eexists; split; reflexivity.
Qed.

(** An upload with only the columns 类别 and 子类别, in a fresh session. *)
Lemma C8_required_columns_gate_witness :
  run_upload (press_match two_column_df) initial_session =
    (inr tt,
     {| session := initial_session;
        widgets := [ st_error "❌ 文件格式不正确！必需列：类别, 子类别, 排放源, 设施/过程, 活动数据, 计量单位" ] |}).
Proof.
  apply (C8_required_columns_gate (press_match two_column_df)
           initial_session two_column_df eq_refl).
  exists "排放源". split.
  - cbn. tauto.
  - cbn. intros [H | [H | []]]; discriminate H.
Defined.

(* --------------------------------------------------------------------- *)

Lemma total_pos (matched_df : list MatchRow) :
  matched_df <> [] -> (0 < total matched_df)%Z.
Proof.
  intros H. unfold total. destruct matched_df; [contradiction | cbn; lia].
Qed.

Lemma matched_bounds (matched_df : list MatchRow) :
  (0 <= matched matched_df <= total matched_df)%Z.
Proof.
  unfold matched, total. split; [lia |].
  apply inj_le, List.filter_length_le.
Qed.

(** C10. The match rate is [matched/total*100] with no guard on [total].
    On the empty table the division raises ZeroDivisionError after the
    first metric has been shown; in a run on an upload with zero rows and
    the match button pressed, the handler of the enclosing [try] reports
    it on the page as 文件读取失败: division by zero, and the results table
    is not shown. On every non-empty table the three metrics are shown,
    the rate being a number between 0 and 100. *)
Theorem C10_match_rate_unguarded :
  (forall p : Page,
     match_metrics [] p =
       (inl ZeroDivisionError,
        {| session := session p;
           widgets := widgets p ++ [metric "总活动数" 0 None] |})) /\
  (forall (inp : Inputs) (s : Session) (df : DataFrame),
     uploaded_file inp = Some (inr df) ->
     has_required_cols df = true ->
     click_match inp = true ->
     edit_upload inp (records df) = [] ->
     run_upload inp s =
       (inr tt,
        {| session :=
             set_matched_data (Some [])
               (set_uploaded_data (Some {| columns := columns df; records := [] |}) s);
           widgets :=
             [ st_success "✅ 文件上传成功！"; upload_editor df; match_button;
               st_success "✅ 匹配完成！请在下方检查并手动调整";
               metric "总活动数" 0 None;
               st_error "❌ 文件读取失败: division by zero";
               st_info "请确保文件格式正确" ] |})) /\
  (forall (matched_df : list MatchRow) (p : Page),
     matched_df <> [] ->
     exists rate : Q,
       (rate == inject_Z (matched matched_df) / inject_Z (total matched_df))%Q /\
       (0 <= rate * 100 /\ rate * 100 <= 100)%Q /\
       match_metrics matched_df p =
         (inr tt,
          {| session := session p;
             widgets := widgets p ++
               [ metric "总活动数" (total matched_df) None;
                 metric "已匹配" (matched matched_df) (Some (rate * 100)%Q);
                 metric "未匹配" (total matched_df - matched matched_df) None ] |})).
Proof.
  split; [| split].
  - intros p. reflexivity.
  - intros inp s df Hfile Hcols Hclick Hrows.
    unfold run_upload. rewrite Hfile.
    unfold upload_block, try_except, bind, read_excel, ret, show, update,
      read_session. rewrite Hcols, Hclick, Hrows. cbn. reflexivity.
  - intros matched_df p Hne.
    pose proof (total_pos matched_df Hne) as Hpos.
    pose proof (matched_bounds matched_df) as [Hlo Hhi].
    exists (inject_Z (matched matched_df) / inject_Z (total matched_df))%Q.
    split; [reflexivity |].
    assert (Ht : (0 < inject_Z (total matched_df))%Q).
    { change 0%Q with (inject_Z 0). rewrite <- Zlt_Qlt. exact Hpos. }
    split.
    + split.
      * apply Qmult_le_0_compat; [| discriminate].
        apply Qle_shift_div_l; [exact Ht |].
        rewrite Qmult_0_l. change 0%Q with (inject_Z 0).
        rewrite <- Zle_Qle. exact Hlo.
      * assert (H1 : (inject_Z (matched matched_df) / inject_Z (total matched_df)
                      <= 1)%Q).
        { apply Qle_shift_div_r; [exact Ht |].
          rewrite Qmult_1_l. rewrite <- Zle_Qle. exact Hhi. }
        apply Qle_trans with (1 * 100)%Q; [| discriminate].
        apply Qmult_le_compat_r; [exact H1 | discriminate].
    + unfold match_metrics, py_div, bind, show, ret.
      destruct (Z.eqb_spec (total matched_df) 0) as [E | E]; [lia |].
      cbn. rewrite <- !app_assoc. reflexivity.
Qed.

(** The page of a run on an upload with the six columns and no rows, the
    match button pressed. *)
Lemma C10_match_rate_unguarded_witness :
  widgets (snd (run_upload (press_match empty_df) initial_session)) =
    [ st_success "✅ 文件上传成功！"; upload_editor empty_df; match_button;
      st_success "✅ 匹配完成！请在下方检查并手动调整";
      metric "总活动数" 0 None;
      st_error "❌ 文件读取失败: division by zero";
      st_info "请确保文件格式正确" ].
Proof.
  rewrite (proj1 (proj2 C10_match_rate_unguarded) (press_match empty_df)
             initial_session empty_df eq_refl eq_refl eq_refl eq_refl).
  reflexivity.
Defined.

(* ===================================================================== *)
(** ** Formula Exporter                                                    *)
(* ===================================================================== *)

(** *** Unfolding equations of the engine *)

Lemma eval_Num (n : nat) (wb : Workbook) (q : Q) :
  eval (S n) wb (Num q) = Some q.
Proof. reflexivity. Qed.

Lemma eval_Ref (n : nat) (wb : Workbook) (s : Sheet) (r c : nat) :
  eval (S n) wb (Ref s r c) =
  match sheet wb s !! (r, c) with
  | None => Some 0%Q
  | Some (Number q) => Some q
  | Some (Text _) => None
  | Some (Formula e') => eval n wb e'
  end.
Proof. reflexivity. Qed.

Lemma eval_Mul (n : nat) (wb : Workbook) (a b : Expr) :
  eval (S n) wb (Mul a b) =
  match eval n wb a, eval n wb b with
  | Some x, Some y => Some (x * y)%Q
  | _, _ => None
  end.
Proof. reflexivity. Qed.

Lemma eval_Div (n : nat) (wb : Workbook) (a b : Expr) :
  eval (S n) wb (Div a b) =
  match eval n wb a, eval n wb b with
  | Some x, Some y => if Qeq_bool y 0 then None else Some (x / y)%Q
  | _, _ => None
  end.
Proof. reflexivity. Qed.

Lemma eval_Add (n : nat) (wb : Workbook) (a b : Expr) :
  eval (S n) wb (Add a b) =
  match eval n wb a, eval n wb b with
  | Some x, Some y => Some (x + y)%Q
  | _, _ => None
  end.
Proof. reflexivity. Qed.

Lemma eval_IfPos (n : nat) (wb : Workbook) (c t e : Expr) :
  eval (S n) wb (IfPos c t e) =
  match eval n wb c with
  | Some v => if Qlt_bool 0 v then eval n wb t else eval n wb e
  | None => None
  end.
Proof. reflexivity. Qed.

Lemma eval_SumIf (n : nat) (wb : Workbook) (cc : nat) (crit : Criterion)
    (sc first last : nat) :
  eval (S n) wb (SumIf cc crit sc first last) =
  sumif_rows
    (fun r => criterion_holds crit (ws1 wb !! (r, cc)))
    (fun r => match ws1 wb !! (r, sc) with
              | None => Some 0%Q
              | Some (Number q) => Some q
              | Some (Text _) => Some 0%Q
              | Some (Formula e') => eval n wb e'
              end)
    (seq first (S last - first)).
Proof. reflexivity. Qed.

(** *** Cells of the sheets *)

Lemma write_cells_snoc (row : nat) (cells : list (nat * Cell)) (cv : nat * Cell)
    (ws : gmap (nat * nat) Cell) :
  write_cells row (cells ++ [cv]) ws
  = cell row (fst cv) (snd cv) (write_cells row cells ws).
Proof. unfold write_cells. rewrite fold_left_app. reflexivity. Qed.

Lemma last_write_snoc (col : nat) (cells : list (nat * Cell)) (cv : nat * Cell) :
  last_write col (cells ++ [cv])
  = if Nat.eqb (fst cv) col then Some (snd cv) else last_write col cells.
Proof. unfold last_write. rewrite fold_left_app. reflexivity. Qed.

Lemma write_cells_same_row (row col : nat) (cells : list (nat * Cell))
    (ws : gmap (nat * nat) Cell) :
  write_cells row cells ws !! (row, col) =
  match last_write col cells with
  | Some v => Some v
  | None => ws !! (row, col)
  end.
Proof.
  induction cells as [|cv cells IH] using rev_ind.
  - reflexivity.
  - rewrite write_cells_snoc, last_write_snoc. unfold cell.
    destruct (Nat.eqb_spec (fst cv) col) as [E | E].
    + subst col. apply lookup_insert_eq.
    + rewrite lookup_insert_ne; [exact IH |].
      intros H. injection H as H. contradiction.
Qed.

Lemma write_cells_other_row (row r col : nat) (cells : list (nat * Cell))
    (ws : gmap (nat * nat) Cell) :
  r <> row -> write_cells row cells ws !! (r, col) = ws !! (r, col).
Proof.
  intros Hr. induction cells as [|cv cells IH] using rev_ind.
  - reflexivity.
  - rewrite write_cells_snoc. unfold cell.
    rewrite lookup_insert_ne; [exact IH |].
    intros H. injection H as H _. congruence.
Qed.

Lemma write_rows_above (row_idx r col : nat) (df : list CalcRow)
    (ws : gmap (nat * nat) Cell) :
  (r < row_idx)%nat -> write_rows row_idx df ws !! (r, col) = ws !! (r, col).
Proof.
  revert row_idx ws. induction df as [|c df IH]; intros row_idx ws Hr.
  - reflexivity.
  - cbn [write_rows]. rewrite IH by lia.
    apply write_cells_other_row. lia.
Qed.

Lemma write_rows_lookup (row_idx i col : nat) (df : list CalcRow) (c : CalcRow)
    (v : Cell) (ws : gmap (nat * nat) Cell) :
  df !! i = Some c ->
  last_write col (detail_cells (row_idx + i) c) = Some v ->
  write_rows row_idx df ws !! ((row_idx + i)%nat, col) = Some v.
Proof.
  revert row_idx i ws. induction df as [|c' df IH]; intros row_idx i ws Hi Hv.
  - discriminate Hi.
  - cbn [write_rows]. destruct i as [|i].
    + cbn in Hi. injection Hi as ->. rewrite Nat.add_0_r in *.
      rewrite write_rows_above by lia.
      rewrite write_cells_same_row, Hv. reflexivity.
    + cbn in Hi. replace (row_idx + S i)%nat with (S row_idx + i)%nat in * by lia.
      apply IH; assumption.
Qed.

Lemma sheet1_lookup (df : list CalcRow) (i col : nat) (c : CalcRow) (v : Cell) :
  df !! i = Some c ->
  last_write col (detail_cells (2 + i) c) = Some v ->
  sheet1 df !! ((2 + i)%nat, col) = Some v.
Proof.
  intros Hi Hv. unfold sheet1.
  exact (write_rows_lookup 2 i col df c v _ Hi Hv).
Qed.

Lemma lookup_map {A B : Type} (f : A -> B) (l : list A) (i : nat) (a : A) :
  l !! i = Some a -> map f l !! i = Some (f a).
Proof.
  revert i. induction l as [|x l IH]; intros i H.
  - discriminate H.
  - destruct i as [|i]; cbn in *.
    + injection H as ->. reflexivity.
    + apply IH. exact H.
Qed.

Lemma lookup_map_inv {A B : Type} (f : A -> B) (l : list A) (i : nat) (b : B) :
  map f l !! i = Some b -> exists a, l !! i = Some a /\ b = f a.
Proof.
  revert i. induction l as [|x l IH]; intros i H.
  - discriminate H.
  - destruct i as [|i]; cbn in *.
    + injection H as <-. exists x. split; reflexivity.
    + apply IH. exact H.
Qed.

(** *** The detail sheet *)

Section Detail.

Variable edited_data : list MatchRow.
Let df : list CalcRow := calc_df edited_data.
Let wb : Workbook := export_excel_with_formulas df.

Lemma detail_text_cell (i col : nat) (m : MatchRow) (s : string) :
  edited_data !! i = Some m ->
  last_write col (detail_cells (2 + i) (calc_row m)) = Some (Text s) ->
  ws1 wb !! ((2 + i)%nat, col) = Some (Text s).
Proof.
  intros Hi Hv. apply (sheet1_lookup df i col (calc_row m)); [| exact Hv].
  apply lookup_map. exact Hi.
Qed.

(** [=E{r}*H{r}] evaluates to the row's emission in kg. *)
Lemma eval_detail_kg (n i : nat) (m : MatchRow) :
  edited_data !! i = Some m ->
  eval (S (S n)) wb (Mul (Ref WS1 (2 + i) 5) (Ref WS1 (2 + i) 8))
  = Some (emission_kg (calc_row m)).
Proof.
  intros Hi. pose proof (lookup_map calc_row _ _ _ Hi) as Hc.
  rewrite eval_Mul, !eval_Ref. cbn [sheet wb export_excel_with_formulas ws1].
  rewrite (sheet1_lookup df i 5 (calc_row m) _ Hc eq_refl).
  rewrite (sheet1_lookup df i 8 (calc_row m) _ Hc eq_refl).
  reflexivity.
Qed.

(** [=L{r}/1000] evaluates to the row's emission in tonnes. *)
Lemma eval_detail_t (n i : nat) (m : MatchRow) :
  edited_data !! i = Some m ->
  eval (S (S (S (S n)))) wb (Div (Ref WS1 (2 + i) 12) (Num 1000))
  = Some (emission_t (calc_row m)).
Proof.
  intros Hi. pose proof (lookup_map calc_row _ _ _ Hi) as Hc.
  rewrite eval_Div, eval_Ref, eval_Num.
  cbn [sheet wb export_excel_with_formulas ws1].
  rewrite (sheet1_lookup df i 12 (calc_row m) _ Hc eq_refl). cbn [snd].
  rewrite (eval_detail_kg n i m Hi). reflexivity.
Qed.

(** A [SUMIF] over the data rows of the detail sheet, summing column M,
    adds the tonnes of the rows that meet the criterion. *)
Lemma sumif_detail (n : nat) (test : nat -> bool) (p : CalcRow -> bool)
    (rows : list MatchRow) (start : nat) :
  (forall i m, rows !! i = Some m ->
     edited_data !! (start + i)%nat = Some m /\
     test (2 + (start + i))%nat = p (calc_row m)) ->
  sumif_rows test
    (fun r => match ws1 wb !! (r, 13%nat) with
              | None => Some 0%Q
              | Some (Number q) => Some q
              | Some (Text _) => Some 0%Q
              | Some (Formula e') => eval (S (S (S (S n)))) wb e'
              end)
    (seq (2 + start) (length rows))
  = Some (Qsum (map emission_t (List.filter p (calc_df rows)))).
Proof.
  revert start. induction rows as [|m rows IH]; intros start H.
  - reflexivity.
  - cbn [length seq sumif_rows calc_df map List.filter].
    destruct (H 0%nat m eq_refl) as [Hm Ht]. rewrite Nat.add_0_r in Hm, Ht.
    change (S (S start)) with (2 + start)%nat. rewrite Ht.
    change (S (2 + start)) with (2 + S start)%nat.
    rewrite (IH (S start)).
    + fold (calc_df rows).
      destruct (p (calc_row m)); [| reflexivity].
      cbn [ws1 wb export_excel_with_formulas].
      rewrite (sheet1_lookup df start 13 (calc_row m) _
                 (lookup_map calc_row _ _ _ Hm) eq_refl). cbn [snd].
      rewrite (eval_detail_t n start m Hm). reflexivity.
    + intros i m' Hi. specialize (H (S i) m' Hi).
      replace (start + S i)%nat with (S start + i)%nat in H by lia. exact H.
Qed.

End Detail.

(** *** The summary sheets *)

Section Summary.

Variable edited_data : list MatchRow.
Let df : list CalcRow := calc_df edited_data.
Let wb : Workbook := export_excel_with_formulas df.

Lemma data_rows : (S (length df + 1) - 2)%nat = length edited_data.
Proof. unfold df, calc_df. rewrite length_map. lia. Qed.

Lemma eval_sumif_contains (n : nat) (token : string) :
  eval (S (S (S (S (S n))))) wb
       (SumIf 1 (CritContains token) 13 2 (length df + 1))
  = Some (Qsum (map emission_t
            (List.filter (fun c => str_in token (category (act (mrow c)))) df))).
Proof.
  rewrite eval_SumIf, data_rows. unfold wb, df.
  apply (sumif_detail edited_data n _ _ edited_data 0).
  intros i m Hi. split; [exact Hi |].
  change (2 + (0 + i))%nat with (2 + i)%nat. cbn beta.
  rewrite (detail_text_cell edited_data i 1 m _ Hi eq_refl).
  reflexivity.
Qed.

Lemma eval_sumif_ghg (n : nat) (g : string) :
  eval (S (S (S (S (S n))))) wb
       (SumIf 10 (CritEquals g) 13 2 (length df + 1))
  = Some (Qsum (map emission_t (group_rows (fun c => str (ghg_of c)) g df))).
Proof.
  rewrite eval_SumIf, data_rows. unfold wb, df.
  apply (sumif_detail edited_data n _ (fun c => String.eqb (str (ghg_of c)) g)
           edited_data 0).
  intros i m Hi. split; [exact Hi |].
  change (2 + (0 + i))%nat with (2 + i)%nat. cbn beta.
  rewrite (detail_text_cell edited_data i 10 m _ Hi eq_refl).
  reflexivity.
Qed.

Lemma sheet2_B4 (last_row : nat) :
  sheet2 last_row !! (4%nat, 2%nat)
  = Some (Formula (SumIf 1 (CritContains "直接") 13 2 last_row)).
Proof.
  unfold sheet2.
  rewrite !write_cells_other_row by lia.
  rewrite write_cells_same_row. reflexivity.
Qed.

Lemma sheet2_B5 (last_row : nat) :
  sheet2 last_row !! (5%nat, 2%nat)
  = Some (Formula (SumIf 1 (CritContains "间接") 13 2 last_row)).
Proof.
  unfold sheet2.
  rewrite !write_cells_other_row by lia.
  rewrite write_cells_same_row. reflexivity.
Qed.

Lemma sheet2_B6 (last_row : nat) :
  sheet2 last_row !! (6%nat, 2%nat)
  = Some (Formula (Add (Ref WS2 4 2) (Ref WS2 5 2))).
Proof. unfold sheet2. rewrite write_cells_same_row. reflexivity. Qed.

Lemma sheet2_C4 (last_row : nat) :
  sheet2 last_row !! (4%nat, 3%nat)
  = Some (Formula (share (Ref WS2 4 2) (Ref WS2 6 2))).
Proof.
  unfold sheet2.
  rewrite !write_cells_other_row by lia.
  rewrite write_cells_same_row. reflexivity.
Qed.

Lemma sheet2_C5 (last_row : nat) :
  sheet2 last_row !! (5%nat, 3%nat)
  = Some (Formula (share (Ref WS2 5 2) (Ref WS2 6 2))).
Proof.
  unfold sheet2.
  rewrite !write_cells_other_row by lia.
  rewrite write_cells_same_row. reflexivity.
Qed.

(** B4, B5 and B6 of 排放汇总, at any sufficient depth. *)
Lemma eval_B4 (n : nat) :
  eval (S (S (S (S (S (S n)))))) wb (Ref WS2 4 2)
  = Some (Qsum (map emission_t (List.filter direct df))).
Proof.
  rewrite eval_Ref. cbn [sheet wb export_excel_with_formulas ws2].
  rewrite sheet2_B4. apply eval_sumif_contains.
Qed.

Lemma eval_B5 (n : nat) :
  eval (S (S (S (S (S (S n)))))) wb (Ref WS2 5 2)
  = Some (Qsum (map emission_t (List.filter indirect df))).
Proof.
  rewrite eval_Ref. cbn [sheet wb export_excel_with_formulas ws2].
  rewrite sheet2_B5. apply eval_sumif_contains.
Qed.

Lemma eval_B6 (n : nat) :
  eval (S (S (S (S (S (S (S (S n)))))))) wb (Ref WS2 6 2)
  = Some (Qsum (map emission_t (List.filter direct df))
          + Qsum (map emission_t (List.filter indirect df)))%Q.
Proof.
  rewrite eval_Ref. cbn [sheet wb export_excel_with_formulas ws2].
  rewrite sheet2_B6, eval_Add, eval_B4, eval_B5. reflexivity.
Qed.

(** The in-memory scope figures as sums over the rows. *)
Lemma scope1_direct :
  (scope1 df == Qsum (map emission_t (List.filter direct df)))%Q.
Proof.
  unfold scope1. rewrite get_groupby. unfold group_rows.
  rewrite (List.filter_ext_in (fun r => String.eqb (scope r) SCOPE_ONE) direct);
    [reflexivity |].
  intros c Hc. apply List.in_map_iff in Hc. destruct Hc as (m & <- & _).
  unfold direct, calc_row. cbn [scope mrow].
  destruct (str_in "直接" (category (act m))); reflexivity.
Qed.

Lemma scope2_not_direct :
  (scope2 df
   == Qsum (map emission_t (List.filter (fun c => negb (direct c)) df)))%Q.
Proof.
  unfold scope2. rewrite get_groupby. unfold group_rows.
  rewrite (List.filter_ext_in (fun r => String.eqb (scope r) SCOPE_TWO)
             (fun c => negb (direct c))); [reflexivity |].
  intros c Hc. apply List.in_map_iff in Hc. destruct Hc as (m & <- & _).
  unfold direct, calc_row. cbn [scope mrow].
  destruct (str_in "直接" (category (act m))); reflexivity.
Qed.

End Summary.

Lemma cell_eqb_spec (a b : TextCell) : reflect (a = b) (cell_eqb a b).
Proof.
  destruct a as [s | |], b as [t | |]; cbn [cell_eqb];
    try (constructor; congruence).
  destruct (String.eqb_spec s t) as [E | E]; constructor; congruence.
Qed.

Lemma unique_In (x : TextCell) (keys : list TextCell) :
  In x (unique keys) <-> In x keys.
Proof.
  induction keys as [|k keys IH]; cbn [unique].
  - reflexivity.
  - cbn [In]. rewrite List.filter_In, IH.
    destruct (cell_eqb_spec x k) as [E | E]; cbn [negb].
    + subst x. intuition.
    + intuition congruence.
Qed.

(** When no missing cell reads like the text [g], the rows of group [g]
    are the rows whose cell reads [g]. *)
Lemma group_rows_dropna (col : CalcRow -> TextCell) (g : string)
    (df : list CalcRow) :
  (forall r, In r df -> str (col r) = g -> col r = Str g) ->
  group_rows (fun r => str (col r)) g (dropna col df)
  = group_rows (fun r => str (col r)) g df.
Proof.
  unfold group_rows, dropna. induction df as [|r df IH]; intros H.
  - reflexivity.
  - cbn [List.filter].
    assert (IH' := IH (fun r' Hr' => H r' (or_intror Hr'))).
    destruct (notna (col r)) eqn:N; cbn [List.filter].
    + rewrite IH'. reflexivity.
    + destruct (String.eqb_spec (str (col r)) g) as [E | E]; [| exact IH'].
      rewrite (H r (or_introl eq_refl) E) in N. discriminate N.
Qed.

Lemma write_ghg_above (idx r col last_row : nat) (gs : list string)
    (ws : gmap (nat * nat) Cell) :
  (r < idx)%nat -> write_ghg idx gs last_row ws !! (r, col) = ws !! (r, col).
Proof.
  revert idx ws. induction gs as [|g gs IH]; intros idx ws Hr.
  - reflexivity.
  - cbn [write_ghg]. rewrite IH by lia.
    apply write_cells_other_row. lia.
Qed.

Lemma write_ghg_lookup (idx j col last_row : nat) (gs : list string) (g : string)
    (v : Cell) (ws : gmap (nat * nat) Cell) :
  gs !! j = Some g ->
  last_write col
    [ (1%nat, Text g);
      (2%nat, Formula (SumIf 10 (CritEquals g) 13 2 last_row));
      (3%nat, Formula (share (Ref WS3 (idx + j) 2) (Ref WS2 6 2))) ] = Some v ->
  write_ghg idx gs last_row ws !! ((idx + j)%nat, col) = Some v.
Proof.
  revert idx j ws. induction gs as [|g' gs IH]; intros idx j ws Hj Hv.
  - discriminate Hj.
  - cbn [write_ghg]. destruct j as [|j].
    + cbn in Hj. injection Hj as ->. rewrite Nat.add_0_r in *.
      rewrite write_ghg_above by lia.
      rewrite write_cells_same_row, Hv. reflexivity.
    + cbn in Hj. replace (idx + S j)%nat with (S idx + j)%nat in * by lia.
      apply IH; assumption.
Qed.

Lemma Qlt_bool_comp (a b b' : Q) : (b == b')%Q -> Qlt_bool a b = Qlt_bool a b'.
Proof.
  intros E. destruct (Qlt_bool a b') eqn:H.
  - apply Qlt_bool_iff. rewrite E. apply Qlt_bool_iff. exact H.
  - apply Qlt_bool_false_iff. rewrite E. apply Qlt_bool_false_iff. exact H.
Qed.

(** [=IF(den>0,num/den*100,0)] computes the in-memory percentage. *)
Lemma eval_share (k : nat) (wb : Workbook) (num den : Expr) (x t x' t' : Q) :
  eval (S (S k)) wb den = Some t ->
  eval k wb den = Some t ->
  eval k wb num = Some x ->
  (x == x')%Q -> (t == t')%Q ->
  shows (eval (S (S (S k))) wb (share num den)) (percent x' t').
Proof.
  intros Hd1 Hd2 Hn Hx Ht. unfold share, percent.
  rewrite eval_IfPos, Hd1, <- (Qlt_bool_comp 0 t t' Ht).
  destruct (Qlt_bool 0 t) eqn:Hpos.
  - destruct k as [|k]; [discriminate Hn |].
    rewrite eval_Mul, eval_Div, Hn, Hd2, eval_Num.
    apply Qlt_bool_iff in Hpos.
    destruct (Qeq_bool t 0) eqn:Hz.
    + apply Qeq_bool_iff in Hz. rewrite Hz in Hpos.
      exfalso. exact (Qlt_irrefl _ Hpos).
    + cbn [shows]. rewrite Hx, Ht. reflexivity.
  - destruct k as [|k]; [discriminate Hn |].
    rewrite eval_Num. cbn [shows]. reflexivity.
Qed.

(** What the export reproduces. For every confirmed table: each detail
    row's formulas in columns L and M show the row's kg and tonnes; B4 of
    排放汇总 shows the scope-one tonnes; each gas row of 温室气体分析 carries
    the text of one distinct gas cell and shows the tonnes of the detail
    rows with that text, which is the in-memory bucket of the gas type when
    no missing cell reads like it. When, moreover, every category contains
    间接 exactly when it does not contain 直接, B5 shows the scope-two tonnes,
    B6 the total, and the percentage cells the in-memory percentages. *)
Theorem export_reproduces_in_memory (kind : SortKind)
    (edited_data : list MatchRow) :
  let df := calc_df edited_data in
  let wb := export_excel_with_formulas df in
  (forall (i : nat) (c : CalcRow),
     df !! i = Some c ->
     shows (cell_value wb WS1 (2 + i) 12) (emission_kg c) /\
     shows (cell_value wb WS1 (2 + i) 13) (emission_t c)) /\
  shows (cell_value wb WS2 4 2) (scope1 df) /\
  (forall (j : nat) (c : TextCell),
     unique (map ghg_of df) !! j = Some c ->
     ws3 wb !! ((4 + j)%nat, 1%nat) = Some (Text (str c)) /\
     shows (cell_value wb WS3 (4 + j) 2)
           (Qsum (map emission_t
                    (group_rows (fun r => str (ghg_of r)) (str c) df)))) /\
  (forall (j : nat) (g : string),
     unique (map ghg_of df) !! j = Some (Str g) ->
     (forall r, In r df -> str (ghg_of r) = g -> ghg_of r = Str g) ->
     exists b : string * Q,
       In b (ghg_summary kind df) /\ fst b = g /\
       shows (cell_value wb WS3 (4 + j) 2) (snd b)) /\
  ((forall m, In m edited_data ->
      contains (category (act m)) "间接" <-> ~ contains (category (act m)) "直接") ->
   shows (cell_value wb WS2 5 2) (scope2 df) /\
   shows (cell_value wb WS2 6 2) (total_emission df) /\
   shows (cell_value wb WS2 4 3) (percent (scope1 df) (total_emission df)) /\
   shows (cell_value wb WS2 5 3) (percent (scope2 df) (total_emission df)) /\
   (forall (j : nat) (b : string * Q),
      unique (map ghg_of df) !! j = Some (Str (fst b)) ->
      (forall r, In r df -> str (ghg_of r) = fst b -> ghg_of r = Str (fst b)) ->
      In b (ghg_summary kind df) ->
      shows (cell_value wb WS3 (4 + j) 3)
            (percent (snd b) (total_emission df)))).
Proof.
  cbv zeta. unfold cell_value, DEPTH.
  set (df := calc_df edited_data). set (wb := export_excel_with_formulas df).
  assert (Hpart : partitions (fun r => str (ghg_of r)) (ghg_summary kind df)
                             (dropna ghg_of df)).
  { apply sorted_partitions, groupby_partitions. }
  assert (Hgas : forall b,
            In b (ghg_summary kind df) ->
            (forall r, In r df -> str (ghg_of r) = fst b ->
                       ghg_of r = Str (fst b)) ->
            (Qsum (map emission_t
                     (group_rows (fun r => str (ghg_of r)) (fst b) df))
             == snd b)%Q).
  { intros b Hb Hclash. destruct Hpart as (_ & _ & Hval).
    rewrite <- (group_rows_dropna ghg_of (fst b) df Hclash).
    symmetry. apply Hval. exact Hb. }
  assert (Hcell : forall j c col v,
            unique (map ghg_of df) !! j = Some c ->
            last_write col
              [ (1%nat, Text (str c));
                (2%nat, Formula (SumIf 10 (CritEquals (str c)) 13 2
                                       (length df + 1)));
                (3%nat, Formula (share (Ref WS3 (4 + j) 2) (Ref WS2 6 2))) ]
              = Some v ->
            ws3 wb !! ((4 + j)%nat, col) = Some v).
  { intros j c col v Hj Hv. unfold wb, export_excel_with_formulas. cbn [ws3].
    unfold sheet3.
    exact (write_ghg_lookup 4 j col _ _ (str c) v _
             (lookup_map str _ j c Hj) Hv). }
  assert (Hrow : forall j c,
            unique (map ghg_of df) !! j = Some c ->
            eval 15 wb (Ref WS3 (4 + j) 2)
            = Some (Qsum (map emission_t
                      (group_rows (fun r => str (ghg_of r)) (str c) df)))).
  { intros j c Hj. rewrite eval_Ref. cbn [sheet].
    rewrite (Hcell j c 2%nat _ Hj eq_refl). cbn [snd].
    unfold wb, df. apply eval_sumif_ghg. }
  split; [| split; [| split; [| split]]].
  - intros i c Hc. apply lookup_map_inv in Hc. destruct Hc as (m & Hm & ->).
    split.
    + rewrite eval_Ref. cbn [sheet]. unfold wb at 1. cbn [ws1 export_excel_with_formulas].
      rewrite (sheet1_lookup df i 12 (calc_row m) _
                 (lookup_map calc_row _ _ _ Hm) eq_refl). cbn [snd].
      unfold wb, df. rewrite (eval_detail_kg edited_data _ i m Hm).
      cbn [shows]. reflexivity.
    + rewrite eval_Ref. cbn [sheet]. unfold wb at 1. cbn [ws1 export_excel_with_formulas].
      rewrite (sheet1_lookup df i 13 (calc_row m) _
                 (lookup_map calc_row _ _ _ Hm) eq_refl). cbn [snd].
      unfold wb, df. rewrite (eval_detail_t edited_data _ i m Hm).
      cbn [shows]. reflexivity.
  - unfold wb, df. rewrite eval_B4. cbn [shows]. symmetry. apply scope1_direct.
  - intros j c Hj. split; [exact (Hcell j c 1%nat _ Hj eq_refl) |].
    change 16%nat with (S 15). rewrite eval_Ref. cbn [sheet].
    rewrite (Hcell j c 2%nat _ Hj eq_refl). cbn [snd].
    unfold wb, df. rewrite eval_sumif_ghg. cbn [shows]. reflexivity.
  - intros j g Hj Hclash.
    assert (Hin : In g (map fst (ghg_summary kind df))).
    { destruct Hpart as (_ & Hcov & _).
      assert (Hg : In (Str g) (map ghg_of df)).
      { apply unique_In, list_elem_of_In.
        eapply list_elem_of_lookup_2. exact Hj. }
      apply List.in_map_iff in Hg. destruct Hg as (r & Hr & Hrin).
      assert (Hk : In r (dropna ghg_of df)).
      { unfold dropna. apply List.filter_In. split; [exact Hrin |].
        rewrite Hr. reflexivity. }
      specialize (Hcov r Hk). cbn beta in Hcov. rewrite Hr in Hcov.
      exact Hcov. }
    apply List.in_map_iff in Hin. destruct Hin as (b & Hb & Hbin).
    exists b. split; [exact Hbin |]. split; [exact Hb |].
    change 16%nat with (S 15). rewrite eval_Ref. cbn [sheet].
    rewrite (Hcell j (Str g) 2%nat _ Hj eq_refl). cbn [snd].
    unfold wb, df. rewrite eval_sumif_ghg. cbn [shows str].
    subst g. apply Hgas; assumption.
  - intros Hlab.
    assert (Hind : List.filter indirect df
                   = List.filter (fun c => negb (direct c)) df).
    { apply List.filter_ext_in. intros c Hc.
      apply List.in_map_iff in Hc. destruct Hc as (m & <- & Hm).
      unfold indirect, direct, calc_row. cbn [mrow].
      specialize (Hlab m Hm).
      destruct (str_in_reflect "间接" (category (act m))) as [Hi | Hi];
        destruct (str_in_reflect "直接" (category (act m))) as [Hd | Hd];
        cbn [negb]; try reflexivity; exfalso; tauto. }
    assert (H5 : (Qsum (map emission_t (List.filter indirect df))
                  == scope2 df)%Q).
    { rewrite Hind. symmetry. apply scope2_not_direct. }
    assert (H6 : (Qsum (map emission_t (List.filter direct df))
                  + Qsum (map emission_t (List.filter indirect df))
                  == total_emission df)%Q).
    { rewrite Hind. apply filter_split_sum. }
    assert (H4 : (Qsum (map emission_t (List.filter direct df))
                  == scope1 df)%Q).
    { symmetry. apply scope1_direct. }
    split; [unfold wb, df; rewrite eval_B5; exact H5 |].
    split; [unfold wb, df; rewrite eval_B6; exact H6 |].
    split; [| split].
    + rewrite eval_Ref. cbn [sheet]. unfold wb at 1.
      cbn [ws2 export_excel_with_formulas]. rewrite sheet2_C4.
      eapply eval_share; [apply eval_B6 | apply eval_B6 | apply eval_B4
                         | exact H4 | exact H6].
    + rewrite eval_Ref. cbn [sheet]. unfold wb at 1.
      cbn [ws2 export_excel_with_formulas]. rewrite sheet2_C5.
      eapply eval_share; [apply eval_B6 | apply eval_B6 | apply eval_B5
                         | exact H5 | exact H6].
    + intros j b Hj Hclash Hb.
      rewrite eval_Ref. cbn [sheet].
      rewrite (Hcell j (Str (fst b)) 3%nat _ Hj eq_refl). cbn [snd].
      eapply eval_share; [apply eval_B6 | apply eval_B6 | | | exact H6].
      * rewrite eval_Ref. cbn [sheet].
        rewrite (Hcell j (Str (fst b)) 2%nat _ Hj eq_refl). cbn [snd].
        unfold wb, df. apply eval_sumif_ghg.
      * apply Hgas; assumption.
Qed.

(** C1 at the failing input. The row is matched and computed (0.5703 t,
    scope 范围二, also in cell M2 of the detail sheet), but the workbook's
    scope-two cell B5 and total cell B6 evaluate to 0: the export tests
    the category for 间接 where the engine tests it for the absence of
    直接. *)
Theorem C1_export_misses_unlabelled_scope_two :
  let df := unlabelled_df in
  let wb := export_excel_with_formulas df in
  map scope df = [SCOPE_TWO] /\
  (scope2 df == 0.5703)%Q /\
  (total_emission df == 0.5703)%Q /\
  shows (cell_value wb WS1 2 13) 0.5703 /\
  shows (cell_value wb WS2 5 2) 0 /\
  shows (cell_value wb WS2 6 2) 0 /\
  ~ shows (cell_value wb WS2 5 2) (scope2 df) /\
  ~ shows (cell_value wb WS2 6 2) (total_emission df).
Proof.
  cbv zeta.
  split; [vm_compute; reflexivity |].
  split; [vm_compute; reflexivity |].
  split; [vm_compute; reflexivity |].
  split; [vm_compute; reflexivity |].
  split; [vm_compute; reflexivity |].
  split; [vm_compute; reflexivity |].
  split; intros H; vm_compute in H; discriminate H.
Qed.

(* ===================================================================== *)
(** ** Further properties of the engine                                    *)
(* ===================================================================== *)

(** Reconciling the Matcher's table against an unedited copy of itself
    returns it unchanged. *)
Theorem reconcile_unedited (lib : gmap string FactorInfo) (rows : list Activity) :
  reconcile (result_df lib rows) (result_df lib rows) = Some (result_df lib rows).
Proof.
  unfold reconcile.
  assert (G : forall (pre post : list MatchRow),
            Forall (fun r => reconcile_row r r = r) post ->
            reconcile_from (length pre) (pre ++ post)%list post = Some post).
  { intros pre post. revert pre.
    induction post as [|r post IH]; intros pre Hall; [reflexivity |].
    apply List.Forall_cons_iff in Hall. destruct Hall as [Hr Hall].
    cbn [reconcile_from].
    rewrite list_lookup_middle by reflexivity. rewrite Hr.
    specialize (IH (pre ++ [r])%list Hall).
    rewrite length_app, Nat.add_1_r, <- app_assoc in IH. cbn [app] in IH.
    rewrite IH. reflexivity. }
  apply (G [] (result_df lib rows)).
  unfold result_df. apply List.Forall_forall. intros r Hr.
  apply List.in_map_iff in Hr. destruct Hr as (a & <- & _).
  unfold reconcile_row, match_row.
  destruct (lookup_factor lib (key (subcategory a) (source a))) as [info |];
    cbn [emission_factor data_source].
  - rewrite (proj2 (Qeq_bool_iff _ _) (Qeq_refl _)). cbn [negb].
    destruct (Qlt_bool 0 (factor info)); reflexivity.
  - reflexivity.
Qed.

(* ===================================================================== *)
(** ** Sidebar and factor library                                          *)
(* ===================================================================== *)

Lemma form_complete_iff (f : FactorForm) :
  form_complete f = true <->
  new_name f <> "" /\ (0 < new_factor f)%Q /\ new_unit f <> "".
Proof.
  unfold form_complete. rewrite !andb_true_iff, !negb_true_iff, Qlt_bool_iff.
  rewrite !String.eqb_neq. tauto.
Qed.

(** Pressing the add button with a complete form stores the entry under
    its name, leaves every other entry and the rest of the session as they
    were, and asks for a rerun; the counter of the next run is one higher
    exactly when the name was new. With an empty name, a factor that is not
    above zero or an empty unit, the run only shows the error and the
    session is unchanged. *)
Theorem sidebar_add_factor (f : FactorForm) (s : Session) :
  click_add f = true ->
  (new_name f <> "" /\ (0 < new_factor f)%Q /\ new_unit f <> "" ->
     fst (run_sidebar f s) = inl Rerun /\
     factors (session (snd (run_sidebar f s))) !! new_name f
       = Some (mkFactor (new_factor f) (new_unit f) (new_ghg f)) /\
     (forall k, k <> new_name f ->
        factors (session (snd (run_sidebar f s))) !! k = factors s !! k) /\
     (factors s !! new_name f = None ->
        total_factors (factors (session (snd (run_sidebar f s))))
        = (total_factors (factors s) + 1)%Z) /\
     (is_Some (factors s !! new_name f) ->
        total_factors (factors (session (snd (run_sidebar f s))))
        = total_factors (factors s)) /\
     uploaded_data (session (snd (run_sidebar f s))) = uploaded_data s /\
     matched_data (session (snd (run_sidebar f s))) = matched_data s /\
     edited_data (session (snd (run_sidebar f s))) = edited_data s /\
     calculation_done (session (snd (run_sidebar f s))) = calculation_done s) /\
  (new_name f = "" \/ (new_factor f <= 0)%Q \/ new_unit f = "" ->
     run_sidebar f s =
       (inr tt,
        {| session := s;
           widgets := [ metric "因子总数" (total_factors (factors s)) None;
                        st_error "⚠️ 请填写完整信息且排放因子必须大于0" ] |})).
Proof.
  intros Hclick. unfold run_sidebar, sidebar_block, bind, read_session, show,
    update, raise, ret. cbn [session widgets]. rewrite Hclick.
  split.
  - intros Hok. apply form_complete_iff in Hok. rewrite Hok.
    cbn [fst snd session factors set_factors uploaded_data matched_data
         edited_data calculation_done].
    unfold add_factor, total_factors.
    split; [reflexivity |].
    split; [apply lookup_insert_eq |].
    split; [intros k Hk; apply lookup_insert_ne; congruence |].
    split; [intros Hnew; rewrite map_size_insert_None by exact Hnew; lia |].
    split; [| repeat split].
    intros Hold. rewrite map_size_insert_Some by exact Hold. reflexivity.
  - intros Hbad.
    assert (E : form_complete f = false).
    { destruct (form_complete f) eqn:E; [| reflexivity].
      apply form_complete_iff in E. destruct E as (H1 & H2 & H3).
      destruct Hbad as [H | [H | H]]; try contradiction.
      exfalso. exact (Qlt_not_le _ _ H2 H). }
    rewrite E. destruct s; reflexivity.
Qed.

(** The biomass form on a fresh session. *)
Lemma sidebar_add_factor_witness :
  fst (run_sidebar biomass_form initial_session) = inl Rerun /\
  factors (session (snd (run_sidebar biomass_form initial_session)))
    !! "固定燃烧-生物质" = Some (mkFactor 1.5 "kgCO2/kg" "CO2").
Proof.
  destruct (proj1 (sidebar_add_factor biomass_form initial_session eq_refl))
    as (H1 & H2 & _).
  - split; [discriminate |]. split; [reflexivity | discriminate].
  - split; [exact H1 | exact H2].
Defined.

Lemma seed_positive : positive_factors emission_factors.
Proof.
  intros k info Hk. unfold emission_factors in Hk.
  apply elem_of_list_to_map_2 in Hk. apply list_elem_of_In in Hk.
  cbn [In] in Hk.
  repeat (destruct Hk as [Hk | Hk]; [injection Hk as _ <-; reflexivity |]).
  contradiction.
Qed.

(** The library keeps its factors above zero: the seed has them so and a
    completed form adds only such an entry. With such a library a row the
    Matcher marks as matched has a factor above zero, and a row it marks as
    unmatched has factor 0: the status can be read off the factor. *)
Theorem library_factors_stay_positive :
  positive_factors emission_factors /\
  (forall (f : FactorForm) (lib : gmap string FactorInfo),
     positive_factors lib -> form_complete f = true ->
     positive_factors (add_factor f lib)) /\
  (forall (lib : gmap string FactorInfo) (a : Activity),
     positive_factors lib ->
     (match_status (match_row lib a) = STATUS_MATCHED <->
      (0 < emission_factor (match_row lib a))%Q) /\
     (match_status (match_row lib a) = STATUS_UNMATCHED <->
      emission_factor (match_row lib a) = 0%Q)).
Proof.
  split; [exact seed_positive |]. split.
  - intros f lib Hpos Hok k info Hk. unfold add_factor in Hk.
    apply form_complete_iff in Hok. destruct Hok as (_ & Hf & _).
    destruct (String.eqb_spec (new_name f) k) as [E | E].
    + subst k. rewrite lookup_insert_eq in Hk. injection Hk as <-. exact Hf.
    + rewrite lookup_insert_ne in Hk by exact E. exact (Hpos k info Hk).
  - intros lib a Hpos. unfold match_row, lookup_factor.
    destruct (String.eqb (key (subcategory a) (source a)) "") eqn:Ek.
    + cbn. split; split; intros H; try reflexivity; try discriminate H;
        try (exfalso; exact (Qlt_irrefl _ H)).
    + destruct (lib !! key (subcategory a) (source a)) as [info |] eqn:L; cbn.
      * pose proof (Hpos _ _ L) as Hinfo.
        split; split; intros H; try reflexivity; try exact Hinfo;
          try discriminate H.
        rewrite H in Hinfo. exfalso. exact (Qlt_irrefl _ Hinfo).
      * split; split; intros H; try reflexivity; try discriminate H;
          try (exfalso; exact (Qlt_irrefl _ H)).
Qed.

(** Adding the key the Matcher derives for a row turns that row into a
    matched one carrying the new factor, unit and gas type; rows whose
    derived key is another one are matched as before. *)
Theorem add_then_match (f : FactorForm) (lib : gmap string FactorInfo)
    (a : Activity) :
  form_complete f = true ->
  key (subcategory a) (source a) = new_name f ->
  match_row (add_factor f lib) a
    = mkMatchRow a (new_name f) (new_factor f) (new_unit f) (new_ghg f)
                 STATUS_MATCHED SOURCE_LIBRARY /\
  (forall a' : Activity,
     key (subcategory a') (source a') <> new_name f ->
     match_row (add_factor f lib) a' = match_row lib a').
Proof.
  intros Hok Hkey. apply form_complete_iff in Hok. destruct Hok as (Hn & _ & _).
  split.
  - unfold match_row, lookup_factor, add_factor. rewrite Hkey.
    destruct (String.eqb_spec (new_name f) "") as [E | E]; [contradiction |].
    rewrite lookup_insert_eq. reflexivity.
  - intros a' Hne. unfold match_row, lookup_factor, add_factor.
    rewrite lookup_insert_ne by congruence. reflexivity.
Qed.

(** The biomass row is unmatched against the seed and matched once the
    biomass factor has been added. *)
Lemma add_then_match_witness :
  match_status (match_row emission_factors biomass_row) = STATUS_UNMATCHED /\
  match_row (add_factor biomass_form emission_factors) biomass_row
    = mkMatchRow biomass_row "固定燃烧-生物质" 1.5 "kgCO2/kg" "CO2"
                 STATUS_MATCHED SOURCE_LIBRARY.
Proof.
  split; [vm_compute; reflexivity |].
  apply (add_then_match biomass_form emission_factors biomass_row).
  - reflexivity.
  - vm_compute. reflexivity.
Defined.

(** The template the tool hands out passes its own column check and every
    one of its rows is matched by the seed library. *)
Example template_is_accepted_and_matched :
  has_required_cols create_template = true /\
  map suggested_type (result_df emission_factors (records create_template))
    = [ "固定燃烧-天然气"; "移动燃烧-汽油"; "工艺排放-丙烷"; "无组织排放-R410A";
        "外购电力-全国平均"; "外购热力-蒸汽" ] /\
  matched (result_df emission_factors (records create_template)) = 6%Z.
Proof. repeat split; vm_compute; reflexivity. Qed.

(* ===================================================================== *)
(** ** Reconciliation and what is computed from it                         *)
(* ===================================================================== *)

Lemma reconcile_from_pointwise (matched_df edited out : list MatchRow) (idx : nat) :
  reconcile_from idx matched_df edited = Some out ->
  Forall2 (fun e r => exists m, r = reconcile_row m e) edited out.
Proof.
  revert idx out. induction edited as [|e edited IH]; intros idx out H.
  - cbn in H. injection H as <-. constructor.
  - cbn [reconcile_from] in H.
    destruct (matched_df !! idx) as [m |] eqn:Hm; [| discriminate H].
    destruct (reconcile_from (S idx) matched_df edited) as [out' |] eqn:Ho;
      [| discriminate H].
    injection H as <-. constructor.
    + exists m. reflexivity.
    + apply (IH (S idx)). exact Ho.
Qed.

Lemma calc_reconcile_row (m e : MatchRow) :
  emission_kg (calc_row (reconcile_row m e)) = emission_kg (calc_row e) /\
  emission_t (calc_row (reconcile_row m e)) = emission_t (calc_row e) /\
  scope (calc_row (reconcile_row m e)) = scope (calc_row e) /\
  ghg_of (calc_row (reconcile_row m e)) = ghg_of (calc_row e) /\
  subcat_of (calc_row (reconcile_row m e)) = subcat_of (calc_row e).
Proof.
  unfold reconcile_row.
  destruct (negb _); [repeat split |].
  destruct (Qlt_bool _ _); [| repeat split].
  destruct (negb _); repeat split.
Qed.

(** A reconciliation pass changes only the status and provenance columns:
    the emissions, scopes, gas types and subcategories computed from its
    result are those of the edited table, row by row, so every aggregate
    uses the edited factors. *)
Theorem reconcile_keeps_emissions
    (matched_df edited_matched_df out : list MatchRow) :
  reconcile matched_df edited_matched_df = Some out ->
  map emission_kg (calc_df out) = map emission_kg (calc_df edited_matched_df) /\
  map emission_t (calc_df out) = map emission_t (calc_df edited_matched_df) /\
  map scope (calc_df out) = map scope (calc_df edited_matched_df) /\
  map ghg_of (calc_df out) = map ghg_of (calc_df edited_matched_df) /\
  map subcat_of (calc_df out) = map subcat_of (calc_df edited_matched_df) /\
  total_emission (calc_df out) = total_emission (calc_df edited_matched_df).
Proof.
  intros H. apply reconcile_from_pointwise in H.
  assert (G : map emission_kg (calc_df out)
                = map emission_kg (calc_df edited_matched_df) /\
              map emission_t (calc_df out)
                = map emission_t (calc_df edited_matched_df) /\
              map scope (calc_df out) = map scope (calc_df edited_matched_df) /\
              map ghg_of (calc_df out) = map ghg_of (calc_df edited_matched_df) /\
              map subcat_of (calc_df out)
                = map subcat_of (calc_df edited_matched_df)).
  { unfold calc_df. induction H as [|e r edited out' (m & ->) _ IH].
    - repeat split.
    - destruct IH as (I1 & I2 & I3 & I4 & I5).
      destruct (calc_reconcile_row m e) as (C1 & C2 & C3 & C4 & C5).
      cbn [map]. rewrite I1, I2, I3, I4, I5, C1, C2, C3, C4, C5.
      repeat split. }
  destruct G as (G1 & G2 & G3 & G4 & G5).
  repeat (split; [assumption |]).
  unfold total_emission. rewrite G2. reflexivity.
Qed.

(** The edited scenario row: the emission is computed with 2.5. *)
Lemma reconcile_keeps_emissions_witness :
  map emission_kg (calc_df [set_manual scenario_edited])
  = map emission_kg (calc_df [scenario_edited]).
Proof.
  apply (reconcile_keeps_emissions [scenario_matched] [scenario_edited]
           [set_manual scenario_edited]).
  vm_compute. reflexivity.
Defined.

(** After a pass, the rows listed for review are exactly the rows whose
    factor differs from the Matcher's, together with those the edited copy
    already marked 手动修改. *)
Theorem manual_items_are_the_overrides
    (matched_df edited_matched_df out : list MatchRow) :
  length edited_matched_df = length matched_df ->
  reconcile matched_df edited_matched_df = Some out ->
  forall (idx : nat) (m e : MatchRow),
    matched_df !! idx = Some m ->
    edited_matched_df !! idx = Some e ->
    exists r : MatchRow,
      out !! idx = Some r /\
      (In r (manual_items out) <->
       ~ (emission_factor e == emission_factor m)%Q \/
       data_source e = SOURCE_MANUAL).
Proof.
  intros Hlen Hrec idx m e Hm He.
  destruct (reconcile_from_rows matched_df edited_matched_df 0 ltac:(lia))
    as (out' & Hout & _ & Hrows).
  unfold reconcile in Hrec. rewrite Hrec in Hout. injection Hout as <-.
  destruct (Hrows idx e He) as (m' & Hm' & Ho).
  cbn in Hm'. rewrite Hm in Hm'. injection Hm' as <-.
  exists (reconcile_row m e). split; [exact Ho |].
  unfold manual_items. rewrite List.filter_In, String.eqb_eq.
  assert (Hin : In (reconcile_row m e) out).
  { apply list_elem_of_In. eapply list_elem_of_lookup_2. exact Ho. }
  split.
  - intros [_ Hsrc]. revert Hsrc. unfold reconcile_row.
    destruct (Qeq_bool (emission_factor e) (emission_factor m)) eqn:E; cbn [negb].
    + intros Hsrc. right.
      destruct (Qlt_bool 0 (emission_factor e)); [| exact Hsrc].
      destruct (String.eqb_spec (data_source e) SOURCE_MANUAL) as [S | S];
        cbn [negb] in Hsrc; [exact S | exact Hsrc].
    + intros _. left. apply Qeq_bool_neq. exact E.
  - intros H. split; [exact Hin |]. destruct H as [Hd | Hs].
    + rewrite (reconcile_row_drift m e Hd). reflexivity.
    + unfold reconcile_row.
      destruct (negb (Qeq_bool _ _)); [reflexivity |].
      destruct (Qlt_bool _ _); [| exact Hs].
      destruct (String.eqb_spec (data_source e) SOURCE_MANUAL) as [S | S];
        [exact Hs | contradiction].
Qed.

Lemma manual_items_are_the_overrides_witness :
  exists r : MatchRow,
    [set_manual scenario_edited] !! 0%nat = Some r /\
    (In r (manual_items [set_manual scenario_edited]) <->
     ~ (emission_factor scenario_edited == emission_factor scenario_matched)%Q \/
     data_source scenario_edited = SOURCE_MANUAL).
Proof.
  apply (manual_items_are_the_overrides [scenario_matched] [scenario_edited]
           [set_manual scenario_edited] eq_refl);
    [vm_compute; reflexivity | reflexivity | reflexivity].
Defined.

(* ===================================================================== *)
(** ** Summary cards, gas sheet rows and slide figures                     *)
(* ===================================================================== *)

Lemma scopes_add_up (edited_data : list MatchRow) :
  (scope1 (calc_df edited_data) + scope2 (calc_df edited_data)
   == total_emission (calc_df edited_data))%Q.
Proof.
  unfold scope1, scope2, scope_summary. rewrite !get_groupby.
  apply scope_split.
Qed.

(** The two percentages on the summary cards add up to 100 whenever the
    total is above zero, and both are 0 (not an error) otherwise. *)
Theorem scope_percentages_add_up (edited_data : list MatchRow) :
  let df := calc_df edited_data in
  ((0 < total_emission df)%Q ->
     (percent (scope1 df) (total_emission df)
      + percent (scope2 df) (total_emission df) == 100)%Q) /\
  ((total_emission df <= 0)%Q ->
     percent (scope1 df) (total_emission df) = 0%Q /\
     percent (scope2 df) (total_emission df) = 0%Q).
Proof.
  cbv zeta. unfold percent. split.
  - intros Hpos. pose proof (scopes_add_up edited_data) as Hsum.
    rewrite (proj2 (Qlt_bool_iff _ _) Hpos).
    rewrite <- Hsum in Hpos |- *.
    field. intros Hz. rewrite Hz in Hpos. exact (Qlt_irrefl _ Hpos).
  - intros Hle. rewrite (proj2 (Qlt_bool_false_iff _ _) Hle).
    split; reflexivity.
Qed.

Lemma unique_NoDup (keys : list TextCell) : List.NoDup (unique keys).
Proof.
  induction keys as [|k keys IH]; cbn [unique]; constructor.
  - rewrite List.filter_In. intros [_ H].
    destruct (cell_eqb_spec k k) as [_ | N]; [discriminate H | congruence].
  - apply List.NoDup_filter. exact IH.
Qed.

(** The keys of a [groupby] are the texts of the column's cells that are
    not missing. *)
Lemma groupby_keys (col : CalcRow -> TextCell) (df : list CalcRow) (g : string) :
  In g (map fst (groupby_sum col df)) <-> In (Str g) (map col df).
Proof.
  unfold groupby_sum, sum_by. rewrite map_map. cbn [fst]. rewrite map_id.
  rewrite group_keys_In, !List.in_map_iff. unfold dropna.
  split.
  - intros (r & Hr & Hin). apply List.filter_In in Hin.
    destruct Hin as [Hin Hn]. exists r. split; [| exact Hin].
    destruct (col r) as [t | |]; try discriminate Hn.
    cbn [str] in Hr. congruence.
  - intros (r & Hr & Hin). exists r. split; [rewrite Hr; reflexivity |].
    apply List.filter_In. split; [exact Hin | rewrite Hr; reflexivity].
Qed.

Lemma groupby_NoDup (col : CalcRow -> TextCell) (df : list CalcRow) :
  List.NoDup (map fst (groupby_sum col df)).
Proof. apply (groupby_partitions col df). Qed.

(** A [groupby] is empty exactly when every key cell is missing. *)
Lemma groupby_empty (col : CalcRow -> TextCell) (df : list CalcRow) :
  groupby_sum col df = [] <-> forall r, In r df -> notna (col r) = false.
Proof.
  split.
  - intros Hnil r Hr. destruct (col r) as [g | |] eqn:E; try reflexivity.
    exfalso.
    assert (Hin : In g (map fst (groupby_sum col df))).
    { apply groupby_keys. rewrite <- E. apply in_map. exact Hr. }
    rewrite Hnil in Hin. destruct Hin.
  - intros Hall. destruct (groupby_sum col df) as [|b l] eqn:E; [reflexivity |].
    exfalso.
    assert (Hin : In (fst b) (map fst (groupby_sum col df))).
    { rewrite E. left. reflexivity. }
    apply groupby_keys, List.in_map_iff in Hin.
    destruct Hin as (r & Hr & Hin). specialize (Hall r Hin).
    rewrite Hr in Hall. discriminate Hall.
Qed.

Lemma write_ghg_beyond (idx j col last_row : nat) (gs : list string)
    (ws : gmap (nat * nat) Cell) :
  (length gs <= j)%nat ->
  write_ghg idx gs last_row ws !! ((idx + j)%nat, col) = ws !! ((idx + j)%nat, col).
Proof.
  revert idx j ws. induction gs as [|g gs IH]; intros idx j ws Hj.
  - reflexivity.
  - cbn [write_ghg]. cbn [length] in Hj. destruct j as [|j]; [lia |].
    replace (idx + S j)%nat with (S idx + j)%nat by lia.
    rewrite IH by lia. apply write_cells_other_row. lia.
Qed.

(** The gas type sheet has exactly one row per distinct cell of the gas
    column, a missing value included, from row 4 on and in order of first
    appearance; each row carries the text of its cell. The in-memory gas
    type summary has a bucket for each of them that is not missing, and no
    other. *)
Theorem gas_sheet_rows_are_the_buckets (kind : SortKind) (df : list CalcRow) :
  List.NoDup (unique (map ghg_of df)) /\
  (forall c, In c (unique (map ghg_of df)) <-> In c (map ghg_of df)) /\
  Permutation (List.filter notna (unique (map ghg_of df)))
              (map Str (map fst (ghg_summary kind df))) /\
  (forall (j : nat) (c : TextCell),
     unique (map ghg_of df) !! j = Some c ->
     ws3 (export_excel_with_formulas df) !! ((4 + j)%nat, 1%nat)
     = Some (Text (str c))) /\
  (forall j : nat,
     unique (map ghg_of df) !! j = None ->
     ws3 (export_excel_with_formulas df) !! ((4 + j)%nat, 1%nat) = None).
Proof.
  split; [apply unique_NoDup |].
  split; [intros c; apply unique_In |].
  split; [| split].
  - assert (Hkeys : Permutation (map fst (ghg_summary kind df))
                                (map fst (groupby_sum ghg_of df))).
    { apply Permutation_map, sort_values_perm. }
    apply Permutation.NoDup_Permutation.
    + apply List.NoDup_filter, unique_NoDup.
    + apply Finite.Injective_map_NoDup; [intros x y E; congruence |].
      eapply Permutation_NoDup; [symmetry; exact Hkeys | apply groupby_NoDup].
    + intros c. rewrite List.filter_In, unique_In.
      split.
      * intros [Hin Hn]. destruct c as [g | |]; try discriminate Hn.
        apply in_map.
        eapply Permutation_in; [symmetry; exact Hkeys |].
        apply groupby_keys. exact Hin.
      * intros Hc. apply List.in_map_iff in Hc. destruct Hc as (g & <- & Hg).
        split; [| reflexivity].
        apply groupby_keys.
        eapply Permutation_in; [exact Hkeys | exact Hg].
  - intros j c Hj. cbn [ws3 export_excel_with_formulas]. unfold sheet3.
    exact (write_ghg_lookup 4 j 1 _ _ (str c) _ _
             (lookup_map str _ j c Hj) eq_refl).
  - intros j Hj. cbn [ws3 export_excel_with_formulas]. unfold sheet3.
    rewrite write_ghg_beyond.
    + rewrite !write_cells_other_row by lia. apply lookup_empty.
    + rewrite length_map. apply lookup_ge_None. exact Hj.
Qed.

(** The slide deck's top source [subcat_data.iloc[0]] exists exactly when
    some row of the table has a 子类别 cell that is not missing; on an empty
    table, or one whose 子类别 cells are all blank, [iloc[0]] has no row to
    return. When it exists it is one of the subcategory buckets and no
    bucket has more tonnes. The table of key sources has at most six
    rows. *)
Theorem top_source_is_the_largest (kind : SortKind) (df : list CalcRow) :
  (top_source kind df = None <->
   forall r, In r df -> notna (subcat_of r) = false) /\
  (forall b : string * Q,
     top_source kind df = Some b ->
     In b (subcat kind df) /\
     In (Str (fst b)) (map subcat_of df) /\
     (forall b', In b' (subcat kind df) -> (snd b' <= snd b)%Q)) /\
  (length (subcat_data kind df) <= 6)%nat.
Proof.
  assert (Hs : StronglySorted presented_before (subcat kind df)).
  { apply sort_values_sorted. }
  assert (Hp : Permutation (subcat kind df) (groupby_sum subcat_of df)).
  { apply sort_values_perm. }
  assert (Htop : top_source kind df = List.hd_error (subcat kind df)).
  { unfold top_source, subcat_data, head.
    destruct (subcat kind df); reflexivity. }
  split; [| split].
  - rewrite Htop, <- groupby_empty. split; intros H.
    + destruct (subcat kind df) as [|b l] eqn:E; [| discriminate H].
      apply Permutation_nil. exact Hp.
    + rewrite H in Hp. apply Permutation_sym, Permutation_nil in Hp.
      rewrite Hp. reflexivity.
  - intros b Hb. rewrite Htop in Hb.
    destruct (subcat kind df) as [|b0 l] eqn:E; [discriminate Hb |].
    cbn in Hb. injection Hb as ->.
    split; [left; reflexivity |]. split.
    + apply groupby_keys. apply in_map.
      eapply Permutation_in; [exact Hp | left; reflexivity].
    + intros b' [<- | Hb'].
      * apply Qle_refl.
      * apply StronglySorted_inv in Hs. destruct Hs as [_ Hall].
        rewrite List.Forall_forall in Hall. apply Hall. exact Hb'.
  - unfold subcat_data, head. rewrite length_firstn. lia.
Qed.

Section Shares.

Open Scope Q_scope.

Lemma Qsum_nonneg (l : list Q) : List.Forall (fun x => 0 <= x) l -> 0 <= Qsum l.
Proof.
  induction 1 as [|x l Hx _ IH]; [apply Qle_refl |].
  rewrite Qsum_cons. lra.
Qed.

Lemma Qsum_firstn_le (n : nat) (l : list Q) :
  List.Forall (fun x => 0 <= x) l ->
  0 <= Qsum (firstn n l) /\ Qsum (firstn n l) <= Qsum l.
Proof.
  intros H. revert n. induction H as [|x l Hx Hl IH]; intros n.
  - destruct n; cbn; split; apply Qle_refl.
  - destruct n as [|n]; cbn [firstn].
    + pose proof (Qsum_nonneg l Hl). rewrite Qsum_cons.
      split; [apply Qle_refl | cbn; lra].
    + destruct (IH n) as [I1 I2]. rewrite !Qsum_cons. lra.
Qed.

Lemma Qsum_member_le (x : Q) (l : list Q) :
  List.Forall (fun y => 0 <= y) l -> In x l -> x <= Qsum l.
Proof.
  induction 1 as [|y l Hy Hl IH]; intros Hin; [destruct Hin |].
  rewrite Qsum_cons. pose proof (Qsum_nonneg l Hl) as Hs.
  destruct Hin as [<- | Hin]; [lra |]. specialize (IH Hin). lra.
Qed.

Lemma firstn_In {A : Type} (x : A) (n : nat) (l : list A) :
  In x (firstn n l) -> In x l.
Proof.
  revert n. induction l as [|y l IH]; intros n H.
  - destruct n; destruct H.
  - destruct n as [|n]; [destruct H |]. cbn [firstn] in H.
    destruct H as [-> | H]; [left; reflexivity | right; exact (IH n H)].
Qed.

Lemma Forall_firstn {A : Type} (P : A -> Prop) (n : nat) (l : list A) :
  List.Forall P l -> List.Forall P (firstn n l).
Proof.
  intros H. apply List.Forall_forall. intros x Hx.
  rewrite List.Forall_forall in H. apply H.
  eapply firstn_In. exact Hx.
Qed.

Lemma ratio_bounds (x t lo hi : Q) :
  0 < t -> lo * t <= x * 100 -> x * 100 <= hi * t ->
  exists v, ratio x t = Some v /\ lo <= v /\ v <= hi.
Proof.
  intros Ht Hlo Hhi. unfold ratio.
  destruct (Qeq_bool t 0) eqn:E.
  - apply Qeq_bool_iff in E. lra.
  - exists (x / t * 100). split; [reflexivity |].
    assert (Hv : x / t * 100 == (x * 100) / t) by (field; lra).
    rewrite Hv. split.
    + apply Qle_shift_div_l; assumption.
    + apply Qle_shift_div_r; assumption.
Qed.

Lemma buckets_nonneg (col : CalcRow -> string) (summary : Buckets)
    (df : list CalcRow) :
  partitions col summary df ->
  List.Forall (fun c => 0 <= emission_t c) df ->
  List.Forall (fun x => 0 <= x) (map snd summary).
Proof.
  intros (_ & _ & Hval) Hdf. apply List.Forall_forall. intros x Hx.
  apply List.in_map_iff in Hx. destruct Hx as (b & <- & Hb).
  rewrite (Hval b Hb). apply Qsum_nonneg.
  apply List.Forall_forall. intros y Hy.
  apply List.in_map_iff in Hy. destruct Hy as (c & <- & Hc).
  unfold group_rows in Hc. apply List.filter_In in Hc. destruct Hc as [Hc _].
  rewrite List.Forall_forall in Hdf. apply Hdf. exact Hc.
Qed.

(** With no negative emission, the rows that have a key weigh no more
    than all rows. *)
Lemma total_dropna_le (col : CalcRow -> TextCell) (df : list CalcRow) :
  List.Forall (fun c => 0 <= emission_t c) df ->
  List.Forall (fun c => 0 <= emission_t c) (dropna col df) /\
  total_emission (dropna col df) <= total_emission df.
Proof.
  intros Hdf. rewrite List.Forall_forall in Hdf. split.
  - apply List.Forall_forall. intros c Hc. apply Hdf.
    unfold dropna in Hc. apply List.filter_In in Hc. exact (proj1 Hc).
  - unfold total_emission, dropna.
    pose proof (filter_split_sum (fun r => notna (col r)) df) as Hsplit.
    cbn beta in Hsplit.
    assert (Hrest : 0 <= Qsum (map emission_t
                      (List.filter (fun r => negb (notna (col r))) df))).
    { apply Qsum_nonneg. apply List.Forall_forall. intros x Hx.
      apply List.in_map_iff in Hx. destruct Hx as (c & <- & Hc).
      apply List.filter_In in Hc. apply Hdf. exact (proj1 Hc). }
    lra.
Qed.

End Shares.

(** With no negative emission in the table: when the total is above zero,
    the deck's dominant share lies between 50 and 100, its TOP3 share and
    the share of every listed subcategory between 0 and 100, and the
    dominant scope is 范围一 exactly when scope one exceeds scope two. When
    the total is zero these unguarded shares are not numbers, while the
    guarded percentages of the summary cards are 0. *)
Theorem slide_shares_are_percentages (kind : SortKind)
    (edited_data : list MatchRow) :
  let df := calc_df edited_data in
  Forall (fun c => (0 <= emission_t c)%Q) df ->
  ((0 < total_emission df)%Q ->
     (exists v, dominant_share df = Some v /\ (50 <= v)%Q /\ (v <= 100)%Q) /\
     (exists v, top3_share kind df = Some v /\ (0 <= v)%Q /\ (v <= 100)%Q) /\
     (forall b, In b (subcat_data kind df) ->
        exists v, ratio (snd b) (total_emission df) = Some v /\
                  (0 <= v)%Q /\ (v <= 100)%Q)) /\
  (main_scope df = SCOPE_ONE <-> (scope2 df < scope1 df)%Q) /\
  ((total_emission df == 0)%Q ->
     dominant_share df = None /\ top3_share kind df = None /\
     percent (scope1 df) (total_emission df) = 0%Q /\
     percent (scope2 df) (total_emission df) = 0%Q).
Proof.
  cbv zeta. intros Hnn. set (df := calc_df edited_data) in *.
  pose proof (scopes_add_up edited_data) as Hsum. fold df in Hsum.
  assert (H1 : (0 <= scope1 df)%Q).
  { unfold df. rewrite scope1_direct. apply Qsum_nonneg.
    apply List.Forall_forall. intros x Hx.
    apply List.in_map_iff in Hx. destruct Hx as (c & <- & Hc).
    apply List.filter_In in Hc. destruct Hc as [Hc _].
    rewrite List.Forall_forall in Hnn. apply Hnn. exact Hc. }
  assert (H2 : (0 <= scope2 df)%Q).
  { unfold df. rewrite scope2_not_direct. apply Qsum_nonneg.
    apply List.Forall_forall. intros x Hx.
    apply List.in_map_iff in Hx. destruct Hx as (c & <- & Hc).
    apply List.filter_In in Hc. destruct Hc as [Hc _].
    rewrite List.Forall_forall in Hnn. apply Hnn. exact Hc. }
  destruct (total_dropna_le subcat_of df Hnn) as [Hnn' Hdrop].
  assert (Hpart : partitions (fun r => str (subcat_of r)) (subcat kind df)
                             (dropna subcat_of df)).
  { apply sorted_partitions, groupby_partitions. }
  assert (Hb : List.Forall (fun x => (0 <= x)%Q) (map snd (subcat kind df))).
  { apply (buckets_nonneg _ _ _ Hpart Hnn'). }
  assert (Htot : (bucket_total (subcat kind df)
                  == total_emission (dropna subcat_of df))%Q).
  { unfold subcat. rewrite bucket_total_sorted. apply bucket_total_groupby. }
  split; [| split].
  - intros Hpos. split; [| split].
    + unfold dominant_share, py_max.
      destruct (Qlt_bool (scope1 df) (scope2 df)) eqn:C.
      * apply Qlt_bool_iff in C. apply ratio_bounds; lra.
      * apply Qlt_bool_false_iff in C. apply ratio_bounds; lra.
    + unfold top3_share, subcat_data, head, bucket_total.
      rewrite <- !firstn_map.
      destruct (Qsum_firstn_le 3 (firstn 6 (map snd (subcat kind df)))
                  (Forall_firstn _ 6 _ Hb)) as [T1 T2].
      destruct (Qsum_firstn_le 6 (map snd (subcat kind df)) Hb) as [_ T3].
      unfold bucket_total in Htot.
      apply ratio_bounds; lra.
    + intros b Hbin. unfold subcat_data, head in Hbin.
      apply firstn_In in Hbin.
      assert (Hx : In (snd b) (map snd (subcat kind df)))
        by (apply in_map; exact Hbin).
      pose proof (Qsum_member_le _ _ Hb Hx) as Hle.
      rewrite List.Forall_forall in Hb. specialize (Hb _ Hx).
      unfold bucket_total in Htot.
      apply ratio_bounds; lra.
  - unfold main_scope. destruct (Qlt_bool (scope2 df) (scope1 df)) eqn:C.
    + apply Qlt_bool_iff in C. split; [intros _; exact C | reflexivity].
    + apply Qlt_bool_false_iff in C. split; [discriminate |].
      intros H. exfalso. lra.
  - intros Hz. unfold dominant_share, top3_share, ratio, percent.
    rewrite (proj2 (Qeq_bool_iff _ _) Hz).
    assert (Hle : (total_emission df <= 0)%Q) by lra.
    rewrite (proj2 (Qlt_bool_false_iff _ _) Hle).
    repeat split.
Qed.

(** The two rows of 1 t each. *)
Lemma slide_shares_are_percentages_witness :
  exists v, dominant_share tie_df = Some v /\ (50 <= v)%Q /\ (v <= 100)%Q.
Proof.
  apply (proj1 (slide_shares_are_percentages stable tie_rows
                  ltac:(repeat constructor; vm_compute; discriminate))).
  vm_compute. reflexivity.
Defined.

(* ===================================================================== *)
(** ** What a run does to the session                                      *)
(* ===================================================================== *)

Lemma block_effect_refl (inp : Inputs) (s : Session) : block_effect inp s s.
Proof. split; [reflexivity |]. split; left; reflexivity. Qed.

Lemma results_block_effect (inp : Inputs) (md : list MatchRow) (p : Page) :
  block_effect inp (session p) (session (snd (results_block inp md p))).
Proof.
  unfold results_block, match_metrics, py_div, bind, show, update, raise, ret.
  destruct (Z.eqb_spec (total md) 0) as [Hz | Hz]; cbn [fst snd session].
  - apply block_effect_refl.
  - assert (Hne : md <> []).
    { intros ->. apply Hz. reflexivity. }
    destruct (reconcile md (edit_matched inp md)) as [out |] eqn:R;
      cbn [fst snd session]; [| apply block_effect_refl].
    destruct (negb (length (manual_items out) =? 0)%nat);
      destruct (click_confirm inp) eqn:C; cbn [fst snd session];
      (split; [reflexivity |]);
      (split; [right; exists md, out; repeat split; assumption |]);
      try (left; reflexivity); try (right; split; [exact C | reflexivity]).
Qed.

Lemma block_effect_from (inp : Inputs) (s s0 s' : Session) :
  factors s0 = factors s ->
  edited_data s0 = edited_data s ->
  calculation_done s0 = calculation_done s ->
  block_effect inp s0 s' -> block_effect inp s s'.
Proof.
  intros F E C (H1 & H2 & H3). unfold block_effect.
  rewrite <- F, <- E, <- C. split; [exact H1 |]. split; assumption.
Qed.

Lemma upload_block_effect (inp : Inputs) (file : string + DataFrame) (p : Page) :
  block_effect inp (session p) (session (snd (upload_block inp file p))).
Proof.
  unfold upload_block, try_except, bind, read_excel, ret, show, update,
    read_session, raise.
  destruct file as [msg | df]; cbn [fst snd session];
    [apply block_effect_refl |].
  destruct (has_required_cols df); cbn [negb fst snd session];
    [| apply block_effect_refl].
  destruct (click_match inp); cbn [fst snd session matched_data
    set_matched_data set_uploaded_data].
  - match goal with
    | |- context [results_block inp ?m ?P] =>
        pose proof (results_block_effect inp m P) as E;
        destruct (results_block inp m P) as [[e | u] p'] eqn:R
    end; cbn [fst snd session] in *; try destruct e;
      cbn [fst snd session];
      exact (block_effect_from inp _ _ _ eq_refl eq_refl eq_refl E).
  - destruct (matched_data (session p)) as [m |] eqn:M;
      cbn [fst snd session].
    + match goal with
      | |- context [results_block inp ?m ?P] =>
          pose proof (results_block_effect inp m P) as E;
          destruct (results_block inp m P) as [[e | u] p'] eqn:R
      end; cbn [fst snd session] in *; try destruct e;
        cbn [fst snd session];
        exact (block_effect_from inp _ _ _ eq_refl eq_refl eq_refl E).
    + split; [reflexivity |]. split; left; reflexivity.
Qed.

Lemma sidebar_block_effect (f : FactorForm) (p : Page) :
  (factors (session (snd (sidebar_block f p))) = factors (session p) \/
   (form_complete f = true /\
    factors (session (snd (sidebar_block f p)))
      = add_factor f (factors (session p)))) /\
  edited_data (session (snd (sidebar_block f p))) = edited_data (session p) /\
  calculation_done (session (snd (sidebar_block f p)))
    = calculation_done (session p).
Proof.
  unfold sidebar_block, bind, read_session, show, update, raise, ret.
  cbn [fst snd session].
  destruct (click_add f); [| cbn; split; [left; reflexivity | split; reflexivity]].
  destruct (form_complete f) eqn:E; cbn.
  - split; [right; split; reflexivity | split; reflexivity].
  - split; [left; reflexivity | split; reflexivity].
Qed.

Lemma run_page_effect (f : FactorForm) (inp : Inputs) (s : Session) :
  (factors (session (snd (run_page f inp s))) = factors s \/
   (form_complete f = true /\
    factors (session (snd (run_page f inp s))) = add_factor f (factors s))) /\
  (edited_data (session (snd (run_page f inp s))) = edited_data s \/
   exists md out : list MatchRow,
     md <> [] /\ reconcile md (edit_matched inp md) = Some out /\
     edited_data (session (snd (run_page f inp s))) = Some out) /\
  (calculation_done (session (snd (run_page f inp s))) = calculation_done s \/
   (click_confirm inp = true /\
    calculation_done (session (snd (run_page f inp s))) = true)).
Proof.
  unfold run_page, page, bind.
  pose proof (sidebar_block_effect f {| session := s; widgets := [] |})
    as (Hf & He & Hc).
  destruct (sidebar_block f {| session := s; widgets := [] |})
    as [[e | u] p] eqn:S; cbn [fst snd session] in *.
  - split; [exact Hf |]. split; left; assumption.
  - assert (B : block_effect inp (session p)
                  (session (snd (match uploaded_file inp with
                                 | Some file => upload_block inp file
                                 | None => ret tt
                                 end p)))).
    { destruct (uploaded_file inp) as [file |];
        [apply upload_block_effect | apply block_effect_refl]. }
    destruct B as (B1 & B2 & B3).
    rewrite B1. split; [exact Hf |].
    rewrite <- He, <- Hc. split; assumption.
Qed.

Lemma reconcile_length (matched_df edited out : list MatchRow) :
  reconcile matched_df edited = Some out -> length out = length edited.
Proof.
  intros H. apply reconcile_from_pointwise in H.
  symmetry. eapply Forall2_length. exact H.
Qed.

(** The sessions runs of the script can reach from a fresh start, the
    editor of the matched table keeping its rows: the library's factors
    stay above zero; a stored confirmed table is never empty; and step 4
    runs only after some run in which the confirm button was pressed, then
    on a table with at least one row. *)
Theorem reachable_sessions_are_sound (runs : list (FactorForm * Inputs)) :
  Forall (fun r => keeps_rows (snd r)) runs ->
  positive_factors (factors (session_after runs initial_session)) /\
  (forall rows,
     edited_data (session_after runs initial_session) = Some rows ->
     rows <> []) /\
  (forall df,
     step4 (session_after runs initial_session) = Some df ->
     df <> [] /\
     (exists r, In r runs /\ click_confirm (snd r) = true)).
Proof.
  intros Hruns.
  assert (G : forall s0 : Session,
            positive_factors (factors s0) ->
            (forall rows, edited_data s0 = Some rows -> rows <> []) ->
            positive_factors (factors (session_after runs s0)) /\
            (forall rows, edited_data (session_after runs s0) = Some rows ->
                          rows <> []) /\
            (calculation_done (session_after runs s0) = true ->
             calculation_done s0 = true \/
             exists r, In r runs /\ click_confirm (snd r) = true)).
  { induction Hruns as [|[f inp] runs Hk _ IH]; intros s0 Hpos Hne.
    - cbn. split; [exact Hpos |]. split; [exact Hne |]. intros H. left. exact H.
    - cbn [session_after fold_left fst snd].
      destruct (run_page_effect f inp s0) as (Ef & Ee & Ec).
      set (s1 := session (snd (run_page f inp s0))) in *.
      assert (Hpos1 : positive_factors (factors s1)).
      { destruct Ef as [-> | [Hok ->]]; [exact Hpos |].
        intros k info Hkk. unfold add_factor in Hkk.
        apply form_complete_iff in Hok. destruct Hok as (_ & Hfac & _).
        destruct (String.eqb_spec (new_name f) k) as [E | E].
        - subst k. rewrite lookup_insert_eq in Hkk. injection Hkk as <-.
          exact Hfac.
        - rewrite lookup_insert_ne in Hkk by exact E. exact (Hpos k info Hkk). }
      assert (Hne1 : forall rows, edited_data s1 = Some rows -> rows <> []).
      { intros rows Hrows. destruct Ee as [E | (md & out & Hmd & Hrec & E)].
        - rewrite E in Hrows. exact (Hne rows Hrows).
        - rewrite E in Hrows. injection Hrows as <-.
          apply reconcile_length in Hrec. cbn [snd] in Hk. rewrite Hk in Hrec.
          intros ->. destruct md; [contradiction | discriminate Hrec]. }
      destruct (IH s1 Hpos1 Hne1) as (I1 & I2 & I3).
      split; [exact I1 |]. split; [exact I2 |].
      intros Hdone. destruct (I3 Hdone) as [Hd | (r & Hr & Hc)].
      + destruct Ec as [E | [Hc _]].
        * left. rewrite <- E. exact Hd.
        * right. exists (f, inp). split; [left; reflexivity | exact Hc].
      + right. exists r. split; [right; exact Hr | exact Hc]. }
  destruct (G initial_session seed_positive) as (G1 & G2 & G3).
  { intros rows H. discriminate H. }
  split; [exact G1 |]. split; [exact G2 |].
  intros df Hdf. unfold step4 in Hdf.
  destruct (calculation_done (session_after runs initial_session)) eqn:D;
    [| discriminate Hdf].
  destruct (edited_data (session_after runs initial_session)) as [rows |] eqn:E;
    [| discriminate Hdf].
  injection Hdf as <-.
  assert (Hne : calc_df rows <> []).
  { specialize (G2 rows eq_refl). destruct rows; [contradiction | discriminate]. }
  split; [exact Hne |].
  destruct (G3 eq_refl) as [H | H]; [discriminate H | exact H].
Qed.

(** One run on the template with match and confirm pressed. *)
Lemma reachable_sessions_are_sound_witness :
  exists df,
    step4 (session_after [(idle_form, confirm_template)] initial_session)
      = Some df /\ df <> [].
Proof.
  eexists. split; [vm_compute; reflexivity |].
  refine (proj1 (proj2 (proj2 (reachable_sessions_are_sound
            [(idle_form, confirm_template)] _)) _ _)).
  - constructor; [intros rows; reflexivity | constructor].
  - vm_compute. reflexivity.
Defined.

(* ===================================================================== *)
(** * The match metrics (app.py, lines 249-254)                            *)
(* ===================================================================== *)

(** On a table the Matcher produced, the 已匹配 metric counts the
    activities whose key is in the factor library, the 未匹配 metric counts
    the rows marked ❌ 未匹配, and the two add up to 总活动数. *)
Theorem metrics_count_library_hits (lib : gmap string FactorInfo)
    (rows : list Activity) :
  matched (result_df lib rows)
  = Z.of_nat (length (List.filter
      (fun a => match lookup_factor lib (key (subcategory a) (source a)) with
                | Some _ => true
                | None => false
                end) rows)) /\
  (total (result_df lib rows) - matched (result_df lib rows))%Z
  = Z.of_nat (length (List.filter
      (fun r => String.eqb (match_status r) STATUS_UNMATCHED)
      (result_df lib rows))) /\
  (0 <= matched (result_df lib rows) <= total (result_df lib rows))%Z.
Proof.
  unfold matched, total, result_df.
  induction rows as [|a rows (IH1 & IH2 & IH3)].
  - cbn. split; [reflexivity |]. split; [reflexivity | lia].
  - assert (Hs : match_status (match_row lib a)
               = match lookup_factor lib (key (subcategory a) (source a)) with
                 | Some _ => STATUS_MATCHED
                 | None => STATUS_UNMATCHED
                 end).
    { unfold match_row.
      destruct (lookup_factor lib (key (subcategory a) (source a)));
        reflexivity. }
    cbn [map List.filter]. rewrite Hs.
    destruct (lookup_factor lib (key (subcategory a) (source a))) as [info |].
    + change (String.eqb STATUS_MATCHED STATUS_MATCHED) with true.
      change (String.eqb STATUS_MATCHED STATUS_UNMATCHED) with false.
      cbn [length]. split; [| split]; lia.
    + change (String.eqb STATUS_UNMATCHED STATUS_MATCHED) with false.
      change (String.eqb STATUS_UNMATCHED STATUS_UNMATCHED) with true.
      cbn [length]. split; [| split]; lia.
Qed.

(* ===================================================================== *)
(** * Live formulas of the export (app.py, lines 454-473, 495-561)         *)
(* ===================================================================== *)

Lemma cell_write_cells_other_row (row r col : nat) (v : Cell)
    (cells : list (nat * Cell)) (ws : gmap (nat * nat) Cell) :
  r <> row ->
  cell r col v (write_cells row cells ws) = write_cells row cells (cell r col v ws).
Proof.
  intros Hr. revert ws. induction cells as [|cv cells IH]; intros ws.
  - reflexivity.
  - unfold write_cells in *. cbn [fold_left]. rewrite IH. f_equal.
    unfold cell. apply insert_insert_ne. intros H. injection H as H _.
    congruence.
Qed.

Lemma cell_write_rows_above (row_idx r col : nat) (v : Cell)
    (df : list CalcRow) (ws : gmap (nat * nat) Cell) :
  (r < row_idx)%nat ->
  cell r col v (write_rows row_idx df ws) = write_rows row_idx df (cell r col v ws).
Proof.
  revert row_idx ws. induction df as [|c df IH]; intros row_idx ws Hr.
  - reflexivity.
  - cbn [write_rows]. rewrite IH by lia. f_equal.
    apply cell_write_cells_other_row. lia.
Qed.

Lemma cell_write_rows_at (row_idx i col : nat) (v : Cell) (df : list CalcRow)
    (c c' : CalcRow) (ws : gmap (nat * nat) Cell) :
  (forall row ws0,
     cell row col v (write_cells row (detail_cells row c) ws0)
     = write_cells row (detail_cells row c') ws0) ->
  df !! i = Some c ->
  cell (row_idx + i) col v (write_rows row_idx df ws)
  = write_rows row_idx (<[i := c']> df) ws.
Proof.
  intros Hcell. revert row_idx i ws.
  induction df as [|c0 df IH]; intros row_idx i ws Hi.
  - discriminate Hi.
  - destruct i as [|i].
    + cbn in Hi. injection Hi as ->. rewrite Nat.add_0_r.
      cbn [write_rows]. change (<[0%nat := c']> (c :: df)) with (c' :: df).
      cbn [write_rows]. rewrite cell_write_rows_above by lia.
      rewrite Hcell. reflexivity.
    + cbn in Hi. change (<[S i := c']> (c0 :: df)) with (c0 :: <[i := c']> df).
      cbn [write_rows].
      replace (row_idx + S i)%nat with (S row_idx + i)%nat by lia.
      apply IH. exact Hi.
Qed.

Lemma map_list_insert {A B : Type} (f : A -> B) (l : list A) (i : nat) (x : A) :
  map f (<[i := x]> l) = <[i := f x]> (map f l).
Proof.
  revert i. induction l as [|y l IH]; intros i.
  - reflexivity.
  - destruct i as [|i]; [reflexivity |].
    change (<[S i := x]> (y :: l)) with (y :: <[i := x]> l).
    cbn [map]. rewrite IH. reflexivity.
Qed.

Lemma type_activity_data (q : Q) (m : MatchRow) (row : nat)
    (ws : gmap (nat * nat) Cell) :
  cell row 5 (Number q) (write_cells row (detail_cells row (calc_row m)) ws)
  = write_cells row (detail_cells row (calc_row (set_activity_data q m))) ws.
Proof.
  apply map_eq. intros [r k]. unfold cell.
  destruct (Nat.eq_dec r row) as [-> | Hr].
  - destruct (Nat.eq_dec k 5) as [-> | Hk].
    + rewrite lookup_insert_eq, write_cells_same_row. reflexivity.
    + rewrite lookup_insert_ne by congruence.
      rewrite !write_cells_same_row.
      do 14 (destruct k as [|k]; [first [reflexivity | congruence] |]).
      reflexivity.
  - rewrite lookup_insert_ne by congruence.
    rewrite !write_cells_other_row by exact Hr. reflexivity.
Qed.

Lemma type_emission_factor (q : Q) (m : MatchRow) (row : nat)
    (ws : gmap (nat * nat) Cell) :
  cell row 8 (Number q) (write_cells row (detail_cells row (calc_row m)) ws)
  = write_cells row (detail_cells row (calc_row (set_emission_factor q m))) ws.
Proof.
  apply map_eq. intros [r k]. unfold cell.
  destruct (Nat.eq_dec r row) as [-> | Hr].
  - destruct (Nat.eq_dec k 8) as [-> | Hk].
    + rewrite lookup_insert_eq, write_cells_same_row. reflexivity.
    + rewrite lookup_insert_ne by congruence.
      rewrite !write_cells_same_row.
      do 14 (destruct k as [|k]; [first [reflexivity | congruence] |]).
      reflexivity.
  - rewrite lookup_insert_ne by congruence.
    rewrite !write_cells_other_row by exact Hr. reflexivity.
Qed.

Lemma export_after_typing (rows : list MatchRow) (i col : nat) (q : Q)
    (m m' : MatchRow) :
  (forall row ws,
     cell row col (Number q) (write_cells row (detail_cells row (calc_row m)) ws)
     = write_cells row (detail_cells row (calc_row m')) ws) ->
  ghg_cell m' = ghg_cell m ->
  rows !! i = Some m ->
  type_number (2 + i) col q (export_excel_with_formulas (calc_df rows))
  = export_excel_with_formulas (calc_df (<[i := m']> rows)).
Proof.
  intros Hcell Hg Hi.
  assert (Hc : calc_df rows !! i = Some (calc_row m)).
  { unfold calc_df. apply lookup_map. exact Hi. }
  unfold type_number, export_excel_with_formulas. cbn [ws1 ws2 ws3].
  assert (Hlen : length (calc_df (<[i := m']> rows)) = length (calc_df rows)).
  { unfold calc_df. rewrite !length_map. apply length_insert. }
  assert (Hgas : map ghg_of (calc_df (<[i := m']> rows))
                 = map ghg_of (calc_df rows)).
  { unfold calc_df. rewrite !map_map, map_list_insert.
    apply list_insert_id.
    rewrite (lookup_map (fun x => ghg_of (calc_row x)) rows i m Hi).
    f_equal. unfold ghg_of. cbn [calc_row mrow]. congruence. }
  rewrite Hlen. f_equal.
  - unfold sheet1, calc_df. rewrite map_list_insert.
    apply (cell_write_rows_at 2 i col (Number q) _ (calc_row m) (calc_row m')).
    + exact Hcell.
    + exact Hc.
  - unfold sheet3. rewrite Hgas. reflexivity.
Qed.

(** The formulas of the exported workbook are live. A number typed over
    the activity datum (column E) or over the factor (column H) of a
    detail row gives exactly the workbook the exporter writes for the
    table with that change: the cells that hold results hold formulas, so
    nothing stale is left behind. *)
Theorem workbook_formulas_are_live (rows : list MatchRow) (i : nat)
    (m : MatchRow) (q : Q) :
  rows !! i = Some m ->
  type_number (2 + i) 5 q (export_excel_with_formulas (calc_df rows))
  = export_excel_with_formulas (calc_df (<[i := set_activity_data q m]> rows)) /\
  type_number (2 + i) 8 q (export_excel_with_formulas (calc_df rows))
  = export_excel_with_formulas (calc_df (<[i := set_emission_factor q m]> rows)).
Proof.
  intros Hi. split.
  - apply (export_after_typing rows i 5 q m (set_activity_data q m));
      [intros row ws; apply type_activity_data | reflexivity | exact Hi].
  - apply (export_after_typing rows i 8 q m (set_emission_factor q m));
      [intros row ws; apply type_emission_factor | reflexivity | exact Hi].
Qed.

(** The natural gas row of the scenario, its factor typed over with 2.5. *)
Lemma workbook_formulas_are_live_witness :
  [scenario_matched] !! 0%nat = Some scenario_matched /\
  type_number 2 8 2.5
    (export_excel_with_formulas (calc_df [scenario_matched]))
  = export_excel_with_formulas
      (calc_df (<[0%nat := set_emission_factor 2.5 scenario_matched]>
                  [scenario_matched])).
Proof.
  split; [reflexivity |].
  exact (proj2 (workbook_formulas_are_live [scenario_matched] 0
                  scenario_matched 2.5 eq_refl)).
Defined.
